(** * Verification of the coding agent's trust layer

    A shallow embedding of the security gate ([tools/safety_callbacks.py]),
    the file-operation audit log ([tools/file_system_tool.py]), the freshness
    checker ([tools/indexing_tool.py]), the semantic search entry point
    ([tools/vector_search_tool.py]) and the shadow-workspace validator
    ([tools/lsp_tool.py]).

    Conventions of the embedding.
    - Python [str] is [string]; case folding and word characters are the
      ASCII ones.
    - Python integers are [Z]; instants ([datetime.datetime.now()], and the
      ISO strings written with [isoformat()] and read back with
      [fromisoformat]) are [Z] microseconds.  One call of a tool reads the
      clock once: the value is the argument [now].
    - [tool_context.state] is modelled per tool by a record holding the keys
      the tool reads or writes; a key that is absent is [None].  The store
      hands out references: [state.get(k, d)] returns the stored object
      itself, so an in-place mutation of it is visible in the store.
    - A call that may raise returns an [outcome]: the value, or the text of
      the exception; [try]/[except] is a [match] on it.  Where steps with
      effects on the file system may raise, they run in a small
      state-and-exception monad.
    - What the process environment supplies (the resolved project root, the
      working directory, the file system, the name of the temporary
      directory, the language-server factory) is an explicit argument. *)

From Stdlib Require Import ZArith Ascii String List Bool Lia Sorted.
From stdpp Require Import base gmap strings list pretty.

Open Scope string_scope.
Open Scope list_scope.

(** ** Python strings *)

Module PyStr.

Definition is_upper (c : ascii) : bool :=
  let n := nat_of_ascii c in (65 <=? n)%nat && (n <=? 90)%nat.

Definition is_lower (c : ascii) : bool :=
  let n := nat_of_ascii c in (97 <=? n)%nat && (n <=? 122)%nat.

Definition is_digit (c : ascii) : bool :=
  let n := nat_of_ascii c in (48 <=? n)%nat && (n <=? 57)%nat.

Definition lower_ascii (c : ascii) : ascii :=
  if is_upper c then ascii_of_nat (nat_of_ascii c + 32) else c.

(** [s.lower()] *)
Fixpoint lower (s : string) : string :=
  match s with
  | EmptyString => EmptyString
  | String c r => String (lower_ascii c) (lower r)
  end.

(** [s.startswith(p)] *)
Fixpoint startswith (s p : string) : bool :=
  match p, s with
  | EmptyString, _ => true
  | String _ _, EmptyString => false
  | String a p', String b s' => Ascii.eqb a b && startswith s' p'
  end.

(** [sub in s] *)
Fixpoint contains (s sub : string) : bool :=
  startswith s sub ||
  match s with
  | EmptyString => false
  | String _ r => contains r sub
  end.

(** [s.endswith(p)] *)
Fixpoint endswith (s p : string) : bool :=
  String.eqb s p ||
  match s with
  | EmptyString => false
  | String _ r => endswith r p
  end.

(** [s.split(sep)] for a one-character separator: never the empty list. *)
Fixpoint split (sep : ascii) (s : string) : list string :=
  match s with
  | EmptyString => [EmptyString]
  | String c r =>
      if Ascii.eqb c sep then EmptyString :: split sep r
      else match split sep r with
           | h :: t => String c h :: t
           | [] => [String c EmptyString]
           end
  end.

(** [sep.join(l)] *)
Definition join (sep : string) (l : list string) : string :=
  String.concat sep l.

(** [s.rfind(c)]: index of the last occurrence, [None] for Python's -1. *)
Fixpoint rfind (c : ascii) (s : string) : option nat :=
  match s with
  | EmptyString => None
  | String a r =>
      match rfind c r with
      | Some i => Some (S i)
      | None => if Ascii.eqb a c then Some 0%nat else None
      end
  end.

(** [s[:n]] *)
Definition slice_to (n : nat) (s : string) : string := substring 0 n s.

(** [s[i:]] *)
Definition slice_from (i : nat) (s : string) : string :=
  substring i (String.length s - i) s.

(** [l[-n:]] for a positive literal [n]. *)
Definition last_n {A} (n : nat) (l : list A) : list A :=
  drop (length l - n) l.

(** The result of a call that may raise: the value returned, or the
    text of the exception. *)
Inductive outcome (A : Type) : Type :=
| Returned (a : A)
| Raised (message : string).
#[global] Arguments Returned {A} a.
#[global] Arguments Raised {A} message.

End PyStr.

(** ** The fragment of [re] the security gate uses

    Every pattern of the source is a concatenation of literal characters,
    escaped literals ([\.], [\/]) and the word boundary [\b].  All searches
    are made with [re.IGNORECASE]. *)

Module Re.
Import PyStr.

Inductive atom : Type :=
| Chr (c : ascii)
| WordB.

(** Reads the pattern text as the source writes it in a raw string:
    a backslash escapes the next character, and [\b] is the word
    boundary. *)
Fixpoint compile_from (escaped : bool) (p : string) : list atom :=
  match p with
  | EmptyString => []
  | String c r =>
      if escaped then
        (if Ascii.eqb c "b"%char then WordB else Chr c) :: compile_from false r
      else if Ascii.eqb c "\"%char then compile_from true r
      else Chr c :: compile_from false r
  end.

Definition compile (p : string) : list atom := compile_from false p.

Definition is_word (c : ascii) : bool :=
  is_upper c || is_lower c || is_digit c || Ascii.eqb c "_"%char.

Definition word_at (o : option ascii) : bool :=
  match o with Some c => is_word c | None => false end.

Definition head_char (s : string) : option ascii :=
  match s with EmptyString => None | String c _ => Some c end.

(** Does the pattern match starting here?  [prev] is the character just
    before the current position. *)
Fixpoint match_here (p : list atom) (prev : option ascii) (s : string)
  {struct p} : bool :=
  match p with
  | [] => true
  | Chr c :: p' =>
      match s with
      | EmptyString => false
      | String a r =>
          Ascii.eqb (lower_ascii c) (lower_ascii a) && match_here p' (Some a) r
      end
  | WordB :: p' =>
      xorb (word_at prev) (word_at (head_char s)) && match_here p' prev s
  end.

Fixpoint search_from (p : list atom) (prev : option ascii) (s : string)
  : bool :=
  match_here p prev s ||
  match s with
  | EmptyString => false
  | String a r => search_from p (Some a) r
  end.

(** [bool(re.search(pattern, s, re.IGNORECASE))] *)
Definition search (pattern s : string) : bool :=
  search_from (compile pattern) None s.

End Re.

(** ** [os.path] and [pathlib] on POSIX *)

Module PosixPath.
Import PyStr.

Definition isabs (p : string) : bool := startswith p "/".

(** [os.path.join(a, b)] *)
Definition join (a b : string) : string :=
  if isabs b then b
  else if String.eqb a "" || endswith a "/" then a +:+ b
  else a +:+ "/" +:+ b.

(** The number of leading slashes [normpath] keeps: POSIX allows one or
    two, three or more count as one. *)
Definition initial_slashes (path : string) : nat :=
  if startswith path "/" then
    if startswith path "//" && negb (startswith path "///") then 2 else 1
  else 0.

(** One turn of the loop of [normpath] over the components. *)
Definition normpath_step (initial : nat) (new_comps : list string)
    (comp : string) : list string :=
  if String.eqb comp "" || String.eqb comp "." then new_comps
  else if negb (String.eqb comp "..")
          || ((initial =? 0)%nat && bool_decide (new_comps = []))
          || bool_decide (last new_comps = Some "..")
  then new_comps ++ [comp]
  else removelast new_comps.

Fixpoint slashes (n : nat) : string :=
  match n with O => "" | S k => "/" +:+ slashes k end.

(** [os.path.normpath(path)] *)
Definition normpath (path : string) : string :=
  if String.eqb path "" then "."
  else
    let initial := initial_slashes path in
    let comps := fold_left (normpath_step initial) (split "/" path) [] in
    let path' := slashes initial +:+ PyStr.join "/" comps in
    if String.eqb path' "" then "." else path'.

(** [os.path.abspath(path)], in a process whose working directory is
    [cwd]. *)
Definition abspath (cwd path : string) : string :=
  normpath (if isabs path then path else join cwd path).

(** The parts [pathlib] keeps of a path text, the root apart: empty
    components and [.] are dropped, [..] is kept. *)
Definition parts (p : string) : list string :=
  filter (fun c => c <> "" /\ c <> ".") (split "/" p).

(** [PurePosixPath(p).name] *)
Definition name (p : string) : string := default "" (last (parts p)).

(** [PurePosixPath(p).suffix]: the text from the last dot of the name, when
    that dot is neither its first nor its last character. *)
Definition suffix (p : string) : string :=
  let nm := name p in
  match rfind "." nm with
  | Some i =>
      if (0 <? i)%nat && (i <? String.length nm - 1)%nat
      then slice_from i nm else ""
  | None => ""
  end.

End PosixPath.

(** ** The security gate: [tools/safety_callbacks.py] *)

Module Safety.
Import PyStr.

Inductive Severity : Type := info | warning | error.

Definition severity_eqb (a b : Severity) : bool :=
  match a, b with
  | info, info | warning, warning | error, error => true
  | _, _ => false
  end.

(** [SecurityValidator]: [project_root] is [str(Path(root).resolve())],
    an absolute, normalised path.  [cwd] is the working directory of the
    process, which [os.path.abspath] consults for a relative argument. *)
Record SecurityValidator : Type := {
  project_root : string;
  cwd : string
}.

Definition dangerous_paths : list string :=
  [ "\.\.\/"; "\/etc\/"; "\/var\/"; "\/usr\/"; "\/bin\/"; "\/sbin\/";
    "~\/\.ssh"; "~\/\.aws"; "\/proc\/"; "\/sys\/" ].

Definition dangerous_operations : list string :=
  [ "rm -rf"; "sudo"; "chmod 777"; ">/dev/null"; "2>&1"; "exec("; "eval(";
    "__import__"; "subprocess"; "os.system" ].

Definition sensitive_extensions : list string :=
  [ ".sh"; ".bat"; ".exe"; ".dll"; ".so"; ".key"; ".pem"; ".p12"; ".pfx";
    ".env"; ".config" ].

Record PathValidation : Type := {
  pv_valid : bool;
  pv_severity : Severity;
  pv_issues : list string;
  pv_file_path : string
}.

(** The loop over [dangerous_paths]: every pattern found adds an issue
    and sets the severity to [error]. *)
Definition scan_dangerous_paths (file_path : string)
    : list string * Severity :=
  fold_left
    (fun (acc : list string * Severity) pattern =>
       if Re.search pattern file_path
       then (acc.1 ++ ["Dangerous path pattern detected: " +:+ pattern], error)
       else acc)
    dangerous_paths ([], info).

(** [SecurityValidator.validate_file_path].  Neither [os.path.join] nor
    [os.path.abspath] raises on a [str], so the [except] arm is dead. *)
Definition validate_file_path (self : SecurityValidator)
    (file_path : string) : PathValidation :=
  let '(issues, severity) := scan_dangerous_paths file_path in
  let abs_path :=
    PosixPath.abspath (cwd self)
      (PosixPath.join (project_root self) file_path) in
  let '(issues, severity) :=
    if negb (startswith abs_path (project_root self))
    then (issues ++ ["Path is outside project directory"], error)
    else (issues, severity) in
  let file_ext := lower (PosixPath.suffix file_path) in
  let '(issues, severity) :=
    if bool_decide (file_ext ∈ sensitive_extensions)
    then (issues ++ ["Sensitive file type: " +:+ file_ext],
          if severity_eqb severity info then warning else severity)
    else (issues, severity) in
  {| pv_valid := negb (severity_eqb severity error);
     pv_severity := severity;
     pv_issues := issues;
     pv_file_path := file_path |}.

(** What the claim calls lying outside the root: the components of the
    normalised absolute form do not begin with the components of the
    root.  This is the specification's notion, independent of how the
    code tests it. *)
Definition components (p : string) : list string :=
  filter (fun c => c <> "") (split "/" p).

Definition resolves_outside (self : SecurityValidator) (p : string) : bool :=
  let abs_path :=
    PosixPath.abspath (cwd self) (PosixPath.join (project_root self) p) in
  negb (bool_decide (components (project_root self)
                     `prefix_of` components abs_path)).

(** The shape of a resolved root: [/] followed by its components, each
    of them a name. *)
Fixpoint slash_free (s : string) : Prop :=
  match s with
  | EmptyString => True
  | String c r => c <> "/"%char /\ slash_free r
  end.

Definition plain_component (c : string) : Prop :=
  c <> "" /\ c <> "." /\ c <> ".." /\ slash_free c.

Definition nonempty_slash_free (c : string) : Prop :=
  c <> "" /\ slash_free c.

Definition root_of (rc : list string) : string := "/" +:+ PyStr.join "/" rc.

(** A component [normpath] keeps. *)
Definition kept (c : string) : Prop := c <> "" /\ c <> ".".

#[global] Instance kept_dec (c : string) : Decision (kept c).
Proof. unfold kept. apply _. Defined.

(** The first deny-list pattern, compiled. *)
Definition traversal : list Re.atom := Re.compile "\.\.\/".

(** *** Content validation *)

Record ContentValidation : Type := {
  cv_valid : bool;
  cv_severity : Severity;
  cv_issues : list string;
  cv_content_size : nat
}.

Definition scan_dangerous_operations (content_lower : string)
    : list string * Severity :=
  fold_left
    (fun (acc : list string * Severity) operation =>
       if contains content_lower (lower operation)
       then (acc.1 ++ ["Potentially dangerous operation: " +:+ operation],
             warning)
       else acc)
    dangerous_operations ([], info).

(** [SecurityValidator.validate_content] *)
Definition validate_content (content : string) : ContentValidation :=
  let content_lower := lower content in
  let '(issues, severity) := scan_dangerous_operations content_lower in
  let '(issues, severity) :=
    if (1024 * 1024 <? Z.of_nat (String.length content))%Z
    then (issues ++ ["Content is very large (>1MB)"],
          if severity_eqb severity info then warning else severity)
    else (issues, severity) in
  {| cv_valid := true;
     cv_severity := severity;
     cv_issues := issues;
     cv_content_size := String.length content |}.

(** *** The file-operation callback *)

(** [operation_entry["validation_result"]]: [None], the path verdict
    (to which the content verdict is added under the key
    [content_validation] when there is one), or a dict holding only the
    content verdict. *)
Inductive ValidationResult : Type :=
| VRNone
| VRPath (pv : PathValidation) (cv : option ContentValidation)
| VRContent (cv : ContentValidation).

Record OperationEntry : Type := {
  oe_timestamp : Z;
  oe_tool : string;
  oe_args : gmap string string;
  oe_validation_result : ValidationResult;
  oe_action : string;
  oe_error : option string
}.

Record SecurityWarning : Type := {
  sw_timestamp : Z;
  sw_tool : string;
  sw_type : string;
  sw_issues : list string
}.

(** [security_counters]: a dict with the three keys the default gives
    it; only this callback writes it. *)
Record Counters : Type := {
  allowed : Z;
  blocked : Z;
  warnings : Z
}.

(** The keys of the session state the callback touches. *)
Record SecurityState : Type := {
  security_log : option (list OperationEntry);
  security_warnings : option (list SecurityWarning);
  security_counters : option Counters
}.

(** What the callback returns: [None] lets the tool run, a dict replaces
    the tool's result. *)
Inductive FileVerdict : Type :=
| Allow
| Blocked (reason : string) (issues : list string) (tool : string)
| ValidationError (message : string) (tool : string).

(** Truthiness of [args.get(k)]: present and not the empty string. *)
Definition truthy_arg (args : gmap string string) (k : string)
    : option string :=
  match args !! k with
  | Some v => if String.eqb v "" then None else Some v
  | None => None
  end.

(** [.get("validation_result", {}).get("content_validation", {})
    .get("severity")]: the key [validation_result] is always present, so
    the default never applies, and [None.get] raises. *)
Definition content_severity_of (vr : ValidationResult)
    : option (option Severity) :=
  match vr with
  | VRNone => None
  | VRPath _ cv => Some (cv_severity <$> cv)
  | VRContent cv => Some (Some (cv_severity cv))
  end.

Definition none_get_error : string :=
  "'NoneType' object has no attribute 'get'".

Definition default_counters : Counters :=
  {| allowed := 0; blocked := 0; warnings := 0 |}.

Definition incr_allowed (c : Counters) : Counters :=
  {| allowed := allowed c + 1; blocked := blocked c; warnings := warnings c |}.

Definition incr_warnings (c : Counters) : Counters :=
  {| allowed := allowed c; blocked := blocked c; warnings := warnings c + 1 |}.

Definition is_warning_or_error (s : Severity) : bool :=
  severity_eqb s warning || severity_eqb s error.

(** [validate_file_operations(tool, args, tool_context)].

    [project_root] and [cwd] are what the callback reads from the
    process: [str(Path(os.environ.get('ADK_PROJECT_ROOT', os.getcwd()))
    .resolve())] and [os.getcwd()].  [tool] is [tool.__name__].

    [operations_log] is the list object stored under [security_log] (or a
    fresh list); every [append] goes to that object and the state then
    receives a slice of it.  [operation_entry] is one dict object: the
    [except] arm sets its action to ["error"] and appends it again to a
    list that already holds it.  [counters] is the dict stored under
    [security_counters] when there is one, so [counters["allowed"] += 1]
    reaches the store even when the next line raises. *)
Definition validate_file_operations (root : string) (wd : string)
    (now : Z) (tool : string) (args : gmap string string)
    (st : SecurityState) : SecurityState * FileVerdict :=
  let validator := {| project_root := root; cwd := wd |} in
  let operations_log := default [] (security_log st) in
  let entry (vr : ValidationResult) (action : string) (err : option string) :=
    {| oe_timestamp := now;
       oe_tool := tool;
       oe_args := slice_to 100 <$> args;
       oe_validation_result := vr;
       oe_action := action;
       oe_error := err |} in
  let path_validation :=
    validate_file_path validator <$> truthy_arg args "file_path" in
  if match path_validation with
     | Some pv => negb (pv_valid pv)
     | None => false
     end
  then
    let pv_issues_ :=
      match path_validation with Some pv => pv_issues pv | None => [] end in
    let vr :=
      match path_validation with Some pv => VRPath pv None | None => VRNone end in
    ({| security_log :=
          Some (last_n 100 (operations_log ++ [entry vr "blocked" None]));
        security_warnings := security_warnings st;
        security_counters := security_counters st |},
     Blocked "Security validation failed" pv_issues_ tool)
  else
    let content_validation :=
      validate_content <$> truthy_arg args "content" in
    let vr :=
      match path_validation, content_validation with
      | Some pv, cv => VRPath pv cv
      | None, Some cv => VRContent cv
      | None, None => VRNone
      end in
    let warnings_after :=
      match content_validation with
      | Some cv =>
          if is_warning_or_error (cv_severity cv)
          then Some (last_n 50
                       (default [] (security_warnings st) ++
                        [ {| sw_timestamp := now;
                             sw_tool := tool;
                             sw_type := "content_validation";
                             sw_issues := cv_issues cv |} ]))
          else security_warnings st
      | None => security_warnings st
      end in
    match content_severity_of vr with
    | Some sev =>
        let counters :=
          incr_allowed (default default_counters (security_counters st)) in
        let counters :=
          match sev with
          | Some warning => incr_warnings counters
          | _ => counters
          end in
        ({| security_log :=
              Some (last_n 100 (operations_log ++ [entry vr "allowed" None]));
            security_warnings := warnings_after;
            security_counters := Some counters |},
         Allow)
    | None =>
        let e := entry vr "error" (Some none_get_error) in
        ({| security_log := Some (last_n 100 (operations_log ++ [e; e]));
            security_warnings := warnings_after;
            security_counters := incr_allowed <$> security_counters st |},
         ValidationError ("Security validation error: " +:+ none_get_error)
                         tool)
    end.

(** *** The search callback *)

Record SearchEntry : Type := {
  se_timestamp : Z;
  se_tool : string;
  se_query : string;
  se_issues : list string;
  se_action : string
}.

Definition suspicious_patterns : list string :=
  [ "<script"; "javascript:"; "\bUNION\b"; "\bSELECT\b"; "\bDROP\b";
    "\bDELETE\b" ].

(** [timedelta.seconds] of a difference of [delta] microseconds: the
    seconds field of the normalised (days, seconds, microseconds)
    triple, between 0 and 86399. *)
Definition timedelta_seconds (delta : Z) : Z :=
  ((delta / 1000000) mod 86400)%Z.

Inductive SearchVerdict : Type :=
| SearchAllow
| SearchBlocked (reason : string) (issues : list string) (tool : string)
| SearchRateLimited (reason : string) (tool : string).

Definition query_issues (query : string) : list string :=
  (fun pattern => "Suspicious pattern in query: " +:+ pattern) <$>
  List.filter (fun pattern => Re.search pattern query) suspicious_patterns.

Definition is_recent (now : Z) (e : SearchEntry) : bool :=
  (timedelta_seconds (now - se_timestamp e) <? 60)%Z.

(** [validate_search_operations(tool, args, tool_context)]; the state
    argument and result are the value under [search_security_log]. *)
Definition validate_search_operations (now : Z) (tool : string)
    (args : gmap string string) (log : option (list SearchEntry))
    : option (list SearchEntry) * SearchVerdict :=
  let search_log := default [] log in
  let query := default "" (args !! "query") in
  let issues := query_issues query in
  let search_entry (action : string) :=
    {| se_timestamp := now;
       se_tool := tool;
       se_query := slice_to 200 query;
       se_issues := issues;
       se_action := action |} in
  if negb (bool_decide (issues = [])) then
    (Some (last_n 50 (search_log ++ [search_entry "blocked"])),
     SearchBlocked "Suspicious query patterns detected" issues tool)
  else
    let recent_searches := List.filter (is_recent now) search_log in
    if (20 <? length recent_searches)%nat then
      (Some (last_n 50 (search_log ++ [search_entry "rate_limited"])),
       SearchRateLimited "Too many search requests" tool)
    else
      (Some (last_n 50 (search_log ++ [search_entry "allowed"])),
       SearchAllow).

(** A session: the calls are made in order at the given instants, each
    on the log the previous one left.  Returns the final log and the
    verdicts in call order. *)
Fixpoint run_searches (tool : string) (calls : list (Z * gmap string string))
    (log : option (list SearchEntry))
    : option (list SearchEntry) * list SearchVerdict :=
  match calls with
  | [] => (log, [])
  | (now, args) :: rest =>
      let '(log1, v) := validate_search_operations now tool args log in
      let '(log2, vs) := run_searches tool rest log1 in
      (log2, v :: vs)
  end.

(** A call whose query matches no suspicious pattern. *)
Definition benign (call : Z * gmap string string) : Prop :=
  query_issues (default "" (call.2 !! "query")) = [].

(** The search log, read as [state.get("search_security_log", [])]. *)
Definition entries (log : option (list SearchEntry)) : list SearchEntry :=
  default [] log.

(** The security log, read as [state.get("security_log", [])]. *)
Definition log_of (st : SecurityState) : list OperationEntry :=
  default [] (security_log st).

(** *** Sample inputs *)

(** A validator for the project [/srv/app]. *)
Definition app_validator : SecurityValidator :=
  {| project_root := "/srv/app"; cwd := "/" |}.

(** A file in [/srv/app2], a directory beside the project whose name
    begins with the project's. *)
Definition sibling_file : string := "/srv/app2/main.py".

Definition fresh_state : SecurityState :=
  {| security_log := None; security_warnings := None;
     security_counters := None |}.

Definition counted_state : SecurityState :=
  {| security_log := None; security_warnings := None;
     security_counters :=
       Some {| allowed := 3; blocked := 0; warnings := 0 |} |}.

Definition benign_query : gmap string string :=
  {[ "query" := "parse config" ]}.

(** [n] calls with the same harmless query, [step] seconds apart, the
    first at second 0. *)
Definition paced (step : Z) (n : nat) : list (Z * gmap string string) :=
  (fun i : nat => ((Z.of_nat i * step * 1000000)%Z, benign_query)) <$> seq 0 n.

End Safety.

(** ** The file-operation audit log: [tools/file_system_tool.py] *)

Module FileSystemTool.
Import PyStr.

Record FileOperation : Type := {
  fo_timestamp : Z;
  fo_operation : string;
  fo_file_path : string;
  fo_success : bool;
  fo_details : string
}.

Record FileOpState : Type := {
  file_operations_log : option (list FileOperation);
  operation_counters : option (gmap string Z)
}.

Definition empty_state : FileOpState :=
  {| file_operations_log := None; operation_counters := None |}.

Definition default_operation_counters : gmap string Z :=
  {[ "read" := 0%Z; "write" := 0%Z ]}.

(** [_log_file_operation(tool_context, operation, file_path, success,
    details)] *)
Definition _log_file_operation (now : Z) (operation file_path : string)
    (success : bool) (details : string) (st : FileOpState) : FileOpState :=
  let operations_log :=
    default [] (file_operations_log st) ++
    [ {| fo_timestamp := now;
         fo_operation := operation;
         fo_file_path := file_path;
         fo_success := success;
         fo_details := details |} ] in
  let counters := default default_operation_counters (operation_counters st) in
  let counters :=
    if success
    then <[ operation := (default 0 (counters !! operation) + 1)%Z ]> counters
    else counters in
  {| file_operations_log := Some operations_log;
     operation_counters := Some counters |}.

Record LogCall : Type := {
  lc_now : Z;
  lc_operation : string;
  lc_file_path : string;
  lc_success : bool;
  lc_details : string
}.

(** The state after a sequence of logged operations. *)
Definition log_all (calls : list LogCall) (st : FileOpState) : FileOpState :=
  fold_left
    (fun st c =>
       _log_file_operation (lc_now c) (lc_operation c) (lc_file_path c)
         (lc_success c) (lc_details c) st)
    calls st.

Definition log_length (st : FileOpState) : nat :=
  length (default [] (file_operations_log st)).

(** The entry [read_file] logs for a successful read of [a.py]. *)
Definition one_read : LogCall :=
  {| lc_now := 0; lc_operation := "read"; lc_file_path := "a.py";
     lc_success := true; lc_details := "Read 0 characters" |}.

End FileSystemTool.

(** ** The freshness checker: [tools/indexing_tool.py] *)

Module Indexing.
Import PyStr.

(** A stored timestamp text: one that [fromisoformat] reads as an
    instant, or any other non-empty text, on which it raises. *)
Inductive IsoString : Type :=
| IsoInstant (us : Z)
| NotIso (text : string).

(** [index_status]: [last_indexed] is [None] when the key is missing or
    holds an empty text. *)
Record IndexStatus : Type := {
  last_indexed : option IsoString;
  files_count : Z;
  elements_count : Z;
  has_errors : bool
}.

(** [index_status] is [None] when the key is missing or holds an empty
    dict. *)
Record IndexState : Type := {
  index_status : option IndexStatus;
  indexed_files : option (list string)
}.

Definition code_extensions : list string :=
  [ ".py"; ".js"; ".ts"; ".tsx"; ".jsx"; ".md" ].

Definition ignore_dirs : list string :=
  [ ".git"; "__pycache__"; "node_modules"; ".venv"; "venv"; ".adk_index" ].

(** The project tree as [rglob] walks it: the parts, relative to the
    project root, of every entry below it. *)
Definition Tree : Type := list (list string).

(** [project_root.rglob("*" + ext)] *)
Definition rglob (tree : Tree) (ext : string) : Tree :=
  List.filter (fun rel => endswith (default "" (last rel)) ext) tree.

(** [current_files], as the set built from it.  [root_parts] is
    [project_root.parts]: the test on [f.parts] sees them too. *)
Definition current_files_set (root_parts : list string) (tree : Tree)
    : gset string :=
  let current_files := flat_map (rglob tree) code_extensions in
  let kept :=
    List.filter
      (fun rel =>
         negb (existsb
                 (fun ignore_dir =>
                    bool_decide (ignore_dir ∈ root_parts ++ rel))
                 ignore_dirs))
      current_files in
  list_to_set (PyStr.join "/" <$> kept).

(** The result dict.  The age is kept in microseconds where the source
    formats hours; the two sets stand for the counts and the previews of
    at most five names the source derives from them. *)
Inductive Freshness : Type :=
| NoIndexFound
| TimestampMissing
| IndexTooOld (age : Z)
| FilesChanged (new_files deleted_files : gset string)
| UpToDate (age : Z) (last_indexed_at : Z)
| FreshnessError (text : string).

(** The field [fresh] of the result. *)
Definition fresh (r : Freshness) : bool :=
  match r with
  | UpToDate _ _ => true
  | _ => false
  end.

Definition day : Z := (24 * 3600 * 1000000)%Z.

(** [check_index_freshness_tool(tool_context)].  [hours_since_index >
    24] is decided on the exact age. *)
Definition check_index_freshness_tool (now : Z) (root_parts : list string)
    (tree : Tree) (st : IndexState) : Freshness :=
  match index_status st with
  | None => NoIndexFound
  | Some status =>
      match last_indexed status with
      | None => TimestampMissing
      | Some (NotIso text) => FreshnessError text
      | Some (IsoInstant t) =>
          let age := (now - t)%Z in
          if (day <? age)%Z then IndexTooOld age
          else
            let indexed : gset string :=
              list_to_set (default [] (indexed_files st)) in
            let current_files_set := current_files_set root_parts tree in
            let new_files := current_files_set ∖ indexed in
            let deleted_files := indexed ∖ current_files_set in
            if negb (bool_decide (new_files = ∅))
               || negb (bool_decide (deleted_files = ∅))
            then FilesChanged new_files deleted_files
            else UpToDate age t
      end
  end.

(** The recorded indexed-file set. *)
Definition indexed_set (st : IndexState) : gset string :=
  list_to_set (default [] (indexed_files st)).

(** What [index_codebase_tool] leaves in these two keys when the indexer
    returned [files] as its indexed files. *)
Definition state_after_indexing (now : Z) (files : list string)
    (total_elements : Z) (errors : list string) : IndexState :=
  {| index_status :=
       Some {| last_indexed := Some (IsoInstant now);
               files_count := Z.of_nat (length files);
               elements_count := total_elements;
               has_errors := (0 <? length errors)%nat |};
     indexed_files := Some files |}.

End Indexing.

(** ** Semantic search: [tools/vector_search_tool.py] *)

Module VectorSearch.
Import PyStr.

(** The metadata dict of an element; a missing key is [None]. *)
Record Meta : Type := {
  m_name : option string;
  m_element_type : option string;
  m_file_path : option string;
  m_start_line : option Z;
  m_end_line : option Z;
  m_docstring : option string
}.

Definition empty_meta : Meta :=
  {| m_name := None; m_element_type := None; m_file_path := None;
     m_start_line := None; m_end_line := None; m_docstring := None |}.

Record SearchLogEntry : Type := {
  sl_timestamp : Z;
  sl_query : string;
  sl_search_type : string;
  sl_results_count : nat;
  sl_successful : bool
}.

Section Search.
(** Distances are floats and embeddings are vectors of floats; the
    search only passes them along, subtracts a distance from one, and
    uses [1.0] where a distance is missing. *)
Context {Dist Embedding : Type}.
Variable one_minus : Dist -> Dist.
Variable default_distance : Dist.
Variable encode : string -> outcome Embedding.

(** What [collection.query] returns; a missing key reads as [[]]. *)
Record QueryResults : Type := {
  documents : list (list string);
  metadatas : list (list Meta);
  distances : list (list Dist)
}.

(** A ChromaDB collection, seen through [query(query_embeddings,
    n_results, where)]. *)
Record Collection : Type := {
  query : Embedding -> Z -> option string -> outcome QueryResults
}.

Record VectorSearchTool : Type := {
  code_collection : option Collection;
  file_collection : option Collection
}.

(** [VectorSearchTool.__init__]: [get_collection] raises [ValueError]
    for a collection that does not exist ([None] here), and one
    failure leaves both fields [None]. *)
Definition init (get_collection : string -> option Collection)
    : VectorSearchTool :=
  match get_collection "code_elements" with
  | None => {| code_collection := None; file_collection := None |}
  | Some code =>
      match get_collection "file_summaries" with
      | None => {| code_collection := None; file_collection := None |}
      | Some files =>
          {| code_collection := Some code; file_collection := Some files |}
      end
  end.

Record SearchResult : Type := {
  rank : nat;
  similarity_score : Dist;
  element_name : string;
  element_type : string;
  file_path : string;
  start_line : Z;
  end_line : Z;
  content_preview : string;
  docstring : string
}.

Record SearchState : Type := {
  search_history : option (list SearchLogEntry);
  search_counters : option (gmap string Z);
  last_search_results : option (list SearchResult);
  last_search_query : option string;
  discovered_files : option (gset string)
}.

(** The dict a search returns. *)
Record Response : Type := {
  status : string;
  message : option string;
  response_query : option string;
  results_count : option nat;
  results : list SearchResult
}.

(** [_log_search] *)
Definition _log_search (now : Z) (q search_type : string)
    (count : nat) (successful : bool) (st : SearchState) : SearchState :=
  let history :=
    default [] (search_history st) ++
    [ {| sl_timestamp := now; sl_query := q;
         sl_search_type := search_type;
         sl_results_count := count;
         sl_successful := successful |} ] in
  let counters := default ∅ (search_counters st) in
  {| search_history := Some (last_n 50 history);
     search_counters :=
       Some (<[ search_type :=
                  (default 0 (counters !! search_type) + 1)%Z ]> counters);
     last_search_results := last_search_results st;
     last_search_query := last_search_query st;
     discovered_files := discovered_files st |}.

Definition log_if_context (now : Z) (q : string) (count : nat)
    (successful : bool) (ctx : option SearchState) : option SearchState :=
  _log_search now q "semantic_code" count successful <$> ctx.

Definition is_space (c : ascii) : bool :=
  let n := nat_of_ascii c in
  ((9 <=? n) && (n <=? 13) || (28 <=? n) && (n <=? 32))%nat.

(** [bool(s.strip())] *)
Fixpoint strip_nonempty (s : string) : bool :=
  match s with
  | EmptyString => false
  | String c r => negb (is_space c) || strip_nonempty r
  end.

Definition preview (doc : string) : string :=
  if (200 <? String.length doc)%nat
  then slice_to 200 doc +:+ "..." else doc.

Definition format_results (doc_list : list string) (meta_list : list Meta)
    (dist_list : list Dist) : list SearchResult :=
  imap
    (fun i doc =>
       let meta := default empty_meta (meta_list !! i) in
       let dist := default default_distance (dist_list !! i) in
       {| rank := i + 1;
          similarity_score := one_minus dist;
          element_name := default "Unknown" (m_name meta);
          element_type := default "Unknown" (m_element_type meta);
          file_path := default "Unknown" (m_file_path meta);
          start_line := default 0%Z (m_start_line meta);
          end_line := default 0%Z (m_end_line meta);
          content_preview := preview doc;
          docstring := default "" (m_docstring meta) |})
    doc_list.

(** The remediation message of a search without an index. *)
Definition remediation : string :=
  "No code index found. Please run indexing first.".

Definition error_response (text : string) : Response :=
  {| status := "error"; message := Some text; response_query := None;
     results_count := None; results := [] |}.

(** [VectorSearchTool.semantic_search] *)
Definition semantic_search (self : VectorSearchTool) (now : Z)
    (q : string) (max_results : Z) (file_type_filter : option string)
    (ctx : option SearchState) : Response * option SearchState :=
  match code_collection self with
  | None =>
      (error_response remediation, log_if_context now q 0 false ctx)
  | Some collection =>
      let failed (e : string) :=
        (error_response ("Search failed: " +:+ e),
         log_if_context now q 0 false ctx) in
      match encode q with
      | Raised e => failed e
      | Returned query_embedding =>
          let where_ :=
            match file_type_filter with
            | Some f =>
                if negb (String.eqb f "") && strip_nonempty f
                then Some f else None
            | None => None
            end in
          match query collection query_embedding max_results where_ with
          | Raised e => failed e
          | Returned res =>
              match head (documents res) with
              | None | Some [] =>
                  ({| status := "success";
                      message :=
                        Some ("No results found for query: '" +:+ q +:+ "'");
                      response_query := None;
                      results_count := None;
                      results := [] |},
                   log_if_context now q 0 true ctx)
              | Some doc_list =>
                  let formatted_results :=
                    format_results doc_list
                      (default [] (head (metadatas res)))
                      (default [] (head (distances res))) in
                  let record_results (st : SearchState) : SearchState :=
                    let st :=
                      _log_search now q "semantic_code"
                        (length formatted_results) true st in
                    {| search_history := search_history st;
                       search_counters := search_counters st;
                       last_search_results := Some formatted_results;
                       last_search_query := Some q;
                       discovered_files :=
                         Some (default ∅ (discovered_files st) ∪
                               list_to_set (file_path <$> formatted_results))
                    |} in
                  ({| status := "success";
                      message := None;
                      response_query := Some q;
                      results_count := Some (length formatted_results);
                      results := formatted_results |},
                   record_results <$> ctx)
              end
          end
      end
  end.

End Search.

End VectorSearch.

(** ** The shadow-workspace validator: [tools/lsp_tool.py] *)

Module Lsp.
Import PyStr.

(** *** The file system

    A path is the list of its components below the root [/].  The file
    system has no symbolic links, and a [..] component cancels the
    component before it.  Permissions are not modelled: what fails is what
    fails by the shape of the tree. *)

Inductive node : Type :=
| File (content : string)
| Dir.

#[global] Instance node_eq_dec : EqDecision node.
Proof. solve_decision. Defined.

Abbreviation FS := (gmap (list string) node).

(** The file-system steps run in a state-and-exception monad: a step
    that raises keeps the changes made before it.  An exception is
    carried by the name of its class, which is what an [except] clause
    tests; the text Python formats from it (the errno and the path) is
    not modelled. *)
Definition M (A : Type) : Type := FS -> FS * outcome A.

Definition ret {A} (a : A) : M A := fun fs => (fs, Returned a).

Definition raise {A} (e : string) : M A := fun fs => (fs, Raised e).

Definition bind {A B} (m : M A) (k : A -> M B) : M B :=
  fun fs =>
    match m fs with
    | (fs', Returned a) => k a fs'
    | (fs', Raised e) => (fs', Raised e)
    end.

(** [try: m except Exception as e: h e] *)
Definition catch {A} (m : M A) (h : string -> M A) : M A :=
  fun fs =>
    match m fs with
    | (fs', Returned a) => (fs', Returned a)
    | (fs', Raised e) => h e fs'
    end.

Notation "'let*' x ':=' m 'in' k" :=
  (bind m (fun x => k))
  (at level 10, x name, m at level 100, k at level 200).

(** [Path(a) / b]: a pure path keeps [..], and an absolute right operand
    replaces the left one. *)
Definition truediv (base : list string) (p : string) : list string :=
  if PosixPath.isabs p then PosixPath.parts p else base ++ PosixPath.parts p.

(** [path.parent] *)
Definition parent (p : list string) : list string := removelast p.

(** The entry a pure path names. *)
Definition resolve (p : list string) : list string :=
  fold_left
    (fun acc c => if String.eqb c ".." then removelast acc else acc ++ [c])
    p [].

(** [str(path)] *)
Definition path_text (p : list string) : string := "/" +:+ join "/" p.

Definition lookup_node (fs : FS) (p : list string) : option node :=
  let k := resolve p in
  if bool_decide (k = []) then Some Dir else fs !! k.

(** [path.exists()] *)
Definition path_exists (fs : FS) (p : list string) : bool :=
  bool_decide (is_Some (lookup_node fs p)).

(** [os.path.isdir(path)] *)
Definition is_dir (fs : FS) (p : list string) : bool :=
  bool_decide (lookup_node fs p = Some Dir).

(** Creates the directories of [todo] one below the other under [done]. *)
Fixpoint mkdir_from (done todo : list string) : M unit :=
  match todo with
  | [] => ret tt
  | c :: rest =>
      let q := done ++ [c] in
      fun fs =>
        match fs !! q with
        | Some (File _) =>
            (fs, Raised (if bool_decide (rest = [])
                         then "FileExistsError" else "NotADirectoryError"))
        | Some Dir => mkdir_from q rest fs
        | None => mkdir_from q rest (<[ q := Dir ]> fs)
        end
  end.

(** [path.mkdir(parents=True, exist_ok=True)] *)
Definition mkdir_parents (p : list string) : M unit :=
  mkdir_from [] (resolve p).

(** [with open(path, 'w') as f: f.write(content)] *)
Definition write_text (p : list string) (content : string) : M unit :=
  fun fs =>
    if is_dir fs p then (fs, Raised "IsADirectoryError")
    else if negb (is_dir fs (parent (resolve p)))
    then (fs, Raised "FileNotFoundError")
    else (<[ resolve p := File content ]> fs, Returned tt).

(** [with open(path, 'r') as f: f.read()] *)
Definition read_text (p : list string) : M string :=
  fun fs =>
    match lookup_node fs p with
    | Some (File content) => (fs, Returned content)
    | Some Dir => (fs, Raised "IsADirectoryError")
    | None => (fs, Raised "FileNotFoundError")
    end.

(** [shutil.copy2(src, dst)]: a destination that is a directory
    receives the file under [os.path.basename(src)]; copying a file onto
    itself raises [SameFileError]. *)
Definition copy2 (src dst : list string) : M unit :=
  fun fs =>
    let dst :=
      if is_dir fs dst then dst ++ option_list (last src) else dst in
    if path_exists fs src && bool_decide (resolve src = resolve dst)
    then (fs, Raised "SameFileError")
    else
      match read_text src fs with
      | (_, Returned content) => write_text dst content fs
      | (_, Raised e) => (fs, Raised e)
      end.

(** [tempfile.mkdtemp()], [temp_dir] being the unused name it picks. *)
Definition mkdtemp (temp_dir : list string) : M unit :=
  fun fs =>
    if path_exists fs temp_dir then (fs, Raised "FileExistsError")
    else if negb (is_dir fs (parent temp_dir))
    then (fs, Raised "FileNotFoundError")
    else (<[ resolve temp_dir := Dir ]> fs, Returned tt).

(** [shutil.rmtree(temp_dir)], as [TemporaryDirectory] runs it when the
    [with] block is left: the directory and all below it go. *)
Definition rmtree (temp_dir : list string) (fs : FS) : FS :=
  filter (fun kv => ¬ (resolve temp_dir `prefix_of` kv.1)) fs.

(** *** Frames

    The vocabulary in which the effect of the validator on the tree is
    stated. *)

(** [fs'] is [fs] everywhere but at and below the directory [t]. *)
Definition same_outside (t : list string) (fs fs' : FS) : Prop :=
  forall k, ¬ t `prefix_of` k -> fs' !! k = fs !! k.

(** Every directory above [t] is there. *)
Definition ancestors_are_dirs (t : list string) (fs : FS) : Prop :=
  forall q, q `prefix_of` t -> q <> t -> q <> [] -> fs !! q = Some Dir.

(** [t] is an unused name: nothing at it, nothing below it. *)
Definition nothing_below (t : list string) (fs : FS) : Prop :=
  forall k, t `prefix_of` k -> fs !! k = None.

(** A relative path text without [..]: joined to a directory, it names
    an entry below that directory. *)
Definition stays_below (f : string) : Prop :=
  PosixPath.isabs f = false /\ ".." ∉ PosixPath.parts f.

(** *** Diagnostics *)

(** The value under [severity]: the number a language server sends (in
    the protocol 1 is an error and 2 a warning, the two numbers the source
    counts), or a text such as the default ["unknown"]. *)
Inductive SeverityVal : Type :=
| SevInt (n : Z)
| SevText (s : string).

#[global] Instance SeverityVal_eq_dec : EqDecision SeverityVal.
Proof. solve_decision. Defined.

(** A diagnostic as the language server reports it; a missing key is
    [None]. *)
Record RawDiagnostic : Type := {
  rd_line : option Z;
  rd_character : option Z;
  rd_severity : option SeverityVal;
  rd_message : option string;
  rd_source : option string;
  rd_code : option string
}.

Record Diagnostic : Type := {
  line : Z;
  character : Z;
  severity : SeverityVal;
  message : string;
  source : string;
  code : string
}.

Definition format_diagnostic (diag : RawDiagnostic) : Diagnostic :=
  {| line := default 0%Z (rd_line diag);
     character := default 0%Z (rd_character diag);
     severity := default (SevText "unknown") (rd_severity diag);
     message := default "" (rd_message diag);
     source := default "" (rd_source diag);
     code := default "" (rd_code diag) |}.

(** [d["severity"] == n] *)
Definition has_severity (n : Z) (d : Diagnostic) : bool :=
  bool_decide (severity d = SevInt n).

(** [len([d for d in diagnostics if d["severity"] == n])] *)
Definition count_severity (n : Z) (diagnostics : list Diagnostic) : nat :=
  length (List.filter (has_severity n) diagnostics).


(** *** Session state *)

Record LspOperation : Type := {
  lo_timestamp : Z;
  lo_operation : string;
  lo_file_path : string;
  lo_success : bool;
  lo_details : string
}.

Record FileDiagnostics : Type := {
  fd_timestamp : Z;
  fd_diagnostics : list Diagnostic;
  fd_error_count : nat;
  fd_warning_count : nat
}.

Record CodeValidation : Type := {
  cv_timestamp : Z;
  cv_file_path : string;
  cv_valid : bool;
  cv_error_count : nat;
  cv_warning_count : nat
}.

Record LspState : Type := {
  lsp_operations_log : option (list LspOperation);
  lsp_counters : option (gmap string Z);
  file_diagnostics : option (gmap string FileDiagnostics);
  code_validations : option (list CodeValidation)
}.

Definition default_lsp_counters : gmap string Z :=
  {[ "diagnostics" := 0%Z; "definitions" := 0%Z; "references" := 0%Z;
     "validations" := 0%Z ]}.

(** [LSPTool._log_lsp_operation] *)
Definition _log_lsp_operation (now : Z) (operation file_path : string)
    (success : bool) (details : string) (st : LspState) : LspState :=
  let lsp_log :=
    default [] (lsp_operations_log st) ++
    [ {| lo_timestamp := now; lo_operation := operation;
         lo_file_path := file_path; lo_success := success;
         lo_details := details |} ] in
  let counters := default default_lsp_counters (lsp_counters st) in
  let counters :=
    if success
    then <[ operation := (default 0 (counters !! operation) + 1)%Z ]> counters
    else counters in
  {| lsp_operations_log := Some (last_n 50 lsp_log);
     lsp_counters := Some counters;
     file_diagnostics := file_diagnostics st;
     code_validations := code_validations st |}.

(** [server_configs]: the [code_language] of an extension. *)
Definition server_configs (file_ext : string) : option string :=
  if String.eqb file_ext ".py" then Some "python"
  else if String.eqb file_ext ".java" then Some "java"
  else if String.eqb file_ext ".js" then Some "javascript"
  else if String.eqb file_ext ".ts" then Some "javascript"
  else if String.eqb file_ext ".rs" then Some "rust"
  else if String.eqb file_ext ".cs" then Some "csharp"
  else None.

(** The dict [get_diagnostics] returns. *)
Record DiagnosticsResult : Type := {
  dr_status : string;
  dr_message : option string;
  dr_diagnostics : list Diagnostic;
  dr_summary : option (nat * nat * nat)
}.

Definition diagnostics_error (text : string) : DiagnosticsResult :=
  {| dr_status := "error"; dr_message := Some text; dr_diagnostics := [];
     dr_summary := None |}.

(** The dict [validate_code_in_shadow_workspace] returns: the one with
    status ["success"], or the one with status ["error"], whose [valid]
    is [False]. *)
Inductive ValidationResponse : Type :=
| ValidationSuccess (valid : bool) (error_count warning_count : nat)
    (diagnostics : list Diagnostic) (temp_workspace : string)
| ValidationFailure (message : string).

Definition response_status (r : ValidationResponse) : string :=
  match r with
  | ValidationSuccess _ _ _ _ _ => "success"
  | ValidationFailure _ => "error"
  end.


Definition config_files : list string :=
  [ "pyproject.toml"; "setup.py"; "requirements.txt"; "package.json";
    "tsconfig.json"; ".pylintrc" ].

Section Tool.
(** The diagnostic collaborator.  [create code_language root] is
    [SyncLanguageServer.create(config, logger, root)], which may raise.
    [reported] is the list the language server answers with: the
    source has the request commented out and binds the placeholder
    [[]] in its place, which is the instance [reported := []]. *)
Context {Server : Type}.
Variable create : string -> list string -> outcome Server.
Variable reported : list RawDiagnostic.

Record LSPTool : Type := {
  project_root : list string;
  language_servers : gmap string Server
}.

(** [LSPTool(project_root)] *)
Definition new_tool (root : list string) : LSPTool :=
  {| project_root := resolve root; language_servers := ∅ |}.

(** [LSPTool._get_or_create_server] *)
Definition _get_or_create_server (self : LSPTool) (file_ext : string)
    : option Server * LSPTool :=
  match server_configs file_ext with
  | None => (None, self)
  | Some code_language =>
      let server_name := "server_" +:+ file_ext in
      match language_servers self !! server_name with
      | Some server => (Some server, self)
      | None =>
          match create code_language (project_root self) with
          | Returned server =>
              (Some server,
               {| project_root := project_root self;
                  language_servers :=
                    <[ server_name := server ]> (language_servers self) |})
          | Raised _ => (None, self)
          end
      end
  end.

Definition log_if (now : Z) (operation file_path : string) (success : bool)
    (details : string) (ctx : option LspState) : option LspState :=
  _log_lsp_operation now operation file_path success details <$> ctx.

(** [LSPTool.get_diagnostics].  It only reads the file system, and only
    when no content is passed. *)
Definition get_diagnostics (self : LSPTool) (now : Z) (file_path : string)
    (content : option string) (ctx : option LspState) (fs : FS)
    : DiagnosticsResult * option LspState :=
  let file_ext := PosixPath.suffix file_path in
  match (_get_or_create_server self file_ext).1 with
  | None =>
      (diagnostics_error ("No language server available for " +:+ file_ext),
       log_if now "diagnostics" file_path false
         ("No LSP for " +:+ file_ext) ctx)
  | Some language_server =>
      let full_path := truediv (project_root self) file_path in
      let read : outcome (option string) :=
        match content with
        | Some c => Returned (Some c)
        | None =>
            if negb (path_exists fs full_path) then Returned None
            else match (read_text full_path fs).2 with
                 | Returned c => Returned (Some c)
                 | Raised e => Raised e
                 end
        end in
      match read with
      | Returned None =>
          (diagnostics_error ("File not found: " +:+ file_path),
           log_if now "diagnostics" file_path false "File not found" ctx)
      | Raised e =>
          let error_msg := "Error getting diagnostics: " +:+ e in
          (diagnostics_error error_msg,
           log_if now "diagnostics" file_path false error_msg ctx)
      | Returned (Some _) =>
          let formatted_diagnostics := format_diagnostic <$> reported in
          let errors := count_severity 1 formatted_diagnostics in
          let warns := count_severity 2 formatted_diagnostics in
          let store (st : LspState) : LspState :=
            _log_lsp_operation now "diagnostics" file_path true
              ("Found " +:+ pretty (length formatted_diagnostics)
               +:+ " issues")
              {| lsp_operations_log := lsp_operations_log st;
                 lsp_counters := lsp_counters st;
                 file_diagnostics :=
                   Some (<[ file_path :=
                              {| fd_timestamp := now;
                                 fd_diagnostics := formatted_diagnostics;
                                 fd_error_count := errors;
                                 fd_warning_count := warns |} ]>
                           (default ∅ (file_diagnostics st)));
                 code_validations := code_validations st |} in
          ({| dr_status := "success";
              dr_message := None;
              dr_diagnostics := formatted_diagnostics;
              dr_summary :=
                Some (length formatted_diagnostics, errors, warns) |},
           store <$> ctx)
      end
  end.

Definition when_exists (p : list string) (m : M unit) : M unit :=
  fun fs => if path_exists fs p then m fs else ret tt fs.

(** The loop of [_copy_workspace_context] over the config files. *)
Fixpoint copy_configs (self : LSPTool) (temp_workspace : list string)
    (files : list string) : M unit :=
  match files with
  | [] => ret tt
  | config_file :: rest =>
      let source_config := truediv (project_root self) config_file in
      let* _ :=
        when_exists source_config
          (copy2 source_config (truediv temp_workspace config_file)) in
      copy_configs self temp_workspace rest
  end.

(** [LSPTool._copy_workspace_context]: whatever is raised is printed
    and dropped, and what was copied before stays. *)
Definition _copy_workspace_context (self : LSPTool)
    (temp_workspace : list string) (target_file : string) : M unit :=
  catch
    (let source_file := truediv (project_root self) target_file in
     let* _ :=
       when_exists source_file
         (let dest_file := truediv temp_workspace target_file in
          let* _ := mkdir_parents (parent dest_file) in
          copy2 source_file dest_file) in
     copy_configs self temp_workspace config_files)
    (fun _ => ret tt).

(** [with tempfile.TemporaryDirectory() as temp_dir: body]: the
    directory is removed however the body is left. *)
Definition with_temporary_directory {A} (temp_dir : list string)
    (body : M A) : M A :=
  fun fs =>
    match mkdtemp temp_dir fs with
    | (fs1, Raised e) => (fs1, Raised e)
    | (fs1, Returned _) =>
        let '(fs2, r) := body fs1 in (rmtree temp_dir fs2, r)
    end.

(** Lines 219 to 243: the verdict drawn from the diagnostics result,
    and what is stored in the session state. *)
Definition shadow_verdict (now : Z) (file_path : string)
    (temp_workspace : list string)
    (diagnostics_result : DiagnosticsResult * option LspState)
    : ValidationResponse * option LspState :=
  let diagnostics := dr_diagnostics diagnostics_result.1 in
  let has_errors := existsb (has_severity 1) diagnostics in
  let error_count := count_severity 1 diagnostics in
  let warning_count := count_severity 2 diagnostics in
  let store (st : LspState) : LspState :=
    _log_lsp_operation now "validations" file_path true
      ("Validation: " +:+ pretty error_count +:+ " errors, "
       +:+ pretty warning_count +:+ " warnings")
      {| lsp_operations_log := lsp_operations_log st;
         lsp_counters := lsp_counters st;
         file_diagnostics := file_diagnostics st;
         code_validations :=
           Some (last_n 20
                   (default [] (code_validations st) ++
                    [ {| cv_timestamp := now;
                         cv_file_path := file_path;
                         cv_valid := negb has_errors;
                         cv_error_count := error_count;
                         cv_warning_count := warning_count |} ])) |} in
  (ValidationSuccess (negb has_errors) error_count warning_count
     diagnostics (path_text temp_workspace),
   store <$> diagnostics_result.2).

(** [LSPTool.validate_code_in_shadow_workspace].  [temp_dir] is the
    name [tempfile] picks for this call. *)
Definition validate_code_in_shadow_workspace (self : LSPTool) (now : Z)
    (temp_dir : list string) (file_path new_content : string)
    (ctx : option LspState) (fs : FS)
    : ValidationResponse * option LspState * FS :=
  let temp_workspace := temp_dir in
  let body : M (ValidationResponse * option LspState) :=
    let* _ := _copy_workspace_context self temp_workspace file_path in
    let temp_file := truediv temp_workspace file_path in
    let* _ := mkdir_parents (parent temp_file) in
    let* _ := write_text temp_file new_content in
    let shadow_lsp := new_tool temp_workspace in
    fun fs' =>
      (fs',
       Returned
         (shadow_verdict now file_path temp_workspace
            (get_diagnostics shadow_lsp now file_path (Some new_content)
               ctx fs'))) in
  match with_temporary_directory temp_dir body fs with
  | (fs', Returned (response, ctx')) => (response, ctx', fs')
  | (fs', Raised e) =>
      let error_msg := "Error validating code: " +:+ e in
      (ValidationFailure error_msg,
       log_if now "validations" file_path false error_msg ctx,
       fs')
  end.

(** Re-reading [file_path] from the real project: the entry
    [self.project_root / file_path] names. *)
Definition project_file (self : LSPTool) (file_path : string) (fs : FS)
    : option node :=
  lookup_node fs (truediv (project_root self) file_path).

End Tool.

(** *** Sample inputs *)

(** The project [/srv/app] with one source file and one config file,
    and an empty [/tmp]. *)
Definition project_fs : FS :=
  {[ ["tmp"] := Dir;
     ["srv"] := Dir;
     ["srv"; "app"] := Dir;
     ["srv"; "app"; "main.py"] := File "old";
     ["srv"; "app"; "setup.py"] := File "setup" ]}.

Definition app_tool : @LSPTool unit := new_tool ["srv"; "app"].

(** A factory that starts a language server, and one that cannot. *)
Definition working (code_language : string) (root : list string)
    : outcome unit := Returned tt.

Definition refusing (code_language : string) (root : list string)
    : outcome unit := Raised "language server unreachable".

Definition raw (sev : Z) (text : string) : RawDiagnostic :=
  {| rd_line := Some 1%Z; rd_character := Some 0%Z;
     rd_severity := Some (SevInt sev); rd_message := Some text;
     rd_source := Some "pyright"; rd_code := None |}.

(** One error among two warnings. *)
Definition mixed_report : list RawDiagnostic :=
  [ raw 2 "unused import"; raw 1 "undefined name"; raw 2 "unused variable" ].

End Lsp.

(** ** Reading and writing files: [tools/file_system_tool.py] *)

Module FileSystemOps.
Import PyStr Lsp FileSystemTool.

(** [_is_path_safe(path)].  [root] is [PROJECT_ROOT], an absolute,
    normalised path, and [wd] the working directory [os.path.abspath]
    consults for a relative argument. *)
Definition _is_path_safe (root wd path : string) : bool :=
  startswith (PosixPath.abspath wd (PosixPath.join root path)) root.

(** [s.rstrip('/')] *)
Fixpoint rstrip_slash (s : string) : string :=
  match s with
  | EmptyString => EmptyString
  | String c r =>
      match rstrip_slash r with
      | EmptyString =>
          if Ascii.eqb c "/"%char then EmptyString else String c EmptyString
      | r' => String c r'
      end
  end.

(** [os.path.dirname(p)]: the text up to the last slash, without its
    trailing slashes unless it is made of slashes only. *)
Definition dirname (p : string) : string :=
  let head :=
    match rfind "/" p with
    | Some i => slice_to (S i) p
    | None => ""
    end in
  if negb (String.eqb head "") && negb (String.eqb (rstrip_slash head) "")
  then rstrip_slash head else head.

(** Is an entry above [k] a file?  Then the kernel answers
    [NotADirectoryError] for [k]. *)
Fixpoint below_a_file (fs : FS) (done todo : list string) : bool :=
  match todo with
  | [] => false
  | c :: rest =>
      match rest with
      | [] => false
      | _ =>
          match fs !! (done ++ [c]) with
          | Some (File _) => true
          | _ => below_a_file fs (done ++ [c]) rest
          end
      end
  end.

Definition newline : ascii := ascii_of_nat 10.

Definition carriage_return : ascii := ascii_of_nat 13.

(** What reading in text mode makes of the stored text: a carriage
    return, alone or followed by a newline, is read as one newline. *)
Fixpoint universal_newlines (s : string) : string :=
  match s with
  | EmptyString => EmptyString
  | String c r =>
      if Ascii.eqb c carriage_return then
        String newline
          match r with
          | String d r' =>
              if Ascii.eqb d newline then universal_newlines r'
              else universal_newlines r
          | EmptyString => EmptyString
          end
      else String c (universal_newlines r)
  end.

(** [with open(path, 'r', encoding='utf-8') as f: f.read()], files holding
    text. *)
Definition open_read (path : string) (fs : FS) : outcome string :=
  let p := PosixPath.parts path in
  match lookup_node fs p with
  | Some (File content) => Returned (universal_newlines content)
  | Some Dir => Raised "IsADirectoryError"
  | None =>
      if below_a_file fs [] (resolve p) then Raised "NotADirectoryError"
      else Raised "FileNotFoundError"
  end.

Record FileInfo : Type := {
  last_read : Z;
  size : nat;
  lines : nat
}.

Record Modification : Type := {
  last_modified : Z;
  new_size : nat;
  original_size : nat;
  was_new_file : bool
}.

(** The keys of the session state the two tools touch; [audit] holds the
    two keys of [_log_file_operation]. *)
Record FileToolState : Type := {
  audit : FileOpState;
  accessed_files : option (gmap string FileInfo);
  last_read_file : option string;
  modified_files : option (gmap string Modification);
  last_written_file : option string
}.

Definition new_session : FileToolState :=
  {| audit := empty_state; accessed_files := None; last_read_file := None;
     modified_files := None; last_written_file := None |}.

Definition with_audit (a : FileOpState) (st : FileToolState) : FileToolState :=
  {| audit := a;
     accessed_files := accessed_files st;
     last_read_file := last_read_file st;
     modified_files := modified_files st;
     last_written_file := last_written_file st |}.

(** The dict [read_file] returns: the success dict, or the error dict,
    whose content is [None]. *)
Inductive ReadResponse : Type :=
| ReadOk (content file_path : string)
| ReadError (message : string).

Inductive WriteResponse : Type :=
| WriteOk (message file_path : string)
| WriteError (message : string).

Definition outside_message (file_path : string) : string :=
  "Error: Path '" +:+ file_path
  +:+ "' is outside the allowed project directory.".

(** [read_file(file_path, tool_context)] *)
Definition read_file (root wd : string) (now : Z) (file_path : string)
    (st : FileToolState) (fs : FS) : ReadResponse * FileToolState :=
  let logged (success : bool) (details : string) :=
    with_audit
      (_log_file_operation now "read" file_path success details (audit st)) in
  if negb (_is_path_safe root wd file_path) then
    (ReadError (outside_message file_path),
     logged false "Path outside project directory" st)
  else
    let full_path := PosixPath.join root file_path in
    match open_read full_path fs with
    | Returned content =>
        (ReadOk content file_path,
         logged true
           ("Read " +:+ pretty (String.length content) +:+ " characters")
           {| audit := audit st;
              accessed_files :=
                Some (<[ file_path :=
                           {| last_read := now;
                              size := String.length content;
                              lines := length (split newline content) |} ]>
                        (default ∅ (accessed_files st)));
              last_read_file := Some file_path;
              modified_files := modified_files st;
              last_written_file := last_written_file st |})
    | Raised e =>
        if String.eqb e "FileNotFoundError" then
          (ReadError ("Error: File not found at '" +:+ file_path +:+ "'."),
           logged false "File not found" st)
        else
          (ReadError ("An unexpected error occurred: " +:+ e),
           logged false e st)
    end.

(** The size [os.path.getsize] reports for a file of ASCII text. *)
Definition size_on_disk (fs : FS) (p : list string) : nat :=
  match lookup_node fs p with
  | Some (File content) => String.length content
  | _ => 0
  end.

(** [write_file(file_path, content, tool_context)].  The directories
    [os.makedirs] created stay when the write fails. *)
Definition write_file (root wd : string) (now : Z)
    (file_path content : string) (st : FileToolState) (fs : FS)
    : WriteResponse * FileToolState * FS :=
  let logged (success : bool) (details : string) :=
    with_audit
      (_log_file_operation now "write" file_path success details (audit st)) in
  if negb (_is_path_safe root wd file_path) then
    (WriteError (outside_message file_path),
     logged false "Path outside project directory" st, fs)
  else
    let full_path := PosixPath.join root file_path in
    let target := PosixPath.parts full_path in
    let failed (e : string) (fs' : FS) :=
      (WriteError ("An unexpected error occurred while writing: " +:+ e),
       logged false e st, fs') in
    match mkdir_parents (PosixPath.parts (dirname full_path)) fs with
    | (fs1, Raised e) => failed e fs1
    | (fs1, Returned _) =>
        let file_existed := path_exists fs1 target in
        let original := if file_existed then size_on_disk fs1 target else 0 in
        match write_text target content fs1 with
        | (fs2, Raised e) => failed e fs2
        | (fs2, Returned _) =>
            (WriteOk ("Successfully wrote " +:+ pretty (String.length content)
                      +:+ " characters to " +:+ file_path +:+ ".") file_path,
             logged true
               ("Wrote " +:+ pretty (String.length content) +:+ " characters")
               {| audit := audit st;
                  accessed_files := accessed_files st;
                  last_read_file := last_read_file st;
                  modified_files :=
                    Some (<[ file_path :=
                               {| last_modified := now;
                                  new_size := String.length content;
                                  original_size := original;
                                  was_new_file := negb file_existed |} ]>
                            (default ∅ (modified_files st)));
                  last_written_file := Some file_path |},
             fs2)
        end
    end.

(** [get_operation_summary(tool_context)]: the counters, the two maps
    and the last ten logged operations. *)
Record OperationSummary : Type := {
  sum_operation_counters : gmap string Z;
  sum_accessed_files : gmap string FileInfo;
  sum_modified_files : gmap string Modification;
  sum_recent_operations : list FileOperation
}.

Definition get_operation_summary (st : FileToolState) : OperationSummary :=
  {| sum_operation_counters := default ∅ (operation_counters (audit st));
     sum_accessed_files := default ∅ (accessed_files st);
     sum_modified_files := default ∅ (modified_files st);
     sum_recent_operations :=
       last_n 10 (default [] (file_operations_log (audit st))) |}.

(** The entry of the file system a path text under the root names. *)
Definition target_of (root file_path : string) : list string :=
  resolve (PosixPath.parts (PosixPath.join root file_path)).

End FileSystemOps.

(** ** Sessions of the security gate *)

Module SafetySessions.
Import PyStr Safety.

Record FileCall : Type := {
  call_now : Z;
  call_tool : string;
  call_args : gmap string string
}.

(** The state the file-operation callback leaves after a sequence of
    calls, each made on the state the one before left. *)
Definition run_file_operations (root wd : string) (calls : list FileCall)
    (st : SecurityState) : SecurityState :=
  fold_left
    (fun st c =>
       (validate_file_operations root wd (call_now c) (call_tool c)
          (call_args c) st).1)
    calls st.

(** [get_security_summary(tool_context)] *)
Record SecuritySummary : Type := {
  summary_counters : option Counters;
  recent_security_log : list OperationEntry;
  recent_warnings : list SecurityWarning;
  summary_search_log : list SearchEntry
}.

Definition get_security_summary (st : SecurityState)
    (search_log : option (list SearchEntry)) : SecuritySummary :=
  {| summary_counters := security_counters st;
     recent_security_log := last_n 10 (default [] (security_log st));
     recent_warnings := last_n 5 (default [] (security_warnings st));
     summary_search_log := last_n 10 (default [] search_log) |}.

(** A day, in microseconds. *)
Definition day_us : Z := (86400 * 1000000)%Z.

(** The text occurs in the content, letter case apart. *)
Definition mentions (content operation : string) : bool :=
  contains (lower content) (lower operation).

(** The warnings, read as [state.get("security_warnings", [])]. *)
Definition warnings_of (st : SecurityState) : list SecurityWarning :=
  default [] (security_warnings st).

(** An entry whose age at [now] is a whole number of days and less than
    a minute more. *)
Definition aged (now : Z) (e : SearchEntry) : Prop :=
  exists days rest : Z,
    (0 <= days)%Z /\ (0 <= rest < 60 * 1000000)%Z /\
    (now - se_timestamp e = days * day_us + rest)%Z.

(** *** Sample inputs *)

(** A write inside the project whose content names a flagged
    operation. *)
Definition flagged_write : gmap string string :=
  {[ "file_path" := "a.py"; "content" := "import subprocess" ]}.

Definition stale_entry : SearchEntry :=
  {| se_timestamp := 0; se_tool := "search_code"; se_query := "parse config";
     se_issues := []; se_action := "allowed" |}.

(** One day and five seconds, in microseconds. *)
Definition a_day_later : Z := (day_us + 5 * 1000000)%Z.

End SafetySessions.

(** ** Building and reporting the index: [tools/indexing_tool.py] *)

Module IndexingOps.
Import PyStr Indexing.

(** What [IndexingAgent.index_codebase()] returns; the indexer itself is
    a collaborator, seen through this result or the exception it raises
    (the import of the indexer included). *)
Record IndexResult : Type := {
  result_indexed_files : list string;
  result_total_elements : Z;
  result_errors : option (list string)
}.

(** An entry of [indexing_log]; a key the entry lacks is [None]. *)
Record IndexingEntry : Type := {
  ie_timestamp : Z;
  ie_operation : string;
  ie_status : string;
  ie_files_indexed : option string;
  ie_total_elements : option string;
  ie_errors : option string;
  ie_error : option string
}.

Record IndexToolState : Type := {
  snapshot : IndexState;
  indexing_log : option (list IndexingEntry);
  indexing_counters : option (gmap string Z)
}.

Definition no_index : IndexToolState :=
  {| snapshot := {| index_status := None; indexed_files := None |};
     indexing_log := None;
     indexing_counters := None |}.

Record IndexResponse : Type := {
  ir_status : string;
  ir_message : string;
  ir_files_indexed : nat;
  ir_total_elements : Z;
  ir_errors : list string;
  ir_indexed_files : option (list string)
}.

Definition default_indexing_counters : gmap string Z :=
  {[ "full_index" := 0%Z; "incremental_index" := 0%Z ]}.

Definition newline_char : ascii := ascii_of_nat 10.

Definition errors_of (result : IndexResult) : list string :=
  default [] (result_errors result).

(** [index_codebase_tool(tool_context)] *)
Definition index_codebase_tool (now : Z) (indexer : outcome IndexResult)
    (st : IndexToolState) : IndexResponse * IndexToolState :=
  let log := default [] (indexing_log st) in
  match indexer with
  | Returned result =>
      let files := result_indexed_files result in
      let entry :=
        {| ie_timestamp := now;
           ie_operation := "full_index";
           ie_status := "completed";
           ie_files_indexed := Some (pretty (length files));
           ie_total_elements := Some (pretty (result_total_elements result));
           ie_errors := Some (pretty (length (errors_of result)));
           ie_error := None |} in
      let counters := default default_indexing_counters (indexing_counters st) in
      let success_msg :=
        "Indexing complete! Files indexed: " +:+ pretty (length files)
        +:+ ", Code elements found: " +:+ pretty (result_total_elements result)
        +:+ (if bool_decide (errors_of result = []) then ""
             else ", Errors: " +:+ pretty (length (errors_of result)))
        +:+ String newline_char
              "You can now search the codebase using semantic queries!" in
      ({| ir_status := "success";
          ir_message := success_msg;
          ir_files_indexed := length files;
          ir_total_elements := result_total_elements result;
          ir_errors := errors_of result;
          ir_indexed_files := Some files |},
       {| snapshot :=
            state_after_indexing now files (result_total_elements result)
              (errors_of result);
          indexing_log := Some (last_n 10 (log ++ [entry]));
          indexing_counters :=
            Some (<[ "full_index" :=
                       (default 0 (counters !! "full_index") + 1)%Z ]>
                    counters) |})
  | Raised e =>
      let entry :=
        {| ie_timestamp := now;
           ie_operation := "full_index";
           ie_status := "failed";
           ie_files_indexed := None;
           ie_total_elements := None;
           ie_errors := None;
           ie_error := Some e |} in
      ({| ir_status := "error";
          ir_message := "Indexing failed: " +:+ e;
          ir_files_indexed := 0;
          ir_total_elements := 0;
          ir_errors := [e];
          ir_indexed_files := None |},
       {| snapshot := snapshot st;
          indexing_log := Some (last_n 10 (log ++ [entry]));
          indexing_counters := indexing_counters st |})
  end.

(** The dict [get_index_status_tool] returns; [st_last_indexed] is [None]
    where the dict says ["Never"]. *)
Record StatusReport : Type := {
  st_index_exists : bool;
  st_last_indexed : option IsoString;
  st_files_count : Z;
  st_elements_count : Z;
  st_has_errors : bool;
  st_recent_operations : list IndexingEntry;
  st_indexed_files_sample : list string;
  st_total_indexed_files : nat
}.

(** [get_index_status_tool(tool_context)] *)
Definition get_index_status_tool (st : IndexToolState) : StatusReport :=
  let status := index_status (snapshot st) in
  let files := default [] (indexed_files (snapshot st)) in
  {| st_index_exists := bool_decide (is_Some status);
     st_last_indexed := status ≫= last_indexed;
     st_files_count := default 0%Z (files_count <$> status);
     st_elements_count := default 0%Z (elements_count <$> status);
     st_has_errors := default false (has_errors <$> status);
     st_recent_operations := last_n 5 (default [] (indexing_log st));
     st_indexed_files_sample := take 10 files;
     st_total_indexed_files := length files |}.

(** A relative path of the tree that the freshness check counts: its
    name ends with a code extension and no part of its absolute path is
    an ignored directory. *)
Definition qualifies (root_parts rel : list string) : Prop :=
  (exists ext, ext ∈ code_extensions /\
               endswith (default "" (last rel)) ext = true) /\
  forall d, d ∈ ignore_dirs -> d ∉ root_parts ++ rel.

(** Successive runs of [index_codebase_tool], each on the state the one
    before left. *)
Definition run_indexing (runs : list (Z * outcome IndexResult))
    (st : IndexToolState) : IndexToolState :=
  fold_left (fun st run => (index_codebase_tool run.1 run.2 st).2) runs st.

Definition succeeded (run : Z * outcome IndexResult) : bool :=
  match run.2 with Returned _ => true | Raised _ => false end.

(** [counters.get("full_index", 0)] on the stored counters. *)
Definition full_index_count (st : IndexToolState) : Z :=
  default 0%Z (default default_indexing_counters (indexing_counters st)
               !! "full_index").

Definition log_entries (st : IndexToolState) : list IndexingEntry :=
  default [] (indexing_log st).

(** *** Sample inputs *)

(** A tree with one source file, a text file and a vendored module. *)
Definition sample_tree : Tree :=
  [ ["src"]; ["src"; "auth.py"]; ["src"; "notes.txt"];
    ["node_modules"; "lib"; "index.js"] ].

Definition one_file : IndexResult :=
  {| result_indexed_files := ["src/auth.py"];
     result_total_elements := 4;
     result_errors := None |}.

(** The entry a run appends to [indexing_log]. *)
Definition run_entry (run : Z * outcome IndexResult) : IndexingEntry :=
  match run.2 with
  | Returned result =>
      {| ie_timestamp := run.1;
         ie_operation := "full_index";
         ie_status := "completed";
         ie_files_indexed :=
           Some (pretty (length (result_indexed_files result)));
         ie_total_elements := Some (pretty (result_total_elements result));
         ie_errors := Some (pretty (length (errors_of result)));
         ie_error := None |}
  | Raised e =>
      {| ie_timestamp := run.1;
         ie_operation := "full_index";
         ie_status := "failed";
         ie_files_indexed := None;
         ie_total_elements := None;
         ie_errors := None;
         ie_error := Some e |}
  end.



End IndexingOps.

(** ** The structure of a file: [VectorSearchTool.get_file_structure] *)

Module FileStructure.
Import PyStr VectorSearch.

Record Element : Type := {
  el_name : string;
  el_type : string;
  el_start_line : Z;
  el_end_line : Z;
  el_docstring : string
}.

Definition element_of (meta : Meta) : Element :=
  {| el_name := default "Unknown" (m_name meta);
     el_type := default "Unknown" (m_element_type meta);
     el_start_line := default 0%Z (m_start_line meta);
     el_end_line := default 0%Z (m_end_line meta);
     el_docstring := default "" (m_docstring meta) |}.

(** [elements.sort(key=lambda x: x["start_line"])]: the sort of Python is
    stable, so an element goes before the elements after it with the
    same line.  Sorting from the right end, it is placed before the first
    element whose line is not less. *)
Fixpoint insert_by_line (x : Element) (l : list Element) : list Element :=
  match l with
  | [] => [x]
  | y :: r =>
      if (el_start_line x <=? el_start_line y)%Z then x :: y :: r
      else y :: insert_by_line x r
  end.

Definition sort_by_line (l : list Element) : list Element :=
  foldr insert_by_line [] l.

Record FileContext : Type := {
  fc_timestamp : Z;
  fc_element_count : nat;
  fc_elements : list Element
}.

Record ContextState : Type := {
  file_contexts : option (gmap string FileContext);
  last_analyzed_file : option string
}.

Record StructureResponse : Type := {
  sr_status : string;
  sr_message : option string;
  sr_file_path : option string;
  sr_element_count : option nat;
  sr_elements : list Element
}.

Definition structure_error (text : string) : StructureResponse :=
  {| sr_status := "error"; sr_message := Some text; sr_file_path := None;
     sr_element_count := None; sr_elements := [] |}.

(** Lines increase along the list, equal lines allowed. *)
Definition by_line (a b : Element) : Prop :=
  (el_start_line a <= el_start_line b)%Z.

Section Structure.
Context {Dist Embedding : Type}.

(** [collection.get(where={"file_path": file_path})]: the list under
    [metadatas], [None] when the result or that key is missing, or the
    exception raised. *)
Variable collection_get :
  @Collection Dist Embedding -> string -> outcome (option (list Meta)).

(** [VectorSearchTool.get_file_structure] *)
Definition get_file_structure (self : @VectorSearchTool Dist Embedding)
    (now : Z) (file_path : string) (ctx : option ContextState)
    : StructureResponse * option ContextState :=
  match code_collection self with
  | None => (structure_error remediation, ctx)
  | Some collection =>
      match collection_get collection file_path with
      | Raised e =>
          (structure_error ("Failed to get file structure: " +:+ e), ctx)
      | Returned None | Returned (Some []) =>
          ({| sr_status := "success";
              sr_message :=
                Some ("No indexed elements found for file: " +:+ file_path);
              sr_file_path := None;
              sr_element_count := None;
              sr_elements := [] |}, ctx)
      | Returned (Some metadatas) =>
          let elements := sort_by_line (element_of <$> metadatas) in
          let store (st : ContextState) : ContextState :=
            {| file_contexts :=
                 Some (<[ file_path :=
                            {| fc_timestamp := now;
                               fc_element_count := length elements;
                               fc_elements := elements |} ]>
                         (default ∅ (file_contexts st)));
               last_analyzed_file := Some file_path |} in
          ({| sr_status := "success";
              sr_message := None;
              sr_file_path := Some file_path;
              sr_element_count := Some (length elements);
              sr_elements := elements |},
           store <$> ctx)
      end
  end.

End Structure.

(** The history, one counter and the discovered files of a search
    state, each read with its default. *)
Definition history {Dist : Type} (st : @SearchState Dist)
    : list SearchLogEntry :=
  default [] (search_history st).

Definition searches {Dist : Type} (st : @SearchState Dist)
    (search_type : string) : Z :=
  default 0%Z (default ∅ (search_counters st) !! search_type).

Definition known_files {Dist : Type} (st : @SearchState Dist) : gset string :=
  default ∅ (discovered_files st).

(** *** Sample inputs *)

Definition meta_at (name : string) (line : Z) : Meta :=
  {| m_name := Some name; m_element_type := Some "function";
     m_file_path := Some "src/auth.py"; m_start_line := Some line;
     m_end_line := Some (line + 3)%Z; m_docstring := None |}.

(** A collection whose [query] is not reached. *)
Definition stored : @Collection Z unit :=
  {| query := fun _ _ _ => Raised "unused" |}.

Definition auth_tool : @VectorSearchTool Z unit :=
  {| code_collection := Some stored; file_collection := Some stored |}.

(** [collection.get] answering with three elements out of line order,
    two of them on the same line. *)
Definition get_auth (c : @Collection Z unit) (file_path : string)
    : outcome (option (list Meta)) :=
  Returned (Some [meta_at "logout" 40; meta_at "login" 12;
                  meta_at "helper" 40]).

Definition no_contexts : ContextState :=
  {| file_contexts := None; last_analyzed_file := None |}.

End FileStructure.

(** ** The tool wrappers of [tools/lsp_tool.py] *)

Module LspTools.
Import PyStr Lsp.

Section Wrappers.
Context {Server : Type}.
Variable create : string -> list string -> outcome Server.
Variable reported : list RawDiagnostic.

(** [get_diagnostics_tool(file_path, content, tool_context)]: an empty
    content stands for no content.  [root] is the project root the tool
    reads from the environment. *)
Definition get_diagnostics_tool (root : list string) (now : Z)
    (file_path content : string) (ctx : option LspState) (fs : FS)
    : DiagnosticsResult * option LspState :=
  let file_content := if String.eqb content "" then None else Some content in
  get_diagnostics create reported (new_tool root) now file_path file_content
    ctx fs.

(** [validate_code_tool(file_path, new_content, tool_context)] *)
Definition validate_code_tool (root : list string) (now : Z)
    (temp_dir : list string) (file_path new_content : string)
    (ctx : option LspState) (fs : FS)
    : ValidationResponse * option LspState * FS :=
  validate_code_in_shadow_workspace create reported (new_tool root) now
    temp_dir file_path new_content ctx fs.

End Wrappers.

Definition operations_logged (ctx : option LspState) : list LspOperation :=
  default [] (ctx ≫= lsp_operations_log).

Definition validations_stored (ctx : option LspState) : list CodeValidation :=
  default [] (ctx ≫= code_validations).

Definition counter (ctx : option LspState) (operation : string) : Z :=
  default 0%Z (default default_lsp_counters (ctx ≫= lsp_counters)
               !! operation).

(** A session state in which no tool has run. *)
Definition no_operations : LspState :=
  {| lsp_operations_log := None; lsp_counters := None;
     file_diagnostics := None; code_validations := None |}.




(** What they change: directories on the way to the target, and files
    at the target or at the name of a config file. *)
Definition shadow_step (t P : list string) (fs fs' : FS) : Prop :=
  forall k,
    fs' !! k = fs !! k \/
    (fs' !! k = Some Dir /\
     exists q, q `prefix_of` removelast P /\ q <> [] /\ k = t ++ q) \/
    (exists c, fs' !! k = Some (File c) /\
               (k = t ++ P \/
                exists cfg x, cfg ∈ config_files /\ k = t ++ cfg :: x)).

End LspTools.

(** * Properties *)

(** ** Slices *)

Section SliceFacts.
Import PyStr.
Context {A : Type}.

Lemma last_n_length (n : nat) (l : list A) :
  length (last_n n l) = Nat.min n (length l).
Proof. unfold last_n. rewrite length_drop. lia. Qed.

Lemma last_n_bound (n : nat) (l : list A) : length (last_n n l) <= n.
Proof. rewrite last_n_length. lia. Qed.

Lemma last_n_all (n : nat) (l : list A) : length l <= n -> last_n n l = l.
Proof.
  intros Hle. unfold last_n.
  replace (length l - n) with 0 by lia. reflexivity.
Qed.

(** At the cap, an append evicts the oldest entry. *)
Lemma last_n_snoc_full (n : nat) (x y : A) (l : list A) :
  length (x :: l) = n -> last_n n ((x :: l) ++ [y]) = l ++ [y].
Proof.
  intros Hlen. unfold last_n. rewrite length_app, Hlen. simpl.
  replace (n + 1 - n) with 1 by lia. reflexivity.
Qed.

(** The entry just appended survives the slice. *)
Lemma last_n_snoc_last (n : nat) (x : A) (l : list A) :
  0 < n -> last (last_n n (l ++ [x])) = Some x.
Proof.
  intros Hpos. unfold last_n. rewrite length_app. cbn [length].
  rewrite drop_app_le by lia. apply last_snoc.
Qed.

End SliceFacts.

(** ** Freshness *)

Section FreshnessFacts.
Import Indexing.

Lemma difference_empty_subseteq (a b : gset string) :
  a ∖ b = ∅ -> a ⊆ b.
Proof.
  intros Hd x Hx. destruct (decide (x ∈ b)) as [Hb|Hb]; [exact Hb |].
  exfalso. apply (not_elem_of_empty (C := gset string) x).
  rewrite <- Hd. apply elem_of_difference. split; assumption.
Qed.

Lemma subseteq_difference_empty (a b : gset string) :
  a ⊆ b -> a ∖ b = ∅.
Proof.
  intros Hs. apply set_eq. intros x. rewrite elem_of_difference.
  split; [intros [Ha Hb]; exfalso; auto | intros Hx].
  exfalso. exact (not_elem_of_empty (C := gset string) x Hx).
Qed.

(** The check answers fresh exactly when the status carries a readable
    instant at most a day old and the current files are the indexed
    ones. *)
Lemma fresh_iff (now : Z) (root_parts : list string) (tree : Tree)
    (st : IndexState) :
  fresh (check_index_freshness_tool now root_parts tree st) = true <->
  exists status t,
    index_status st = Some status /\
    last_indexed status = Some (IsoInstant t) /\
    (now - t <= day)%Z /\
    current_files_set root_parts tree = indexed_set st.
Proof.
  unfold check_index_freshness_tool, indexed_set.
  set (cur := current_files_set root_parts tree).
  set (idx := (list_to_set (default [] (indexed_files st)) : gset string)).
  destruct (index_status st) as [status|] eqn:Hst.
  2: { split; [discriminate | intros (? & ? & [=] & _)]. }
  destruct (last_indexed status) as [[t|text]|] eqn:Hli.
  2-3: split; [discriminate | intros (s & t & [= <-] & Ht & _); congruence].
  destruct (Z.ltb_spec day (now - t)) as [Hold|Hyoung].
  { split; [discriminate |].
    intros (s & t' & [= <-] & Ht & Hle & _).
    rewrite Hli in Ht. injection Ht as <-. lia. }
  destruct (decide (cur ∖ idx = ∅)) as [Hnew|Hnew];
    destruct (decide (idx ∖ cur = ∅)) as [Hdel|Hdel];
    rewrite ?(bool_decide_eq_true_2 _ Hnew), ?(bool_decide_eq_false_2 _ Hnew),
      ?(bool_decide_eq_true_2 _ Hdel), ?(bool_decide_eq_false_2 _ Hdel);
    cbn [negb orb fresh].
  - split; [intros _ | reflexivity].
    exists status, t. repeat split; auto.
    apply (anti_symm (⊆)); apply difference_empty_subseteq; assumption.
  - split; [discriminate |]. intros (s & t' & _ & _ & _ & Heq).
    exfalso. apply Hdel, subseteq_difference_empty. rewrite Heq. reflexivity.
  - split; [discriminate |]. intros (s & t' & _ & _ & _ & Heq).
    exfalso. apply Hnew, subseteq_difference_empty. rewrite Heq. reflexivity.
  - split; [discriminate |]. intros (s & t' & _ & _ & _ & Heq).
    exfalso. apply Hnew, subseteq_difference_empty. rewrite Heq. reflexivity.
Qed.

(** C6, as stated, fails: after indexing a project with no qualifying
    file the indexed-file set is empty, and an hour later, the project
    still empty, the check answers fresh. *)
Lemma fresh_with_empty_index :
  indexed_set (state_after_indexing 0 [] 0 []) = ∅ /\
  fresh (check_index_freshness_tool 3600000000 ["/"; "srv"; "app"] []
           (state_after_indexing 0 [] 0 [])) = true.
Proof. split; reflexivity. Qed.

(** C6, amended: with an empty indexed-file set the check answers fresh
    only for a project that has no qualifying file now (and a status at
    most a day old); with one qualifying file or more it never does. *)
Theorem empty_index_fresh_only_if_project_empty (now : Z)
    (root_parts : list string) (tree : Tree) (st : IndexState) :
  indexed_set st = ∅ ->
  (fresh (check_index_freshness_tool now root_parts tree st) = true ->
   current_files_set root_parts tree = ∅) /\
  (current_files_set root_parts tree <> ∅ ->
   fresh (check_index_freshness_tool now root_parts tree st) = false).
Proof.
  intros Hempty.
  assert (Hfresh : fresh (check_index_freshness_tool now root_parts tree st)
                   = true -> current_files_set root_parts tree = ∅).
  { intros Hf. apply fresh_iff in Hf as (s & t & _ & _ & _ & Heq).
    congruence. }
  split; [exact Hfresh |].
  intros Hne.
  destruct (fresh (check_index_freshness_tool now root_parts tree st));
    [exfalso; auto | reflexivity].
Qed.

Lemma empty_index_fresh_only_if_project_empty_witness :
  fresh (check_index_freshness_tool 60 ["/"; "srv"; "app"]
           [["src"; "auth.py"]] (state_after_indexing 0 [] 0 [])) = false.
Proof.
  apply (empty_index_fresh_only_if_project_empty 60 ["/"; "srv"; "app"]
           [["src"; "auth.py"]] (state_after_indexing 0 [] 0 [])).
  - reflexivity.
  - vm_compute. discriminate.
Defined.

End FreshnessFacts.

(** ** Search without an index *)

Section SearchFacts.
Import PyStr VectorSearch.
Context {Dist Embedding : Type}.
Variable one_minus : Dist -> Dist.
Variable default_distance : Dist.
Variable encode : string -> outcome Embedding.

(** A tool built where the code collection cannot be fetched holds no
    code collection. *)
Lemma init_without_code_collection
    (get_collection : string -> option (@Collection Dist Embedding)) :
  get_collection "code_elements" = None ->
  code_collection (init get_collection) = None.
Proof. intros Hnone. unfold init. rewrite Hnone. reflexivity. Qed.

(** One missing collection is enough: the tool then holds neither. *)
Lemma init_without_file_collection
    (get_collection : string -> option (@Collection Dist Embedding)) :
  get_collection "file_summaries" = None ->
  code_collection (init get_collection) = None.
Proof.
  intros Hnone. unfold init.
  destruct (get_collection "code_elements"); [rewrite Hnone |]; reflexivity.
Qed.

(** C7: without a code collection, [semantic_search] answers with the
    error status and the remediation message, and records the search as
    unsuccessful; it is never a success with an empty result list. *)
Theorem semantic_search_without_index
    (get_collection : string -> option (@Collection Dist Embedding))
    (now : Z) (q : string) (max_results : Z)
    (file_type_filter : option string) (ctx : option SearchState) :
  get_collection "code_elements" = None ->
  let r :=
    semantic_search one_minus default_distance encode (init get_collection)
      now q max_results file_type_filter ctx in
  status r.1 = "error" /\
  status r.1 <> "success" /\
  message r.1 = Some remediation /\
  results r.1 = [] /\
  r.2 = _log_search now q "semantic_code" 0 false <$> ctx.
Proof.
  intros Hnone r. subst r. unfold semantic_search.
  rewrite (init_without_code_collection _ Hnone). cbn.
  repeat split; discriminate.
Qed.

End SearchFacts.

Lemma semantic_search_without_index_witness :
  VectorSearch.status
    (VectorSearch.semantic_search (fun d : Z => (1 - d)%Z) 1%Z
       (fun _ => PyStr.Returned tt)
       (VectorSearch.init (fun _ => None)) 0 "password validation" 3 None None).1
  = "error".
Proof.
  apply (semantic_search_without_index (fun d : Z => (1 - d)%Z) 1%Z
           (fun _ => PyStr.Returned tt) (fun _ => None) 0
           "password validation" 3 None None).
  reflexivity.
Defined.

(** ** The file-operation log *)

Section FileLogFacts.
Import FileSystemTool.

Lemma log_length_step (now : Z) (operation file_path : string)
    (success : bool) (details : string) (st : FileOpState) :
  log_length (_log_file_operation now operation file_path success details st)
  = S (log_length st).
Proof.
  unfold log_length, _log_file_operation. cbn.
  rewrite length_app. cbn. lia.
Qed.

(** After any sequence of logged operations the log is longer by the
    number of operations: nothing is ever evicted. *)
Lemma log_all_length (calls : list LogCall) (st : FileOpState) :
  log_length (log_all calls st) = log_length st + length calls.
Proof.
  revert st. induction calls as [|c calls IH]; intros st.
  - cbn. lia.
  - unfold log_all in *. cbn [fold_left length].
    rewrite IH, log_length_step. lia.
Qed.

(** C8 fails on the file-operation log: [_log_file_operation] stores the
    list it appended to, whole.  A fresh session that logs [cap + 1]
    reads holds [cap + 1] entries, whatever the cap; with [cap = 100],
    101 entries. *)
Theorem file_operations_log_unbounded (cap : nat) :
  log_length (log_all (repeat one_read (S cap)) empty_state) = S cap.
Proof. rewrite log_all_length, repeat_length. reflexivity. Qed.

End FileLogFacts.

(** ** The security gate *)

Section PathFacts.
Import Safety.

(** C1 fails on a directory beside the project whose name begins with
    the project's name: [/srv/app2/main.py] lies outside [/srv/app], yet
    its text begins with the text of the root, which is all the code
    tests, and no deny-list pattern occurs in it.  The verdict is not
    blocking. *)
Theorem validate_file_path_admits_sibling :
  resolves_outside app_validator sibling_file = true /\
  validate_file_path app_validator sibling_file =
    {| pv_valid := true; pv_severity := info; pv_issues := [];
       pv_file_path := sibling_file |}.
Proof. split; vm_compute; reflexivity. Qed.

(** What the code decides: a path is valid exactly when no deny-list
    pattern occurs in it and the text of its absolute form begins with
    the text of the root.  The extension only turns [info] into
    [warning]. *)
Lemma validate_file_path_valid (self : SecurityValidator)
    (file_path : string) :
  pv_valid (validate_file_path self file_path)
  = negb (severity_eqb (scan_dangerous_paths file_path).2 error)
    && PyStr.startswith
         (PosixPath.abspath (cwd self)
            (PosixPath.join (project_root self) file_path))
         (project_root self).
Proof.
  unfold validate_file_path.
  destruct (scan_dangerous_paths file_path) as [issues sev].
  destruct (PyStr.startswith _ _); destruct (bool_decide _);
    destruct sev; reflexivity.
Qed.

(** A pattern met by the scan leaves the severity at [error]. *)
Lemma scan_dangerous_paths_error (file_path pattern : string) :
  pattern ∈ dangerous_paths ->
  Re.search pattern file_path = true ->
  (scan_dangerous_paths file_path).2 = error.
Proof.
  unfold scan_dangerous_paths.
  assert (Hkeep : forall l acc, acc.2 = error ->
            (fold_left
               (fun (acc : list string * Severity) pattern =>
                  if Re.search pattern file_path
                  then (acc.1 ++ ["Dangerous path pattern detected: "
                                  +:+ pattern], error)
                  else acc) l acc).2 = error).
  { induction l as [|q l IH]; intros acc Hacc; cbn; [assumption |].
    apply IH. destruct (Re.search q file_path); [reflexivity | assumption]. }
  generalize (([], info) : list string * Severity).
  induction dangerous_paths as [|q l IH]; intros acc Hin Hhit.
  - inversion Hin.
  - cbn. apply elem_of_cons in Hin as [<- | Hin].
    + apply Hkeep. rewrite Hhit. reflexivity.
    + apply IH; assumption.
Qed.

(** X2: every path in which [../] occurs is blocked by
    [validate_file_path], whether it resolves inside the project or
    not. *)
Lemma validate_file_path_blocks_traversal (self : SecurityValidator)
    (file_path : string) :
  Re.search "\.\.\/" file_path = true ->
  pv_valid (validate_file_path self file_path) = false.
Proof.
  intros Hhit. rewrite validate_file_path_valid.
  rewrite (scan_dangerous_paths_error file_path "\.\.\/");
    [reflexivity | apply list_elem_of_here | assumption].
Qed.

(** What the test of the code does give: a path whose absolute form
    does not begin with the text of the root is blocked. *)
Lemma validate_file_path_blocks_non_prefix (self : SecurityValidator)
    (file_path : string) :
  PyStr.startswith
    (PosixPath.abspath (cwd self)
       (PosixPath.join (project_root self) file_path))
    (project_root self) = false ->
  pv_valid (validate_file_path self file_path) = false /\
  pv_severity (validate_file_path self file_path) = error.
Proof.
  intros Hout. unfold validate_file_path.
  destruct (scan_dangerous_paths file_path) as [issues sev].
  rewrite Hout. cbn [negb].
  destruct (bool_decide _); cbn; split; reflexivity.
Qed.

End PathFacts.

(** ** Relative paths

    The text test of the boundary is sound for relative paths: only an
    absolute path can name a place outside the root and pass. *)

Section RelativePaths.
Import PyStr Safety.


Lemma length_append (a b : string) :
  String.length (a +:+ b) = String.length a + String.length b.
Proof. induction a as [|c a IH]; simpl; [reflexivity | f_equal; exact IH]. Qed.

Lemma startswith_length (s p : string) :
  startswith s p = true -> String.length p <= String.length s.
Proof.
  revert s. induction p as [|a p IH]; intros s; cbn; [lia |].
  destruct s as [|b s]; [discriminate |].
  intros H. apply andb_true_iff in H as [_ H]. apply IH in H. cbn. lia.
Qed.

Lemma split_nonempty (sep : ascii) (s : string) : split sep s <> [].
Proof.
  destruct s as [|c r]; cbn; [discriminate |].
  destruct (Ascii.eqb c sep); [discriminate |].
  destruct (split sep r); discriminate.
Qed.

Lemma split_slash_free (s : string) : slash_free s -> split "/" s = [s].
Proof.
  induction s as [|c r IH]; cbn; [reflexivity |].
  intros [Hc Hr]. destruct (Ascii.eqb_spec c "/"); [contradiction |].
  rewrite (IH Hr). reflexivity.
Qed.

Lemma split_append (a b : string) :
  split "/" (a +:+ String "/" b) = split "/" a ++ split "/" b.
Proof.
  induction a as [|c a IH]; simpl; [reflexivity |].
  destruct (Ascii.eqb c "/"); [rewrite IH; reflexivity |].
  rewrite IH. pose proof (split_nonempty "/" a) as Hne.
  destruct (split "/" a); [contradiction | reflexivity].
Qed.

Lemma join_cons (c : string) (l : list string) :
  l <> [] -> PyStr.join "/" (c :: l) = c +:+ String "/" (PyStr.join "/" l).
Proof. destruct l; [contradiction | reflexivity]. Qed.

Lemma split_join (l : list string) :
  l <> [] -> Forall slash_free l -> split "/" (PyStr.join "/" l) = l.
Proof.
  induction l as [|c l IH]; [contradiction |]. intros _ Hall.
  inversion Hall as [|? ? Hc Hl]; subst.
  destruct l as [|d l].
  - simpl. apply split_slash_free. assumption.
  - rewrite join_cons by discriminate. rewrite split_append.
    rewrite split_slash_free by assumption. rewrite IH by (discriminate || assumption).
    reflexivity.
Qed.


Lemma split_components_slash_free (s : string) :
  Forall slash_free (split "/" s).
Proof.
  induction s as [|c r IH]; simpl; [repeat constructor |].
  destruct (Ascii.eqb_spec c "/") as [->|Hc].
  - constructor; [exact I | exact IH].
  - destruct (split "/" r) as [|h t]; [repeat constructor; assumption |].
    inversion IH; subst. constructor; [split; assumption | assumption].
Qed.

Lemma split_head_char (r h : string) (t : list string) (b : ascii) :
  split "/" r = String b h :: t ->
  exists r0, r = String b r0 /\ split "/" r0 = h :: t /\ b <> "/"%char.
Proof.
  destruct r as [|c r0]; simpl; [discriminate |].
  destruct (Ascii.eqb_spec c "/") as [->|Hc]; [discriminate |].
  pose proof (split_nonempty "/" r0) as Hne.
  destruct (split "/" r0) as [|h' t'] eqn:Hs; [contradiction |].
  intros [= -> -> ->]. exists r0. repeat split; assumption.
Qed.

Lemma split_head_empty (r : string) (t : list string) :
  split "/" r = "" :: t -> t <> [] -> exists r', r = String "/" r'.
Proof.
  destruct r as [|c r0]; simpl; [intros [= <-]; contradiction |].
  destruct (Ascii.eqb_spec c "/") as [->|Hc]; [eauto |].
  destruct (split "/" r0); discriminate.
Qed.

(** Where [../] does not occur, no component but the last is [..]. *)
Lemma no_traversal_components (p : string) (prev : option ascii) :
  Re.search_from traversal prev p = false ->
  Forall (fun c => c <> "..") (removelast (split "/" p)).
Proof.
  revert prev. induction p as [|a r IH]; intros prev; [constructor |].
  cbn [Re.search_from]. intros H. apply orb_false_iff in H as [Hhere Hrest].
  specialize (IH _ Hrest). pose proof (split_nonempty "/" r) as Hne.
  simpl split. destruct (Ascii.eqb_spec a "/") as [->|Ha].
  - destruct (split "/" r) as [|h t]; [contradiction |].
    constructor; [discriminate | exact IH].
  - destruct (split "/" r) as [|h t] eqn:Hsplit; [contradiction |].
    destruct t as [|h2 t]; [constructor |].
    change (removelast (h :: h2 :: t)) with (h :: removelast (h2 :: t)) in IH.
    change (removelast (String a h :: h2 :: t))
      with (String a h :: removelast (h2 :: t)).
    inversion IH; subst. constructor; [| assumption].
    intros [= -> ->].
    apply split_head_char in Hsplit as (r0 & -> & Hsplit0 & _).
    apply split_head_empty in Hsplit0 as [r1 ->]; [| discriminate].
    vm_compute in Hhere. discriminate.
Qed.


Lemma step_skip (i : nat) (acc : list string) (c : string) :
  ¬ kept c -> PosixPath.normpath_step i acc c = acc.
Proof.
  unfold kept, PosixPath.normpath_step. intros Hc.
  destruct (String.eqb_spec c ""); [reflexivity |].
  destruct (String.eqb_spec c "."); [reflexivity |].
  exfalso. apply Hc. split; assumption.
Qed.

Lemma step_keep (i : nat) (acc : list string) (c : string) :
  kept c -> c <> ".." -> PosixPath.normpath_step i acc c = acc ++ [c].
Proof.
  unfold kept, PosixPath.normpath_step. intros [H1 H2] H3.
  destruct (String.eqb_spec c ""); [contradiction |].
  destruct (String.eqb_spec c "."); [contradiction |].
  destruct (String.eqb_spec c ".."); [contradiction |]. reflexivity.
Qed.

Lemma step_pop (acc : list string) :
  ".." ∉ acc -> PosixPath.normpath_step 1 acc ".." = removelast acc.
Proof.
  intros Hacc. unfold PosixPath.normpath_step. cbn.
  rewrite bool_decide_eq_false_2; [reflexivity |].
  intros Hlast. apply Hacc, last_Some_elem_of. assumption.
Qed.

(** Without [..], the loop of [normpath] appends the kept components. *)
Lemma fold_without_dotdot (i : nat) (cs acc : list string) :
  Forall (fun c => c <> "..") cs ->
  fold_left (PosixPath.normpath_step i) cs acc = acc ++ filter kept cs.
Proof.
  revert acc. induction cs as [|c cs IH]; intros acc Hall; simpl.
  - rewrite app_nil_r. reflexivity.
  - inversion Hall as [|? ? Hc Hcs]; subst.
    destruct (decide (kept c)) as [Hk|Hk].
    + rewrite step_keep, IH by assumption. rewrite filter_cons_True by assumption.
      rewrite <- app_assoc. reflexivity.
    + rewrite step_skip, IH by assumption.
      rewrite filter_cons_False by assumption. reflexivity.
Qed.

(** The components left by [normpath] after a root [rc], for a relative
    text in which [../] does not occur: the root followed by kept
    components, the last of which a final [..] may have removed. *)
Lemma fold_relative (rc pc : list string) :
  ".." ∉ rc ->
  pc <> [] ->
  Forall (fun c => c <> "..") (removelast pc) ->
  exists ys,
    Forall (fun c => kept c /\ c <> ".." /\ c ∈ pc) ys /\
    (fold_left (PosixPath.normpath_step 1) pc rc = rc ++ ys \/
     fold_left (PosixPath.normpath_step 1) pc rc = removelast (rc ++ ys)).
Proof.
  intros Hrc Hne Hall.
  destruct (exists_last Hne) as (pre & l & ->).
  rewrite removelast_last in Hall. rewrite fold_left_app. simpl.
  rewrite (fold_without_dotdot 1 pre rc Hall).
  assert (Hys : Forall (fun c => kept c /\ c <> ".." /\ c ∈ pre ++ [l])
                        (filter kept pre)).
  { apply Forall_forall. intros c Hc. apply list_elem_of_filter in Hc as [Hk Hin].
    split; [assumption |]. rewrite Forall_forall in Hall.
    split; [auto | apply elem_of_app; left; assumption]. }
  destruct (decide (kept l)) as [Hk|Hk].
  - destruct (decide (l = "..")) as [->|Hl].
    + exists (filter kept pre). split; [assumption | right].
      apply step_pop. apply not_elem_of_app. split; [assumption |].
      intros Hin. rewrite Forall_forall in Hys.
      destruct (Hys _ Hin) as (_ & Hno & _). apply Hno. reflexivity.
    + exists (filter kept pre ++ [l]). split.
      * apply Forall_app. split; [assumption |].
        apply Forall_cons_2; [| apply Forall_nil_2].
        repeat split; try assumption; try apply Hk.
        apply elem_of_app. right. apply list_elem_of_here.
      * left. rewrite step_keep by assumption. rewrite app_assoc. reflexivity.
  - exists (filter kept pre). split; [assumption | left].
    apply step_skip. assumption.
Qed.


Lemma split_root_of (l : list string) :
  split "/" (root_of l) = "" :: split "/" (PyStr.join "/" l).
Proof. reflexivity. Qed.

(** A root text splits back into its components. *)
Lemma components_root_of (l : list string) :
  Forall nonempty_slash_free l -> components (root_of l) = l.
Proof.
  intros Hall. unfold components. rewrite split_root_of.
  rewrite filter_cons_False by (intros H; apply H; reflexivity).
  assert (Hfilter : filter (fun c : string => c <> "") l = l).
  { clear -Hall. induction Hall as [|c l [Hc _] _ IH]; [reflexivity |].
    rewrite filter_cons_True by assumption. rewrite IH. reflexivity. }
  destruct l as [|c l]; [reflexivity |].
  rewrite split_join; [assumption | discriminate |].
  eapply Forall_impl; [exact Hall | intros ? [_ H]; exact H].
Qed.

Lemma endswith_split (s : string) :
  endswith s "/" = true ->
  exists pre, pre <> [] /\ split "/" s = pre ++ [""].
Proof.
  induction s as [|a r IH]; [discriminate |].
  cbn [endswith]. intros H. apply orb_true_iff in H as [H|H].
  - apply String.eqb_eq in H as ->. exists [""]. split; [discriminate | reflexivity].
  - destruct (IH H) as (pre & Hpre & Hsplit). simpl. rewrite Hsplit.
    destruct (Ascii.eqb a "/").
    + exists ("" :: pre). split; [discriminate | reflexivity].
    + destruct pre as [|h pre']; [contradiction |].
      exists (String a h :: pre'). split; [discriminate | reflexivity].
Qed.

Lemma root_of_not_endswith (c : string) (l : list string) :
  Forall nonempty_slash_free (c :: l) ->
  endswith (root_of (c :: l)) "/" = false.
Proof.
  intros Hall. destruct (endswith _ _) eqn:Hends; [| reflexivity]. exfalso.
  apply endswith_split in Hends as (pre & Hpre & Hsplit).
  rewrite split_root_of in Hsplit.
  rewrite split_join in Hsplit;
    [| discriminate | eapply Forall_impl; [exact Hall | intros ? [_ H]; exact H]].
  assert (Hlast : last ("" :: c :: l) = Some "")
    by (rewrite Hsplit; apply last_snoc).
  rewrite last_cons_cons in Hlast. apply last_Some_elem_of in Hlast.
  rewrite Forall_forall in Hall. destruct (Hall _ Hlast) as [Hne _].
  apply Hne. reflexivity.
Qed.


Lemma plain_nonempty_slash_free (rc : list string) :
  Forall plain_component rc -> Forall nonempty_slash_free rc.
Proof.
  intros H. eapply Forall_impl; [exact H |].
  intros c (H1 & _ & _ & H4). split; assumption.
Qed.

Lemma plain_kept (rc : list string) :
  Forall plain_component rc -> Forall (fun c => c <> "..") ("" :: rc) /\
                               filter kept ("" :: rc) = rc.
Proof.
  intros H. split.
  - constructor; [discriminate |].
    eapply Forall_impl; [exact H | intros c (_ & _ & H3 & _); exact H3].
  - rewrite filter_cons_False by (intros [Hk _]; apply Hk; reflexivity).
    induction H as [|c l (H1 & H2 & _) _ IH]; [reflexivity |].
    rewrite filter_cons_True by (split; assumption). rewrite IH. reflexivity.
Qed.

Lemma startswith_head (c rest : string) :
  c <> "" -> slash_free c -> startswith (c +:+ rest) "/" = false.
Proof.
  destruct c as [|a c]; [contradiction |]. intros _ [Ha _].
  change (String a c +:+ rest) with (String a (c +:+ rest)).
  cbn [startswith].
  destruct (Ascii.eqb_spec "/" a) as [<-|_]; [contradiction | reflexivity].
Qed.

Lemma startswith_nil (s : string) : startswith s "" = true.
Proof. destruct s; reflexivity. Qed.

Lemma startswith_append_l (a b : string) :
  a <> "" -> startswith (a +:+ b) "/" = startswith a "/".
Proof.
  destruct a as [|x a]; [contradiction |]. intros _.
  change (String x a +:+ b) with (String x (a +:+ b)).
  cbn [startswith]. rewrite !startswith_nil. reflexivity.
Qed.

(** The text joined and the components it splits into. *)
Lemma join_root_relative (rc : list string) (p : string) :
  Forall plain_component rc ->
  PosixPath.isabs p = false ->
  exists y,
    PosixPath.join (root_of rc) p = String "/" y /\
    startswith y "/" = false /\
    split "/" (String "/" y) = ("" :: rc) ++ split "/" p.
Proof.
  intros Hrc Hrel. unfold PosixPath.join. rewrite Hrel.
  destruct rc as [|c l].
  - exists p. split; [reflexivity |]. split; [exact Hrel | reflexivity].
  - rewrite (root_of_not_endswith c l (plain_nonempty_slash_free _ Hrc)).
    change (String.eqb (root_of (c :: l)) "") with false. cbn [orb].
    exists (PyStr.join "/" (c :: l) +:+ String "/" p). repeat split.
    + inversion Hrc as [|? ? (H1 & _ & _ & H4) _]; subst.
      destruct l as [|d l].
      * apply startswith_head; assumption.
      * rewrite join_cons by discriminate.
        rewrite startswith_append_l.
        -- apply startswith_head; assumption.
        -- destruct c; [contradiction | discriminate].
    + change (split "/" (String "/" ?x)) with ("" :: split "/" x).
      rewrite split_append, split_join;
        [reflexivity | discriminate |].
      eapply Forall_impl; [exact Hrc | intros ? (_ & _ & _ & H); exact H].
Qed.

Lemma isabs_slash (y : string) : PosixPath.isabs (String "/" y) = true.
Proof.
  unfold PosixPath.isabs. cbn [startswith]. rewrite startswith_nil.
  reflexivity.
Qed.

Lemma initial_slashes_one (y : string) :
  startswith y "/" = false -> PosixPath.initial_slashes (String "/" y) = 1.
Proof.
  intros Hy. unfold PosixPath.initial_slashes.
  change (startswith (String "/" y) "//")
    with (Ascii.eqb "/" "/" && startswith y "/").
  cbn [startswith]. rewrite startswith_nil, Hy. reflexivity.
Qed.

(** The absolute form of a relative path under the root: the root's
    components, then what the loop of [normpath] makes of the path's. *)
Lemma abspath_root_relative (rc : list string) (wd p : string) :
  Forall plain_component rc ->
  PosixPath.isabs p = false ->
  PosixPath.abspath wd (PosixPath.join (root_of rc) p)
  = root_of (fold_left (PosixPath.normpath_step 1) (split "/" p) rc).
Proof.
  intros Hrc Hrel.
  destruct (join_root_relative rc p Hrc Hrel) as (y & -> & Hy & Hsplit).
  unfold PosixPath.abspath. rewrite isabs_slash.
  unfold PosixPath.normpath.
  change (String.eqb (String "/" y) "") with false. cbn iota.
  rewrite (initial_slashes_one y Hy), Hsplit, fold_left_app.
  destruct (plain_kept rc Hrc) as [Hno Hfilter].
  rewrite (fold_without_dotdot 1 ("" :: rc) [] Hno), Hfilter. cbn [app].
  reflexivity.
Qed.


Lemma join_removelast_shorter (rc : list string) :
  rc <> [] -> Forall (fun c => c <> "") rc ->
  String.length (PyStr.join "/" (removelast rc))
  < String.length (PyStr.join "/" rc).
Proof.
  induction rc as [|c rc IH]; [contradiction |]. intros _ Hall.
  inversion Hall as [|? ? Hc Hrc]; subst.
  destruct rc as [|d rc].
  - cbn. destruct c; [contradiction | cbn; lia].
  - change (removelast (c :: d :: rc)) with (c :: removelast (d :: rc)).
    rewrite (join_cons c (d :: rc)) by discriminate.
    rewrite length_append. cbn [String.length].
    specialize (IH ltac:(discriminate) Hrc).
    destruct (removelast (d :: rc)) as [|e l] eqn:Hrl.
    + cbn. lia.
    + rewrite join_cons by discriminate.
      rewrite length_append. cbn [String.length]. lia.
Qed.

(** The text of the parent of the root does not begin with the text of
    the root. *)
Lemma parent_not_startswith (rc : list string) :
  rc <> [] -> Forall (fun c => c <> "") rc ->
  startswith (root_of (removelast rc)) (root_of rc) = false.
Proof.
  intros Hne Hall. destruct (startswith _ _) eqn:Hsw; [| reflexivity].
  apply startswith_length in Hsw. unfold root_of in Hsw.
  rewrite !length_append in Hsw.
  pose proof (join_removelast_shorter rc Hne Hall). lia.
Qed.

(** X1: for a relative path, the text test of [validate_file_path] is
    sound: a relative path that resolves outside the root is blocked, by
    the traversal pattern or because its absolute form stops short of the
    root. *)
Theorem relative_path_outside_blocked (rc : list string) (wd p : string) :
  Forall plain_component rc ->
  PosixPath.isabs p = false ->
  let self := {| project_root := root_of rc; cwd := wd |} in
  resolves_outside self p = true ->
  pv_valid (validate_file_path self p) = false.
Proof.
  intros Hrc Hrel self Hout.
  destruct (pv_valid (validate_file_path self p)) eqn:Hvalid;
    [exfalso | reflexivity].
  rewrite validate_file_path_valid in Hvalid.
  apply andb_true_iff in Hvalid as [Hsev Hprefix].
  assert (Hsearch : Re.search "\.\.\/" p = false).
  { destruct (Re.search "\.\.\/" p) eqn:Hs; [| reflexivity].
    rewrite (scan_dangerous_paths_error p "\.\.\/") in Hsev;
      [discriminate | apply list_elem_of_here | assumption]. }
  pose proof (plain_nonempty_slash_free rc Hrc) as Hrc'.
  assert (Hrcno : ".." ∉ rc).
  { intros Hin. rewrite Forall_forall in Hrc.
    destruct (Hrc _ Hin) as (_ & _ & H3 & _). apply H3. reflexivity. }
  destruct (fold_relative rc (split "/" p) Hrcno (split_nonempty "/" p)
              (no_traversal_components p None Hsearch))
    as (ys & Hys & Hfold).
  assert (Hys' : Forall nonempty_slash_free ys).
  { eapply Forall_impl; [exact Hys |]. intros c ([Hc _] & _ & Hin).
    split; [assumption |].
    pose proof (split_components_slash_free p) as Hsf.
    rewrite Forall_forall in Hsf. auto. }
  unfold resolves_outside in Hout. subst self. cbn [project_root cwd] in *.
  rewrite (abspath_root_relative rc wd p Hrc Hrel) in Hout, Hprefix.
  rewrite (components_root_of rc Hrc') in Hout.
  apply negb_true_iff, bool_decide_eq_false in Hout. apply Hout.
  destruct Hfold as [Hfold | Hfold]; rewrite Hfold in *; clear Hfold.
  - rewrite components_root_of by (apply Forall_app; split; assumption).
    apply prefix_app_r. reflexivity.
  - destruct (decide (ys = [])) as [-> | Hne].
    + rewrite app_nil_r in *. destruct rc as [|c rc]; [apply prefix_nil |].
      rewrite parent_not_startswith in Hprefix; [discriminate | discriminate |].
      eapply Forall_impl; [exact Hrc' | intros ? [H _]; exact H].
    + destruct (exists_last Hne) as (ys0 & y & ->).
      rewrite app_assoc, removelast_last.
      apply Forall_app in Hys' as [Hys' _].
      rewrite components_root_of by (apply Forall_app; split; assumption).
      apply prefix_app_r. reflexivity.
Qed.

Example parent_directory_blocked :
  pv_valid (validate_file_path app_validator "..") = false.
Proof.
  apply (relative_path_outside_blocked ["srv"; "app"] "/" "..").
  - repeat (apply Forall_cons_2;
            [repeat split; discriminate |]). apply Forall_nil_2.
  - reflexivity.
  - vm_compute. reflexivity.
Defined.

End RelativePaths.

Section CallbackFacts.
Import PyStr Safety.

(** Every outcome leaves at most 100 entries in the security log. *)
Lemma security_log_bounded (root wd : string) (now : Z) (tool : string)
    (args : gmap string string) (st : SecurityState) :
  length (log_of (validate_file_operations root wd now tool args st).1)
  <= 100.
Proof.
  unfold validate_file_operations, log_of.
  repeat (match goal with
          | |- context [match ?x with _ => _ end] => destruct x
          | |- context [if ?b then _ else _] => destruct b
          end; cbn [fst security_log default]);
    apply last_n_bound.
Qed.

(** A blocked operation leaves the counters as they were. *)
Lemma blocked_keeps_counters (root wd : string) (now : Z) (tool : string)
    (args : gmap string string) (st : SecurityState)
    (reason : string) (issues : list string) (t : string) :
  (validate_file_operations root wd now tool args st).2
    = Blocked reason issues t ->
  security_counters (validate_file_operations root wd now tool args st).1
    = security_counters st.
Proof.
  unfold validate_file_operations.
  destruct (validate_file_path _ <$> truthy_arg args "file_path")
    as [pv|]; cbn.
  - destruct (pv_valid pv); cbn; [| reflexivity].
    destruct (validate_content <$> truthy_arg args "content") as [cv|];
      cbn; discriminate.
  - destruct (validate_content <$> truthy_arg args "content") as [cv|];
      cbn; discriminate.
Qed.

(** Without a path, nothing is blocked. *)
Lemma no_path_never_blocked (root wd : string) (now : Z) (tool : string)
    (args : gmap string string) (st : SecurityState)
    (reason : string) (issues : list string) (t : string) :
  truthy_arg args "file_path" = None ->
  (validate_file_operations root wd now tool args st).2
    <> Blocked reason issues t.
Proof.
  intros Hnone. unfold validate_file_operations. rewrite Hnone. cbn.
  destruct (validate_content <$> truthy_arg args "content") as [cv|];
    cbn; discriminate.
Qed.

(** Without a path and with a content, the operation is allowed and
    recorded so. *)
Lemma no_path_with_content_allowed (root wd : string) (now : Z)
    (tool : string) (args : gmap string string) (st : SecurityState)
    (content : string) :
  truthy_arg args "file_path" = None ->
  truthy_arg args "content" = Some content ->
  let r := validate_file_operations root wd now tool args st in
  r.2 = Allow /\
  oe_action <$> last (log_of r.1) = Some "allowed".
Proof.
  intros Hpath Hcontent r. subst r.
  unfold validate_file_operations, log_of.
  rewrite Hpath, Hcontent. cbn. split; [reflexivity |].
  rewrite last_n_snoc_last by lia. reflexivity.
Qed.

(** Without a path and without a content, the test of the warnings
    counter raises: the verdict is the error dict, which replaces the
    tool's result, and the entry, already appended as allowed, is
    appended once more and reads ["error"] at both places. *)
Lemma no_path_no_content_error (root wd : string) (now : Z)
    (tool : string) (args : gmap string string) (st : SecurityState) :
  truthy_arg args "file_path" = None ->
  truthy_arg args "content" = None ->
  let r := validate_file_operations root wd now tool args st in
  let e := {| oe_timestamp := now; oe_tool := tool;
              oe_args := slice_to 100 <$> args;
              oe_validation_result := VRNone;
              oe_action := "error";
              oe_error := Some none_get_error |} in
  r.2 = ValidationError ("Security validation error: " +:+ none_get_error)
          tool /\
  security_log r.1 = Some (last_n 100 (log_of st ++ [e; e])) /\
  security_counters r.1 = incr_allowed <$> security_counters st.
Proof.
  intros Hpath Hcontent r e. subst r e.
  unfold validate_file_operations, log_of.
  rewrite Hpath, Hcontent. cbn. repeat split.
Qed.

End CallbackFacts.

Section CallbackClaims.
Import PyStr Safety.

(** C9 fails on a blocked operation: reading [/etc/passwd] is blocked
    and logged once, and the counters are what they were; the blocked
    counter, which the default dict provides, stays at 0.  The blocked
    arm returns before the counters are touched. *)
Theorem blocked_operation_not_counted :
  let r :=
    validate_file_operations "/srv/app" "/" 0 "read_file"
      {[ "file_path" := "/etc/passwd" ]} counted_state in
  r.2 = Blocked "Security validation failed"
          [ "Dangerous path pattern detected: \/etc\/";
            "Path is outside project directory" ] "read_file" /\
  oe_action <$> log_of r.1 = ["blocked"] /\
  security_counters r.1 = Some {| allowed := 3; blocked := 0; warnings := 0 |}.
Proof. vm_compute. repeat split. Qed.

(** C10 fails when the content is absent too: a call whose [file_path]
    is the empty text, or a call without arguments, is not recorded as
    allowed.  The callback raises inside its own counter update, returns
    the error dict in place of the tool's result, and leaves two log
    entries, both reading ["error"]. *)
Theorem empty_path_recorded_as_error :
  let verdict :=
    ValidationError
      "Security validation error: 'NoneType' object has no attribute 'get'"
      "read_file" in
  let r1 :=
    validate_file_operations "/srv/app" "/" 0 "read_file"
      {[ "file_path" := "" ]} fresh_state in
  let r2 :=
    validate_file_operations "/srv/app" "/" 0 "read_file" ∅ fresh_state in
  (r1.2 = verdict /\ oe_action <$> log_of r1.1 = ["error"; "error"] /\
   security_counters r1.1 = None) /\
  (r2.2 = verdict /\ oe_action <$> log_of r2.1 = ["error"; "error"] /\
   security_counters r2.1 = None).
Proof. vm_compute. repeat split. Qed.

End CallbackClaims.

(** ** Rate limiting *)

Section RateLimitFacts.
Import PyStr Safety.

(** Every outcome leaves at most 50 entries in the search log. *)
Lemma search_log_bounded (now : Z) (tool : string)
    (args : gmap string string) (log : option (list SearchEntry)) :
  length (entries (validate_search_operations now tool args log).1) <= 50.
Proof.
  unfold validate_search_operations, entries.
  destruct (negb _); [| destruct (_ <? _)%nat]; cbn; apply last_n_bound.
Qed.

Lemma filter_length_le {A} (f : A -> bool) (l : list A) :
  length (List.filter f l) <= length l.
Proof.
  induction l as [|x l IH]; cbn; [lia |].
  destruct (f x); cbn; lia.
Qed.

(** What the code decides for a harmless query: it is rate limited
    exactly when more than 20 of the entries logged before it are less
    than 60 seconds old; the query itself is not counted. *)
Lemma benign_verdict (now : Z) (tool : string)
    (args : gmap string string) (log : option (list SearchEntry)) :
  benign (now, args) ->
  (validate_search_operations now tool args log).2
  = if (20 <? length (List.filter (is_recent now) (entries log)))%nat
    then SearchRateLimited "Too many search requests" tool
    else SearchAllow.
Proof.
  unfold benign, entries. cbn [snd]. intros Hq.
  unfold validate_search_operations. rewrite Hq.
  rewrite bool_decide_eq_true_2 by reflexivity. cbn [negb].
  destruct (_ <? _)%nat; reflexivity.
Qed.

(** A harmless query on a log of at most 20 entries is allowed, at any
    instant, and the log gains its entry. *)
Lemma benign_allowed_on_short_log (now : Z) (tool : string)
    (args : gmap string string) (log : option (list SearchEntry)) :
  benign (now, args) ->
  length (entries log) <= 20 ->
  exists e,
    validate_search_operations now tool args log
    = (Some (entries log ++ [e]), SearchAllow).
Proof.
  unfold benign, entries. cbn [snd]. intros Hq Hlen.
  unfold validate_search_operations. rewrite Hq.
  rewrite bool_decide_eq_true_2 by reflexivity. cbn [negb].
  pose proof (filter_length_le (is_recent now) (default [] log)) as Hf.
  destruct (Nat.ltb_spec 20
              (length (List.filter (is_recent now) (default [] log))))
    as [Hgt|Hle]; [lia |].
  eexists. rewrite last_n_all; [reflexivity |].
  rewrite length_app. cbn. lia.
Qed.

(** From a log that leaves room, harmless queries are all allowed as
    long as the log has held at most 20 entries before each: whatever
    the instants, the first 21 queries of a session pass. *)
Lemma benign_run_allowed (tool : string)
    (calls : list (Z * gmap string string))
    (log : option (list SearchEntry)) :
  Forall benign calls ->
  length (entries log) + length calls <= 21 ->
  (run_searches tool calls log).2 = repeat SearchAllow (length calls).
Proof.
  revert log. induction calls as [|[now args] calls IH]; intros log Hb Hlen.
  - reflexivity.
  - inversion Hb as [|? ? Hhead Htail]; subst. cbn [length] in Hlen.
    destruct (benign_allowed_on_short_log now tool args log Hhead)
      as [e He]; [lia |].
    cbn [run_searches]. rewrite He.
    specialize (IH (Some (entries log ++ [e])) Htail).
    destruct (run_searches tool calls (Some (entries log ++ [e])))
      as [log2 vs].
    cbn [snd] in *. cbn [length repeat]. f_equal. apply IH.
    unfold entries in *. cbn [default from_option id].
    rewrite length_app. cbn [length]. lia.
Qed.

Lemma paced_benign (step : Z) (n : nat) : Forall benign (paced step n).
Proof.
  unfold paced. apply Forall_fmap, Forall_forall. intros i _.
  vm_compute. reflexivity.
Qed.

Lemma paced_length (step : Z) (n : nat) : length (paced step n) = n.
Proof. unfold paced. rewrite length_fmap. apply length_seq. Qed.

(** Spreading the queries changes nothing: 21 harmless queries of a new
    session are all allowed, at any pace. *)
Lemma spread_queries_allowed (step : Z) :
  (run_searches "search_code" (paced step 21) None).2
  = repeat SearchAllow 21.
Proof.
  rewrite (benign_run_allowed "search_code" (paced step 21) None).
  - rewrite paced_length. reflexivity.
  - apply paced_benign.
  - rewrite paced_length. cbn. lia.
Qed.

(** C5 fails on its first part: of 22 harmless queries sent one second
    apart by a new session, the first 21 are allowed, the 21st among
    them, and the 22nd is the first to be rate limited.  The test counts
    the entries logged before the call, 20 at the 21st call, and asks for
    more than 20. *)
Theorem rate_limit_admits_21st_query :
  (run_searches "search_code" (paced 1 22) None).2
  = repeat SearchAllow 21 ++
    [SearchRateLimited "Too many search requests" "search_code"].
Proof. vm_compute. reflexivity. Qed.

End RateLimitFacts.

(** ** Shadow validation *)

Section ShadowFacts.
Import PyStr Lsp.
Context {Server : Type}.
Variable create : string -> list string -> outcome Server.
Variable reported : list RawDiagnostic.



(** The verdict step, on any diagnostics result: the response is the
    success dict, valid exactly when no diagnostic has error
    severity. *)
Lemma shadow_verdict_response (now : Z) (file_path : string)
    (temp_workspace : list string)
    (result : DiagnosticsResult * option LspState) :
  (shadow_verdict now file_path temp_workspace result).1
  = ValidationSuccess
      (negb (existsb (has_severity 1) (dr_diagnostics result.1)))
      (count_severity 1 (dr_diagnostics result.1))
      (count_severity 2 (dr_diagnostics result.1))
      (dr_diagnostics result.1)
      (path_text temp_workspace).
Proof. reflexivity. Qed.

(** A shadow validation that answers with the success dict drew it from
    a diagnostics result by the verdict step. *)
Lemma validate_success_inv (self : LSPTool) (now : Z)
    (temp_dir : list string) (file_path new_content : string)
    (ctx : option LspState) (fs : FS) (valid : bool) (ec wc : nat)
    (diagnostics : list Diagnostic) (tw : string) :
  (validate_code_in_shadow_workspace create reported self now temp_dir
     file_path new_content ctx fs).1.1
  = ValidationSuccess valid ec wc diagnostics tw ->
  valid = negb (existsb (has_severity 1) diagnostics) /\
  ec = count_severity 1 diagnostics /\
  wc = count_severity 2 diagnostics.
Proof.
  unfold validate_code_in_shadow_workspace, with_temporary_directory, bind.
  destruct (mkdtemp temp_dir fs) as [fs1 [[]|e1]]; [| discriminate].
  destruct (_copy_workspace_context self temp_dir file_path fs1)
    as [fs2 [[]|e2]]; [| discriminate].
  destruct (mkdir_parents _ fs2) as [fs3 [[]|e3]]; [| discriminate].
  destruct (write_text _ new_content fs3) as [fs4 [[]|e4]]; [| discriminate].
  set (result := get_diagnostics create reported (new_tool temp_dir) now
                   file_path (Some new_content) ctx fs4).
  pose proof (shadow_verdict_response now file_path temp_dir result) as Hv.
  destruct (shadow_verdict now file_path temp_dir result)
    as [response ctx'].
  cbn [fst snd] in *. rewrite Hv.
  intros [= <- <- <- <- _]. auto.
Qed.

(** When no language server can be had, [get_diagnostics] says so with
    the error status and an empty list. *)
Lemma get_diagnostics_without_server (self : LSPTool) (now : Z)
    (file_path : string) (content : option string)
    (ctx : option LspState) (fs : FS) :
  (_get_or_create_server create self (PosixPath.suffix file_path)).1 = None ->
  let r := get_diagnostics create reported self now file_path content ctx fs in
  dr_status r.1 = "error" /\ dr_diagnostics r.1 = [].
Proof.
  intros Hnone r. subst r. unfold get_diagnostics. rewrite Hnone.
  split; reflexivity.
Qed.

(** The verdict step does not look at the status: on that error result
    it answers success and valid. *)
Lemma verdict_on_failed_diagnostics (self : LSPTool) (now : Z)
    (file_path : string) (content : option string)
    (ctx : option LspState) (fs : FS) (temp_workspace : list string) :
  (_get_or_create_server create self (PosixPath.suffix file_path)).1 = None ->
  (shadow_verdict now file_path temp_workspace
     (get_diagnostics create reported self now file_path content ctx fs)).1
  = ValidationSuccess true 0 0 [] (path_text temp_workspace).
Proof.
  intros Hnone. rewrite shadow_verdict_response.
  destruct (get_diagnostics_without_server self now file_path content ctx fs
              Hnone) as [_ ->].
  reflexivity.
Qed.

End ShadowFacts.

Section ShadowClaims.
Import PyStr Lsp.

(** C2 fails on an absolute path: [temp_workspace / file_path] is then
    [file_path] itself, so the proposed content is written over the
    project's own file, and removing the temporary directory does not
    bring the old content back. *)
Theorem shadow_validation_overwrites_absolute_target :
  let r :=
    validate_code_in_shadow_workspace working [] app_tool 0
      ["tmp"; "tmpab12"] "/srv/app/main.py" "new" None project_fs in
  project_file app_tool "/srv/app/main.py" project_fs = Some (File "old") /\
  response_status r.1.1 = "success" /\
  project_file app_tool "/srv/app/main.py" r.2 = Some (File "new").
Proof. vm_compute. repeat split. Qed.

(** C3 fails: with a language server that cannot be started,
    [get_diagnostics] returns its error dict, and the validation answers
    success and valid with no diagnostics, as for a clean file. *)
Theorem collaborator_failure_reported_as_pass :
  (validate_code_in_shadow_workspace refusing [] app_tool 0
     ["tmp"; "tmpab12"] "main.py" "def f(:" None project_fs).1.1
  = ValidationSuccess true 0 0 [] "/tmp/tmpab12" /\
  (validate_code_in_shadow_workspace working [] app_tool 0
     ["tmp"; "tmpab12"] "main.py" "def f(:" None project_fs).1.1
  = ValidationSuccess true 0 0 [] "/tmp/tmpab12".
Proof. split; vm_compute; reflexivity. Qed.

End ShadowClaims.

(** ** The reach of shadow validation in the file system *)

Section ShadowFrame.
Import PyStr Lsp.


(** Paths without [..] name themselves. *)
Lemma resolve_from (acc p : list string) :
  ".." ∉ p ->
  fold_left
    (fun acc c => if String.eqb c ".." then removelast acc else acc ++ [c])
    p acc = acc ++ p.
Proof.
  revert acc. induction p as [|c p IH]; intros acc Hno; cbn.
  - rewrite app_nil_r. reflexivity.
  - apply not_elem_of_cons in Hno as [Hc Hp].
    destruct (String.eqb_spec c "..") as [->|_]; [congruence |].
    rewrite IH by assumption. rewrite <- app_assoc. reflexivity.
Qed.

Lemma resolve_plain (p : list string) : ".." ∉ p -> resolve p = p.
Proof. intros Hno. unfold resolve. apply (resolve_from [] p Hno). Qed.

Lemma not_elem_of_removelast (x : string) (p : list string) :
  x ∉ p -> x ∉ removelast p.
Proof.
  induction p as [|a [|b p] IH]; cbn; intros Hx; auto.
  - apply not_elem_of_nil.
  - apply not_elem_of_cons in Hx as [Ha Hp].
    apply not_elem_of_cons. split; [assumption | apply IH; assumption].
Qed.

Lemma removelast_prefix (p : list string) : removelast p `prefix_of` p.
Proof.
  induction p as [|a [|b p] IH]; cbn.
  - reflexivity.
  - apply prefix_nil.
  - apply prefix_cons. exact IH.
Qed.


(** What [resolve] returns holds no [..]. *)
Lemma resolve_from_plain (acc p : list string) :
  ".." ∉ acc ->
  ".." ∉ fold_left
    (fun acc c => if String.eqb c ".." then removelast acc else acc ++ [c])
    p acc.
Proof.
  revert acc. induction p as [|c p IH]; intros acc Hacc; cbn; [assumption |].
  apply IH. destruct (String.eqb_spec c "..") as [->|Hc].
  - apply not_elem_of_removelast. assumption.
  - apply not_elem_of_app. split; [assumption |].
    apply not_elem_of_cons. split; [congruence | apply not_elem_of_nil].
Qed.

Lemma resolve_no_dotdot (p : list string) : ".." ∉ resolve p.
Proof. apply resolve_from_plain, not_elem_of_nil. Qed.

Lemma resolve_idem (p : list string) : resolve (resolve p) = resolve p.
Proof. apply resolve_plain, resolve_no_dotdot. Qed.

Lemma same_outside_refl (t : list string) (fs : FS) : same_outside t fs fs.
Proof. intros k _. reflexivity. Qed.

Lemma same_outside_trans (t : list string) (fs1 fs2 fs3 : FS) :
  same_outside t fs1 fs2 -> same_outside t fs2 fs3 -> same_outside t fs1 fs3.
Proof. intros H12 H23 k Hk. rewrite H23, H12 by assumption. reflexivity. Qed.

Lemma same_outside_insert (t : list string) (fs : FS) (k : list string)
    (v : node) :
  t `prefix_of` k -> same_outside t fs (<[ k := v ]> fs).
Proof.
  intros Hk k' Hk'. apply lookup_insert_ne. intros <-. contradiction.
Qed.

(** Creating directories along a path whose missing part lies below [t]
    changes nothing outside [t], also when it stops on a file. *)
Lemma mkdir_from_outside (t : list string) (todo done : list string)
    (fs fs' : FS) (r : outcome unit) :
  mkdir_from done todo fs = (fs', r) ->
  (forall q, q `prefix_of` todo -> q <> [] ->
             t `prefix_of` (done ++ q) \/ fs !! (done ++ q) = Some Dir) ->
  same_outside t fs fs'.
Proof.
  revert done fs. induction todo as [|c rest IH]; intros done fs Hrun Hdirs.
  - injection Hrun as <- _. apply same_outside_refl.
  - cbn in Hrun.
    assert (Hstep : forall (fs0 : FS) (q : list string), q `prefix_of` rest -> q <> [] ->
              (t `prefix_of` (done ++ c :: q) \/ fs0 !! (done ++ c :: q) = Some Dir) ->
              t `prefix_of` ((done ++ [c]) ++ q) \/
              fs0 !! ((done ++ [c]) ++ q) = Some Dir).
    { intros fs0 q _ _ Hq. rewrite <- app_assoc. exact Hq. }
    destruct (fs !! (done ++ [c])) as [[content|]|] eqn:Hq.
    + injection Hrun as <- _. apply same_outside_refl.
    + apply (IH _ _ Hrun). intros q Hpre Hne.
      apply Hstep; auto. apply Hdirs; [apply prefix_cons; assumption | discriminate].
    + destruct (Hdirs [c]) as [Hunder|Hdir];
        [apply prefix_cons, prefix_nil | discriminate | | congruence].
      eapply same_outside_trans;
        [apply (same_outside_insert t fs (done ++ [c]) Dir Hunder) |].
      apply (IH _ _ Hrun). intros q Hpre Hne.
      apply Hstep; auto.
      destruct (Hdirs (c :: q)) as [Hu|Hd];
        [apply prefix_cons; assumption | discriminate | left; assumption |].
      right. rewrite lookup_insert_ne; [assumption |].
      intros Heq. apply (f_equal length) in Heq.
      rewrite !length_app in Heq. cbn in Heq.
      destruct q; [congruence | cbn in Heq; lia].
Qed.

(** Writing below [t] changes nothing outside [t]. *)
Lemma write_text_outside (t p : list string) (content : string)
    (fs fs' : FS) (r : outcome unit) :
  write_text p content fs = (fs', r) ->
  t `prefix_of` resolve p ->
  same_outside t fs fs'.
Proof.
  unfold write_text. intros Hrun Hunder.
  destruct (is_dir fs p); [injection Hrun as <- _; apply same_outside_refl |].
  destruct (negb _); injection Hrun as <- _;
    [apply same_outside_refl | apply same_outside_insert; assumption].
Qed.

(** Copying to a destination below [t] changes nothing outside [t],
    wherever the source is. *)
Lemma resolve_snoc (p : list string) (c : string) :
  c <> ".." -> resolve (p ++ [c]) = resolve p ++ [c].
Proof.
  intros Hc. unfold resolve. rewrite fold_left_app. cbn.
  destruct (String.eqb_spec c ".."); [contradiction | reflexivity].
Qed.

Lemma copy2_outside (t src dst : list string) (fs fs' : FS)
    (r : outcome unit) :
  copy2 src dst fs = (fs', r) ->
  ".." ∉ src ->
  t `prefix_of` resolve dst ->
  same_outside t fs fs'.
Proof.
  unfold copy2. intros Hrun Hsrc Hunder.
  set (dst' := if is_dir fs dst then dst ++ option_list (last src)
               else dst) in *.
  assert (Hdst : t `prefix_of` resolve dst').
  { subst dst'. destruct (is_dir fs dst); [| assumption].
    destruct (last src) as [nm|] eqn:Hlast; cbn;
      [| rewrite app_nil_r; assumption].
    rewrite resolve_snoc; [apply prefix_app_r; assumption |].
    intros ->. apply Hsrc, last_Some_elem_of. assumption. }
  destruct (_ && _); [injection Hrun as <- _; apply same_outside_refl |].
  destruct (read_text src fs) as [fs0 [content|e]].
  - apply (write_text_outside _ _ _ _ _ _ Hrun Hdst).
  - injection Hrun as <- _. apply same_outside_refl.
Qed.


(** The directories above [t] are outside [t]. *)
Lemma ancestors_same_outside (t : list string) (fs fs' : FS) :
  same_outside t fs fs' -> ancestors_are_dirs t fs ->
  ancestors_are_dirs t fs'.
Proof.
  intros Hsame Hanc q Hpre Hne Hnil. rewrite Hsame; [auto |].
  intros Hrev. apply Hne. apply (anti_symm prefix); assumption.
Qed.

Lemma mkdir_parents_outside (t p xs : list string) (fs fs' : FS)
    (r : outcome unit) :
  ancestors_are_dirs t fs ->
  resolve p `prefix_of` t ++ xs ->
  mkdir_parents p fs = (fs', r) ->
  same_outside t fs fs'.
Proof.
  intros Hanc Hp Hrun. unfold mkdir_parents in Hrun.
  apply (mkdir_from_outside t _ _ _ _ _ Hrun). intros q Hq Hnil. cbn.
  destruct (prefix_weak_total q t (t ++ xs)) as [Hqt|Htq];
    [etrans; eassumption | apply prefix_app_r; reflexivity | | left; assumption].
  destruct (decide (q = t)) as [->|Hne]; [left; reflexivity |].
  right. apply Hanc; assumption.
Qed.

Section InTemporaryDirectory.
Context {Server : Type}.
Variable create : string -> list string -> outcome Server.
Variable reported : list RawDiagnostic.
Variable t : list string.
Hypothesis t_plain : ".." ∉ t.

Lemma truediv_plain (base : list string) (f : string) :
  ".." ∉ base -> stays_below f -> ".." ∉ truediv base f.
Proof.
  intros Hbase [Hrel Hf]. unfold truediv. rewrite Hrel.
  apply not_elem_of_app. split; assumption.
Qed.

Lemma truediv_below (f : string) :
  stays_below f -> truediv t f = t ++ PosixPath.parts f.
Proof. intros [Hrel _]. unfold truediv. rewrite Hrel. reflexivity. Qed.

Lemma resolve_truediv_below (f : string) :
  stays_below f -> resolve (truediv t f) = t ++ PosixPath.parts f.
Proof.
  intros Hf. rewrite (truediv_below f Hf). apply resolve_plain.
  apply not_elem_of_app. split; [exact t_plain | apply Hf].
Qed.

Lemma copy_configs_outside (self : @LSPTool Server) (files : list string) :
  ".." ∉ project_root self ->
  Forall stays_below files ->
  forall (fs fs' : FS) (r : outcome unit),
    copy_configs self t files fs = (fs', r) -> same_outside t fs fs'.
Proof.
  intros Hroot.
  induction 1 as [|f files Hf Hfiles IH]; intros fs fs' r Hrun.
  - injection Hrun as <- _. apply same_outside_refl.
  - cbn in Hrun. unfold bind, when_exists in Hrun.
    destruct (path_exists fs _).
    + destruct (copy2 _ _ fs) as [fs1 [[]|e]] eqn:Hcopy.
      * eapply same_outside_trans; [| apply (IH _ _ _ Hrun)].
        apply (copy2_outside _ _ _ _ _ _ Hcopy);
          [apply truediv_plain; assumption |].
        rewrite (resolve_truediv_below f Hf). apply prefix_app_r. reflexivity.
      * injection Hrun as <- _.
        apply (copy2_outside _ _ _ _ _ _ Hcopy);
          [apply truediv_plain; assumption |].
        rewrite (resolve_truediv_below f Hf). apply prefix_app_r. reflexivity.
    + apply (IH _ _ _ Hrun).
Qed.

Lemma config_files_stay_below : Forall stays_below config_files.
Proof.
  unfold config_files.
  repeat (apply Forall_cons_2; [split; [reflexivity |];
                               vm_compute; intros Hin;
                               repeat (apply elem_of_cons in Hin as [Hin|Hin];
                                       [discriminate |]);
                               inversion Hin |]).
  apply Forall_nil_2.
Qed.


Lemma parent_truediv_below (f : string) :
  stays_below f ->
  resolve (parent (truediv t f)) `prefix_of` t ++ PosixPath.parts f.
Proof.
  intros Hf. rewrite (truediv_below f Hf). unfold parent.
  rewrite resolve_plain; [apply removelast_prefix |].
  apply not_elem_of_removelast, not_elem_of_app.
  split; [exact t_plain | apply Hf].
Qed.

(** The best-effort copy of the context changes nothing outside the
    temporary directory, whichever of its steps raises. *)
Lemma copy_context_outside (self : @LSPTool Server) (file_path : string)
    (fs fs' : FS) (r : outcome unit) :
  ".." ∉ project_root self ->
  stays_below file_path ->
  ancestors_are_dirs t fs ->
  _copy_workspace_context self t file_path fs = (fs', r) ->
  same_outside t fs fs'.
Proof.
  intros Hroot Hf Hanc.
  assert (Hdest : t `prefix_of` resolve (truediv t file_path)).
  { rewrite (resolve_truediv_below _ Hf). apply prefix_app_r. reflexivity. }
  unfold _copy_workspace_context, catch, bind, when_exists, ret.
  destruct (path_exists fs _).
  - destruct (mkdir_parents _ fs) as [fs1 [[]|e1]] eqn:Hmk;
      pose proof (mkdir_parents_outside t _ _ _ _ _ Hanc
                    (parent_truediv_below _ Hf) Hmk) as H1.
    + destruct (copy2 _ _ fs1) as [fs2 [[]|e2]] eqn:Hcp;
        pose proof (copy2_outside t _ _ _ _ _ Hcp
                      (truediv_plain _ _ Hroot Hf) Hdest) as H2.
      * destruct (copy_configs self t config_files fs2) as [fs3 [[]|e3]]
          eqn:Hcfg;
          pose proof (copy_configs_outside self _ Hroot config_files_stay_below
                        _ _ _ Hcfg) as H3;
          intros [= <- _];
          eapply same_outside_trans; eauto using same_outside_trans.
      * intros [= <- _]. eapply same_outside_trans; eassumption.
    + intros [= <- _]. assumption.
  - destruct (copy_configs self t config_files fs) as [fs3 [[]|e3]] eqn:Hcfg;
      pose proof (copy_configs_outside self _ Hroot config_files_stay_below
                    _ _ _ Hcfg) as H3;
      intros [= <- _]; assumption.
Qed.

(** Removing the temporary directory from a tree that differs from the
    original only below it gives the original back. *)
Lemma rmtree_restores (fs fs' : FS) :
  nothing_below t fs -> same_outside t fs fs' -> rmtree t fs' = fs.
Proof.
  intros Hfresh Hsame. apply map_eq. intros k. unfold rmtree.
  rewrite (resolve_plain t t_plain).
  destruct (decide (t `prefix_of` k)) as [Hk|Hk].
  - rewrite (Hfresh k Hk). apply map_lookup_filter_None. right.
    intros x _ Hnot. apply Hnot. exact Hk.
  - rewrite <- (Hsame k Hk). rewrite map_lookup_filter.
    destruct (fs' !! k) as [x|]; cbn; [| reflexivity].
    rewrite option_guard_True by exact Hk. reflexivity.
Qed.

(** X29: where the real tree is safe: for a project root that is resolved
    and a relative path without [..], with a temporary directory whose
    name is unused and whose ancestors exist, shadow validation returns
    the file system it was given, on every exit path: the whole tree is
    unchanged, the target file included. *)
Theorem shadow_validation_frame (self : @LSPTool Server) (now : Z)
    (file_path new_content : string) (ctx : option LspState) (fs : FS) :
  ".." ∉ project_root self ->
  stays_below file_path ->
  nothing_below t fs ->
  ancestors_are_dirs t fs ->
  (validate_code_in_shadow_workspace create reported self now t file_path
     new_content ctx fs).2 = fs.
Proof.
  intros Hroot Hf Hfresh Hanc.
  unfold validate_code_in_shadow_workspace, with_temporary_directory.
  unfold mkdtemp at 1.
  destruct (path_exists fs t); [reflexivity |].
  destruct (negb (is_dir fs (parent t))); [reflexivity |].
  rewrite (resolve_plain t t_plain).
  set (fs1 := <[ t := Dir ]> fs).
  assert (H01 : same_outside t fs fs1)
    by (apply same_outside_insert; reflexivity).
  assert (Hanc1 : ancestors_are_dirs t fs1)
    by (eapply ancestors_same_outside; eassumption).
  unfold bind.
  destruct (_copy_workspace_context self t file_path fs1) as [fs2 [[]|e2]]
    eqn:Hctx;
    pose proof (copy_context_outside self _ _ _ _ Hroot Hf Hanc1 Hctx) as H12.
  2: { cbn. apply rmtree_restores; [assumption |].
       eapply same_outside_trans; eassumption. }
  assert (Hanc2 : ancestors_are_dirs t fs2)
    by (eapply ancestors_same_outside; eassumption).
  destruct (mkdir_parents _ fs2) as [fs3 [[]|e3]] eqn:Hmk;
    pose proof (mkdir_parents_outside t _ _ _ _ _ Hanc2
                  (parent_truediv_below _ Hf) Hmk) as H23.
  2: { cbn. apply rmtree_restores; [assumption |].
       eauto using same_outside_trans. }
  assert (Hdest : t `prefix_of` resolve (truediv t file_path)).
  { rewrite (resolve_truediv_below _ Hf). apply prefix_app_r. reflexivity. }
  destruct (write_text _ new_content fs3) as [fs4 [[]|e4]] eqn:Hwr;
    pose proof (write_text_outside t _ _ _ _ _ Hwr Hdest) as H34.
  2: { cbn. apply rmtree_restores; [assumption |].
       eauto using same_outside_trans. }
  destruct (shadow_verdict _ _ _ _) as [response ctx']. cbn.
  apply rmtree_restores; [assumption |].
  eauto using same_outside_trans.
Qed.


(** Creating directories that are all there does nothing. *)
Lemma mkdir_from_existing (todo done : list string) (fs : FS) :
  (forall q, q `prefix_of` todo -> q <> [] -> fs !! (done ++ q) = Some Dir) ->
  mkdir_from done todo fs = (fs, Returned tt).
Proof.
  revert done. induction todo as [|c rest IH]; intros done Hdirs;
    [reflexivity |].
  cbn. rewrite (Hdirs [c]); [| apply prefix_cons, prefix_nil | discriminate].
  apply IH. intros q Hq Hnil. rewrite <- app_assoc. cbn.
  apply Hdirs; [apply prefix_cons; assumption | discriminate].
Qed.

Lemma lookup_node_plain (fs : FS) (p : list string) :
  ".." ∉ p -> p <> [] -> lookup_node fs p = fs !! p.
Proof.
  intros Hp Hnil. unfold lookup_node. rewrite (resolve_plain p Hp).
  rewrite bool_decide_eq_false_2 by assumption. reflexivity.
Qed.

(** X30: where it is not, in general: an absolute path to a file of the
    tree, outside the temporary directory, is overwritten by shadow
    validation with the proposed content, whatever the project root and
    whatever the diagnostics say. *)
Theorem absolute_target_overwritten (self : @LSPTool Server) (now : Z)
    (file_path new_content old : string) (ctx : option LspState) (fs : FS) :
  let target := PosixPath.parts file_path in
  PosixPath.isabs file_path = true ->
  ".." ∉ target -> target <> [] ->
  fs !! target = Some (File old) ->
  ancestors_are_dirs target fs ->
  ¬ t `prefix_of` target ->
  fs !! t = None -> t <> [] -> is_dir fs (parent t) = true ->
  (validate_code_in_shadow_workspace create reported self now t file_path
     new_content ctx fs).2 !! target = Some (File new_content).
Proof.
  intros target Habs Hplain Htarget Hold Hanc Hout Hfresh Hnil Hparent.
  assert (Hne : t <> target) by (intros ->; apply Hout; reflexivity).
  unfold validate_code_in_shadow_workspace, with_temporary_directory.
  unfold mkdtemp at 1.
  unfold path_exists at 1. rewrite (lookup_node_plain fs t t_plain Hnil), Hfresh.
  rewrite bool_decide_eq_false_2 by (intros [? [=]]).
  rewrite Hparent. cbn [negb]. rewrite (resolve_plain t t_plain).
  set (fs1 := <[ t := Dir ]> fs).
  assert (Hold1 : fs1 !! target = Some (File old))
    by (subst fs1; rewrite lookup_insert_ne; assumption).
  assert (Hanc1 : forall q, q `prefix_of` removelast target -> q <> [] ->
                            fs1 !! ([] ++ q) = Some Dir).
  { intros q Hq Hqnil. cbn. subst fs1.
    destruct (decide (t = q)) as [->|Htq]; [apply lookup_insert_eq |].
    rewrite lookup_insert_ne by assumption.
    apply Hanc; [etrans; [eassumption | apply removelast_prefix] | | assumption].
    intros ->. apply prefix_length in Hq.
    destruct target as [|a p] using rev_ind; [congruence |].
    rewrite removelast_last, length_app in Hq. cbn in Hq. lia. }
  assert (Hmk : mkdir_parents (parent target) fs1 = (fs1, Returned tt)).
  { unfold mkdir_parents, parent.
    rewrite (resolve_plain _ (not_elem_of_removelast _ _ Hplain)).
    apply mkdir_from_existing. exact Hanc1. }
  assert (Hdiv : forall base, truediv base file_path = target)
    by (intros base; unfold truediv; rewrite Habs; reflexivity).
  assert (Hexists : path_exists fs1 target = true).
  { unfold path_exists. rewrite (lookup_node_plain fs1 _ Hplain Htarget), Hold1.
    apply bool_decide_eq_true. eexists. reflexivity. }
  assert (Hnotdir : is_dir fs1 target = false).
  { unfold is_dir. rewrite (lookup_node_plain fs1 _ Hplain Htarget), Hold1.
    apply bool_decide_eq_false. discriminate. }
  assert (Hctx : _copy_workspace_context self t file_path fs1
                 = (fs1, Returned tt)).
  { unfold _copy_workspace_context, catch, bind, when_exists.
    rewrite !Hdiv, Hexists, Hmk. unfold copy2.
    rewrite Hnotdir, Hexists.
    rewrite bool_decide_eq_true_2 by reflexivity. reflexivity. }
  unfold bind. rewrite Hctx, !Hdiv, Hmk.
  unfold write_text at 1. rewrite Hnotdir.
  assert (Hpar : is_dir fs1 (parent (resolve target)) = true).
  { rewrite (resolve_plain _ Hplain). unfold is_dir, lookup_node, parent.
    rewrite (resolve_plain _ (not_elem_of_removelast _ _ Hplain)).
    apply bool_decide_eq_true. case_bool_decide as Hroot; [reflexivity |].
    apply (Hanc1 (removelast target)); [reflexivity | assumption]. }
  rewrite Hpar. cbn [negb]. rewrite (resolve_plain _ Hplain).
  destruct (shadow_verdict _ _ _ _) as [response ctx']. cbn.
  unfold rmtree. rewrite (resolve_plain t t_plain).
  apply map_lookup_filter_Some. split; [apply lookup_insert_eq | exact Hout].
Qed.

End InTemporaryDirectory.

End ShadowFrame.

Section ShadowFrameExamples.
Import PyStr Lsp.

Lemma tmp_unused : nothing_below ["tmp"; "tmpab12"] project_fs.
Proof.
  intros k [xs ->]. unfold project_fs.
  repeat (rewrite lookup_insert_ne by discriminate).
  apply lookup_singleton_ne. discriminate.
Qed.

Lemma tmp_ancestors : ancestors_are_dirs ["tmp"; "tmpab12"] project_fs.
Proof.
  intros q [xs Hq] Hne Hnil.
  destruct q as [|a [|b [|c q]]]; cbn in Hq; try congruence.
  injection Hq as <- _. reflexivity.
Qed.

(** The frame theorem at work: validating a new [main.py] for the sample
    project leaves the sample tree as it was. *)
Example shadow_validation_frame_example :
  (validate_code_in_shadow_workspace working mixed_report app_tool 0
     ["tmp"; "tmpab12"] "main.py" "new" None project_fs).2 = project_fs.
Proof.
  apply shadow_validation_frame.
  - vm_compute. intros Hin.
    repeat (apply elem_of_cons in Hin as [Hin|Hin]; [discriminate |]).
    inversion Hin.
  - vm_compute. intros Hin.
    repeat (apply elem_of_cons in Hin as [Hin|Hin]; [discriminate |]).
    inversion Hin.
  - split; [reflexivity |]. vm_compute. intros Hin.
    repeat (apply elem_of_cons in Hin as [Hin|Hin]; [discriminate |]).
    inversion Hin.
  - exact tmp_unused.
  - exact tmp_ancestors.
Defined.

End ShadowFrameExamples.

(** ** The verdict of shadow validation *)

Section ShadowProgress.
Import PyStr Lsp LspTools.
Context {Server : Type}.
Variable create : string -> list string -> outcome Server.
Variable reported : list RawDiagnostic.
Variable t : list string.
Hypothesis t_plain : ".." ∉ t.
Hypothesis t_named : t <> [].
Variable P : list string.
Hypothesis P_plain : ".." ∉ P.
Hypothesis P_named : P <> [].
Hypothesis P_clear :
  forall cfg rest, cfg ∈ config_files -> P = cfg :: rest -> rest = [].

Lemma shadow_step_refl (fs : FS) : shadow_step t P fs fs.
Proof. intros k. left. reflexivity. Qed.


Lemma shadow_step_file (fs : FS) (k : list string) (c : string) :
  k = t ++ P \/ (exists cfg x, cfg ∈ config_files /\ k = t ++ cfg :: x) ->
  shadow_step t P fs (<[ k := File c ]> fs).
Proof.
  intros Hk k'. destruct (decide (k' = k)) as [->|Hne].
  - right. right. exists c. split; [apply lookup_insert_eq | exact Hk].
  - left. apply lookup_insert_ne. congruence.
Qed.





Lemma target_plain : ".." ∉ t ++ P.
Proof. apply not_elem_of_app. split; assumption. Qed.






Lemma write_target_step (content : string) (fs fs' : FS) (r : outcome unit) :
  write_text (t ++ P) content fs = (fs', r) -> shadow_step t P fs fs'.
Proof.
  unfold write_text.
  destruct (is_dir fs _); [intros [= <- _]; apply shadow_step_refl |].
  destruct (negb _); intros [= <- _]; [apply shadow_step_refl |].
  rewrite (resolve_plain _ target_plain). apply shadow_step_file. left.
  reflexivity.
Qed.










End ShadowProgress.

Section ShadowVerdict.
Import PyStr Lsp LspTools.
Context {Server : Type}.
Variable create : string -> list string -> outcome Server.
Variable reported : list RawDiagnostic.
Variable t : list string.
Hypothesis t_plain : ".." ∉ t.



End ShadowVerdict.

Section ShadowVerdictExample.
Import PyStr Lsp LspTools.


End ShadowVerdictExample.

(** ** The security gate over a session *)

Section GateSessions.
Import PyStr Safety SafetySessions.

(** X3: the file-operation callback blocks on the path alone: a blocked
    verdict means that [file_path] was given and non-empty and that
    [validate_file_path] found it invalid; the issues returned are those of
    the path and the tool named is the calling tool. The content never
    blocks. *)
Theorem blocked_only_by_path (root wd : string) (now : Z) (tool : string)
    (args : gmap string string) (st : SecurityState)
    (reason : string) (issues : list string) (t : string) :
  (validate_file_operations root wd now tool args st).2
    = Blocked reason issues t ->
  exists file_path,
    truthy_arg args "file_path" = Some file_path /\
    let verdict :=
      validate_file_path {| project_root := root; cwd := wd |} file_path in
    pv_valid verdict = false /\ issues = pv_issues verdict /\ t = tool.
Proof.
  unfold validate_file_operations.
  destruct (truthy_arg args "file_path") as [file_path|]; cbn.
  - destruct (pv_valid _) eqn:Hvalid; cbn.
    + destruct (validate_content <$> truthy_arg args "content");
        cbn; discriminate.
    + intros [= _ <- <-]. exists file_path. auto.
  - destruct (validate_content <$> truthy_arg args "content");
      cbn; discriminate.
Qed.

Lemma blocked_only_by_path_witness :
  exists file_path,
    truthy_arg {[ "file_path" := "/etc/passwd"; "content" := "sudo" ]}
      "file_path" = Some file_path /\
    let verdict := validate_file_path app_validator file_path in
    pv_valid verdict = false /\
    [ "Dangerous path pattern detected: \/etc\/";
      "Path is outside project directory" ] = pv_issues verdict /\
    "write_file" = "write_file".
Proof.
  apply (blocked_only_by_path "/srv/app" "/" 0 "write_file"
           {[ "file_path" := "/etc/passwd"; "content" := "sudo" ]}
           fresh_state "Security validation failed").
  vm_compute. reflexivity.
Defined.

(** The loop over the flagged operations, from any accumulator: it
    never reaches [error], and ends at [warning] exactly when it began
    there or met an operation the content mentions. *)
Lemma scan_operations_from (content : string) (l : list string)
    (acc : list string * Severity) :
  let r := fold_left
    (fun (acc : list string * Severity) operation =>
       if contains (lower content) (lower operation)
       then (acc.1 ++ ["Potentially dangerous operation: " +:+ operation],
             warning)
       else acc) l acc in
  (acc.2 <> error -> r.2 <> error) /\
  (r.2 = warning <->
   acc.2 = warning \/ exists op, op ∈ l /\ mentions content op = true).
Proof.
  revert acc. induction l as [|op l IH]; intros acc; cbn.
  - split; [auto |]. split; [auto |].
    intros [H | (op & Hin & _)]; [assumption | inversion Hin].
  - destruct (contains (lower content) (lower op)) eqn:Hop.
    + destruct (IH (acc.1 ++ ["Potentially dangerous operation: " +:+ op],
                    warning)) as [IH1 IH2]. cbn in IH1, IH2.
      split; [intros _; apply IH1; discriminate |].
      split; [intros _ | intros _; apply IH2; left; reflexivity].
      right. exists op. split; [apply list_elem_of_here | exact Hop].
    + destruct (IH acc) as [IH1 IH2].
      split; [exact IH1 |]. rewrite IH2. split.
      * intros [H | (o & Hin & Ho)]; [left; assumption |].
        right. exists o. split; [apply list_elem_of_further; assumption | assumption].
      * intros [H | (o & Hin & Ho)]; [left; assumption |].
        apply elem_of_cons in Hin as [-> | Hin].
        -- unfold mentions in Ho. congruence.
        -- right. exists o. split; assumption.
Qed.

(** X4: [validate_content] never rejects: its verdict is always valid and
    never of severity [error]; the severity is [warning] exactly when the
    content mentions a flagged operation, letter case apart, or is longer
    than 1 MB. *)
Theorem content_warns_never_blocks (content : string) :
  let verdict := validate_content content in
  cv_valid verdict = true /\
  cv_severity verdict <> error /\
  (cv_severity verdict = warning <->
   (exists op, op ∈ dangerous_operations /\ mentions content op = true) \/
   (1024 * 1024 < Z.of_nat (String.length content))%Z).
Proof.
  unfold validate_content, scan_dangerous_operations.
  pose proof (scan_operations_from content dangerous_operations ([], info))
    as [Hne Hiff].
  cbn zeta in Hne, Hiff.
  destruct (fold_left _ dangerous_operations ([], info)) as [issues sev].
  cbn [snd] in Hne, Hiff.
  destruct (Z.ltb_spec (1024 * 1024) (Z.of_nat (String.length content)))
    as [Hbig|Hsmall]; cbn.
  - split; [reflexivity |]. split.
    + destruct sev; cbn; try discriminate. exfalso. apply Hne; [discriminate | reflexivity].
    + split; [intros _; right; assumption | intros _].
      destruct sev; cbn; try reflexivity. exfalso. apply Hne; [discriminate | reflexivity].
  - split; [reflexivity |]. split; [apply Hne; discriminate |].
    rewrite Hiff. split.
    + intros [H | H]; [discriminate | left; assumption].
    + intros [H | H]; [right; assumption | lia].
Qed.


Lemma security_warnings_kept (root wd : string) (now : Z) (tool : string)
    (args : gmap string string) (st : SecurityState) :
  length (warnings_of st) <= 50 ->
  length (warnings_of (validate_file_operations root wd now tool args st).1)
  <= 50.
Proof.
  intros Hlen. unfold validate_file_operations, warnings_of in *.
  repeat (match goal with
          | |- context [match ?x with _ => _ end] => destruct x
          | |- context [if ?b then _ else _] => destruct b
          end; cbn [fst security_warnings default from_option id]);
    try apply last_n_bound; assumption.
Qed.

(** X5: over any sequence of calls of the file-operation callback, the
    security log keeps at most 100 entries and the warning list at most 50,
    whatever the verdicts. *)
Theorem security_session_bounded (root wd : string) (calls : list FileCall)
    (st : SecurityState) :
  length (log_of st) <= 100 ->
  length (warnings_of st) <= 50 ->
  length (log_of (run_file_operations root wd calls st)) <= 100 /\
  length (warnings_of (run_file_operations root wd calls st)) <= 50.
Proof.
  revert st. induction calls as [|c calls IH]; intros st Hlog Hwarn.
  - split; assumption.
  - unfold run_file_operations in *. cbn [fold_left].
    apply IH; [apply security_log_bounded | apply security_warnings_kept].
    assumption.
Qed.

Lemma security_session_bounded_witness :
  length (log_of (run_file_operations "/srv/app" "/"
            (repeat {| call_now := 0; call_tool := "write_file";
                       call_args := {[ "file_path" := "a.py";
                                       "content" := "import subprocess" ]} |}
                    120) fresh_state)) <= 100 /\
  length (warnings_of (run_file_operations "/srv/app" "/"
            (repeat {| call_now := 0; call_tool := "write_file";
                       call_args := {[ "file_path" := "a.py";
                                       "content" := "import subprocess" ]} |}
                    120) fresh_state)) <= 50.
Proof.
  apply security_session_bounded; cbn; lia.
Defined.

(** X6: an allowed operation raises the [allowed] counter by one, leaves
    [blocked] as it was, and raises [warnings] by one exactly when a content
    was given and judged a warning. *)
Theorem allowed_operation_counted (root wd : string) (now : Z) (tool : string)
    (args : gmap string string) (st : SecurityState) :
  (validate_file_operations root wd now tool args st).2 = Allow ->
  let before := default default_counters (security_counters st) in
  let warned :=
    match validate_content <$> truthy_arg args "content" with
    | Some cv => severity_eqb (cv_severity cv) warning
    | None => false
    end in
  exists after,
    security_counters (validate_file_operations root wd now tool args st).1
      = Some after /\
    allowed after = (allowed before + 1)%Z /\
    blocked after = blocked before /\
    warnings after = (warnings before + if warned then 1 else 0)%Z.
Proof.
  unfold validate_file_operations.
  destruct (validate_file_path _ <$> truthy_arg args "file_path") as [pv|];
    cbn.
  - destruct (pv_valid pv); cbn; [| discriminate].
    destruct (validate_content <$> truthy_arg args "content") as [cv|]; cbn.
    + intros _. eexists. split; [reflexivity |].
      destruct (cv_severity cv); cbn; repeat split; lia.
    + intros _. eexists. split; [reflexivity |]. cbn. repeat split; lia.
  - destruct (validate_content <$> truthy_arg args "content") as [cv|]; cbn;
      [| discriminate].
    intros _. eexists. split; [reflexivity |].
    destruct (cv_severity cv); cbn; repeat split; lia.
Qed.

Lemma allowed_operation_counted_witness :
  exists after,
    security_counters
      (validate_file_operations "/srv/app" "/" 0 "write_file" flagged_write
         counted_state).1 = Some after /\
    allowed after
    = (allowed (default default_counters (security_counters counted_state))
       + 1)%Z /\
    blocked after
    = blocked (default default_counters (security_counters counted_state)) /\
    warnings after
    = (warnings (default default_counters (security_counters counted_state))
       + if match validate_content <$> truthy_arg flagged_write "content" with
            | Some cv => severity_eqb (cv_severity cv) warning
            | None => false
            end
         then 1 else 0)%Z.
Proof.
  apply (allowed_operation_counted "/srv/app" "/" 0 "write_file"
           flagged_write counted_state).
  vm_compute. reflexivity.
Defined.


Lemma slice_to_length (n : nat) (v : string) :
  String.length (slice_to n v) <= n.
Proof.
  unfold slice_to. revert v. induction n as [|n IH]; intros v; cbn.
  - destruct v; cbn; lia.
  - destruct v as [|c v]; cbn; [lia |]. specialize (IH v). lia.
Qed.

(** X7: whatever the verdict, the last entry of the security log names the
    calling tool and holds every argument cut to its first 100 characters. *)
Theorem logged_arguments_truncated (root wd : string) (now : Z)
    (tool : string) (args : gmap string string) (st : SecurityState) :
  exists e,
    last (log_of (validate_file_operations root wd now tool args st).1)
      = Some e /\
    oe_tool e = tool /\
    oe_args e = slice_to 100 <$> args /\
    map_Forall (fun _ v => String.length v <= 100) (oe_args e).
Proof.
  assert (Hcut : map_Forall (fun (_ : string) v => String.length v <= 100)
                   (slice_to 100 <$> args)).
  { intros k v Hkv. apply lookup_fmap_Some in Hkv as (v0 & <- & _).
    apply slice_to_length. }
  unfold validate_file_operations, log_of.
  repeat (match goal with
          | |- context [match ?x with _ => _ end] => destruct x
          | |- context [if ?b then _ else _] => destruct b
          end; cbn [fst security_log default from_option id]);
    eexists;
    (split;
     [first [ apply last_n_snoc_last; lia
            | change (?l ++ [?a; ?b]) with (l ++ [a] ++ [b]);
              rewrite app_assoc; apply last_n_snoc_last; lia ]
     | cbn; auto ]).
Qed.

(** X8: in a new session, the first 21 harmless queries are all allowed, at
    whatever instants they are sent: the rate limit cannot act before the
    log holds 21 entries. *)
Theorem first_21_queries_allowed (tool : string)
    (calls : list (Z * gmap string string)) :
  Forall benign calls ->
  length calls <= 21 ->
  (run_searches tool calls None).2 = repeat SearchAllow (length calls).
Proof.
  intros Hbenign Hlen. apply benign_run_allowed; [assumption |].
  cbn. lia.
Qed.

Lemma first_21_queries_allowed_witness :
  (run_searches "search_code" (paced 0 21) None).2
  = repeat SearchAllow (length (paced 0 21)).
Proof.
  apply first_21_queries_allowed.
  - apply paced_benign.
  - rewrite paced_length. lia.
Defined.

(** X9: over any sequence of searches, allowed, blocked or rate limited, the
    search security log keeps at most 50 entries. *)
Theorem search_session_bounded (tool : string)
    (calls : list (Z * gmap string string))
    (log : option (list SearchEntry)) :
  length (entries log) <= 50 ->
  length (entries (run_searches tool calls log).1) <= 50.
Proof.
  revert log. induction calls as [|[now args] calls IH]; intros log Hlen.
  - exact Hlen.
  - cbn [run_searches].
    pose proof (search_log_bounded now tool args log) as Hstep.
    destruct (validate_search_operations now tool args log) as [log1 v].
    specialize (IH log1 Hstep).
    destruct (run_searches tool calls log1) as [log2 vs]. exact IH.
Qed.

Lemma search_session_bounded_witness :
  length (entries (run_searches "search_code" (paced 1 80) None).1) <= 50.
Proof. apply search_session_bounded. cbn. lia. Defined.

Lemma aged_is_recent (now : Z) (e : SearchEntry) :
  aged now e -> is_recent now e = true.
Proof.
  intros (days & rest & Hdays & Hrest & Heq).
  unfold is_recent, timedelta_seconds. rewrite Heq. unfold day_us.
  apply Z.ltb_lt.
  replace (days * (86400 * 1000000) + rest)%Z
    with (rest + (days * 86400) * 1000000)%Z by lia.
  rewrite Z.div_add by lia.
  replace (rest / 1000000 + days * 86400)%Z
    with (rest / 1000000 + days * 86400)%Z by reflexivity.
  rewrite Z.add_mod by lia. rewrite Z.mod_mul by lia. rewrite Z.add_0_r.
  rewrite Z.mod_mod by lia.
  assert (0 <= rest / 1000000 < 60)%Z.
  { split; [apply Z.div_pos; lia | apply Z.div_lt_upper_bound; lia]. }
  rewrite Z.mod_small by lia. lia.
Qed.

(** X10: the window of the rate limit is read from [timedelta.seconds],
    which drops whole days: entries whose age is a whole number of days plus
    less than a minute count as recent, so more than 20 of them rate limit a
    harmless query sent days later. *)
Theorem old_entries_count_as_recent (now : Z) (tool : string)
    (args : gmap string string) (log : list SearchEntry) :
  benign (now, args) ->
  Forall (aged now) log ->
  20 < length log ->
  (validate_search_operations now tool args (Some log)).2
  = SearchRateLimited "Too many search requests" tool.
Proof.
  intros Hq Hold Hlen. rewrite benign_verdict by assumption.
  assert (Hall : List.filter (is_recent now) log = log).
  { clear Hlen. induction Hold as [|e l He _ IH]; [reflexivity |].
    cbn. rewrite (aged_is_recent now e He), IH. reflexivity. }
  cbn [entries default from_option id]. rewrite Hall.
  destruct (Nat.ltb_spec 20 (length log)); [reflexivity | lia].
Qed.

Lemma old_entries_count_as_recent_witness :
  (validate_search_operations a_day_later "search_code" benign_query
     (Some (replicate 21 stale_entry))).2
  = SearchRateLimited "Too many search requests" "search_code".
Proof.
  apply old_entries_count_as_recent.
  - vm_compute. reflexivity.
  - apply Forall_replicate. exists 1%Z, 5000000%Z. vm_compute.
    repeat split; discriminate.
  - rewrite length_replicate. lia.
Defined.

(** X11: entries between one minute and one day old are outside the window:
    however many there are, a harmless query is allowed. *)
Theorem settled_entries_not_counted (now : Z) (tool : string)
    (args : gmap string string) (log : list SearchEntry) :
  benign (now, args) ->
  Forall (fun e => (60 * 1000000 <= now - se_timestamp e < day_us)%Z) log ->
  (validate_search_operations now tool args (Some log)).2 = SearchAllow.
Proof.
  intros Hq Hold. rewrite benign_verdict by assumption.
  assert (Hnone : List.filter (is_recent now) log = []).
  { induction Hold as [|e l He _ IH]; [reflexivity |].
    cbn. rewrite IH.
    assert (Hrecent : is_recent now e = false); [| rewrite Hrecent; reflexivity].
    unfold is_recent, timedelta_seconds. apply Z.ltb_ge.
    unfold day_us in He.
    assert (60 <= (now - se_timestamp e) / 1000000 < 86400)%Z.
    { split; [apply Z.div_le_lower_bound; lia
             | apply Z.div_lt_upper_bound; lia]. }
    rewrite Z.mod_small by lia. lia. }
  cbn [entries default from_option id]. rewrite Hnone. reflexivity.
Qed.

Lemma settled_entries_not_counted_witness :
  (validate_search_operations (120 * 1000000) "search_code" benign_query
     (Some (replicate 40 stale_entry))).2 = SearchAllow.
Proof.
  apply settled_entries_not_counted.
  - vm_compute. reflexivity.
  - apply Forall_replicate. vm_compute. split; [discriminate | reflexivity].
Defined.

Lemma validate_file_path_blocks_traversal_witness :
  pv_valid (validate_file_path app_validator "src/../main.py") = false.
Proof.
  apply validate_file_path_blocks_traversal. vm_compute. reflexivity.
Defined.

End GateSessions.

(** ** Reading and writing files *)

Section FileToolFacts.
Import PyStr Lsp FileSystemTool FileSystemOps.

Lemma mkdir_from_keeps (todo done : list string) (fs : FS)
    (k : list string) (v : node) :
  fs !! k = Some v -> (mkdir_from done todo fs).1 !! k = Some v.
Proof.
  revert done fs. induction todo as [|c rest IH]; intros done fs Hk;
    [exact Hk |].
  cbn. destruct (fs !! (done ++ [c])) as [[content|]|] eqn:Hq.
  - exact Hk.
  - apply IH. exact Hk.
  - apply IH. rewrite lookup_insert_ne; [exact Hk |]. congruence.
Qed.

Lemma write_text_success (p : list string) (content : string)
    (fs fs' : FS) :
  write_text p content fs = (fs', Returned tt) ->
  resolve p <> [] /\ fs' = <[ resolve p := File content ]> fs.
Proof.
  unfold write_text. destruct (is_dir fs p) eqn:Hdir; [discriminate |].
  destruct (negb _); [discriminate |]. intros [= <-]. split; [| reflexivity].
  intros Hroot. unfold is_dir, lookup_node in Hdir. rewrite Hroot in Hdir.
  discriminate.
Qed.

Lemma write_text_failure (p : list string) (content e : string)
    (fs fs' : FS) :
  write_text p content fs = (fs', Raised e) -> fs' = fs.
Proof.
  unfold write_text. destruct (is_dir fs p); [intros [= <- _]; reflexivity |].
  destruct (negb _); [intros [= <- _]; reflexivity | discriminate].
Qed.

(** Text without a carriage return is read as it is stored. *)
Lemma universal_newlines_plain (s : string) :
  contains s (String carriage_return "") = false ->
  universal_newlines s = s.
Proof.
  induction s as [|c r IH]; [reflexivity |].
  cbn [contains startswith universal_newlines].
  rewrite startswith_nil, andb_true_r. intros H.
  apply orb_false_iff in H as [Hc Hr].
  rewrite Ascii.eqb_sym, Hc. rewrite (IH Hr). reflexivity.
Qed.

(** X12: what [write_file] wrote, [read_file] reads back through the same
    path: after a successful write the read succeeds with the content as
    text mode reads it, which is the content itself when it holds no
    carriage return. *)
Theorem write_then_read (root wd : string) (now now' : Z)
    (file_path content message written : string)
    (st other : FileToolState) (fs : FS) :
  (write_file root wd now file_path content st fs).1.1
    = WriteOk message written ->
  (read_file root wd now' file_path other
     (write_file root wd now file_path content st fs).2).1
    = ReadOk (universal_newlines content) file_path /\
  (contains content (String carriage_return "") = false ->
   universal_newlines content = content).
Proof.
  intros Hwrite. split; [| apply universal_newlines_plain].
  revert Hwrite. unfold write_file, read_file.
  destruct (negb (_is_path_safe root wd file_path)); [discriminate |].
  destruct (mkdir_parents _ fs) as [fs1 [[]|e1]]; [| discriminate].
  destruct (write_text _ content fs1) as [fs2 [[]|e2]] eqn:Hwrite;
    [| discriminate].
  intros _. cbn [fst snd].
  apply write_text_success in Hwrite as [Hkey ->].
  unfold open_read, lookup_node.
  rewrite bool_decide_eq_false_2 by assumption.
  rewrite lookup_insert_eq. reflexivity.
Qed.

Lemma write_then_read_witness :
  (read_file "/srv/app" "/" 1 "notes/todo.md" new_session
     (write_file "/srv/app" "/" 0 "notes/todo.md" "ship it" new_session
        project_fs).2).1
    = ReadOk (universal_newlines "ship it") "notes/todo.md" /\
  (contains "ship it" (String carriage_return "") = false ->
   universal_newlines "ship it" = "ship it").
Proof.
  apply (write_then_read "/srv/app" "/" 0 1 "notes/todo.md" "ship it"
           "Successfully wrote 7 characters to notes/todo.md."
           "notes/todo.md").
  vm_compute. reflexivity.
Defined.

(** X13: a path that fails [_is_path_safe] is refused by both tools before
    the file system is touched: the tree is unchanged, the answer is the
    outside-the-project error, no file is recorded as accessed or modified,
    and the operation is logged as failed. *)
Theorem unsafe_path_refused (root wd : string) (now : Z)
    (file_path content : string) (st : FileToolState) (fs : FS) :
  _is_path_safe root wd file_path = false ->
  let w := write_file root wd now file_path content st fs in
  let r := read_file root wd now file_path st fs in
  w.2 = fs /\
  w.1.1 = WriteError (outside_message file_path) /\
  r.1 = ReadError (outside_message file_path) /\
  modified_files w.1.2 = modified_files st /\
  accessed_files r.2 = accessed_files st /\
  fo_success <$> last (default [] (file_operations_log (audit w.1.2)))
    = Some false /\
  fo_success <$> last (default [] (file_operations_log (audit r.2)))
    = Some false.
Proof.
  intros Hunsafe w r. subst w r. unfold write_file, read_file.
  rewrite Hunsafe. cbn. rewrite !last_snoc. repeat split.
Qed.

Lemma unsafe_path_refused_witness :
  let w := write_file "/srv/app" "/" 0 "../../etc/passwd" "x" new_session
             project_fs in
  let r := read_file "/srv/app" "/" 0 "../../etc/passwd" new_session
             project_fs in
  w.2 = project_fs /\
  w.1.1 = WriteError (outside_message "../../etc/passwd") /\
  r.1 = ReadError (outside_message "../../etc/passwd") /\
  modified_files w.1.2 = modified_files new_session /\
  accessed_files r.2 = accessed_files new_session /\
  fo_success <$> last (default [] (file_operations_log (audit w.1.2)))
    = Some false /\
  fo_success <$> last (default [] (file_operations_log (audit r.2)))
    = Some false.
Proof.
  apply (unsafe_path_refused "/srv/app" "/" 0 "../../etc/passwd" "x"
           new_session project_fs).
  vm_compute. reflexivity.
Defined.

(** X14: [write_file] changes no other file: a file at any entry other than
    the one the path names has the same content after the call, whether the
    call succeeds or fails. *)
Theorem write_file_keeps_other_files (root wd : string) (now : Z)
    (file_path content : string) (st : FileToolState) (fs : FS)
    (k : list string) (other : string) :
  fs !! k = Some (File other) ->
  k <> target_of root file_path ->
  (write_file root wd now file_path content st fs).2 !! k
    = Some (File other).
Proof.
  intros Hk Hne. unfold write_file.
  destruct (negb (_is_path_safe root wd file_path)); [exact Hk |].
  pose proof (mkdir_from_keeps
                (resolve (PosixPath.parts
                            (dirname (PosixPath.join root file_path))))
                [] fs k _ Hk) as Hkeep.
  unfold mkdir_parents.
  destruct (mkdir_from [] _ fs) as [fs1 [[]|e1]]; cbn [fst] in Hkeep;
    [| exact Hkeep].
  destruct (write_text _ content fs1) as [fs2 [[]|e2]] eqn:Hwrite; cbn.
  - apply write_text_success in Hwrite as [_ ->].
    rewrite lookup_insert_ne; [exact Hkeep |].
    intros Heq. apply Hne. symmetry. exact Heq.
  - apply write_text_failure in Hwrite as ->. exact Hkeep.
Qed.

Lemma write_file_keeps_other_files_witness :
  (write_file "/srv/app" "/" 0 "main.py" "new" new_session project_fs).2
    !! ["srv"; "app"; "setup.py"] = Some (File "setup").
Proof.
  apply write_file_keeps_other_files.
  - reflexivity.
  - vm_compute. discriminate.
Defined.

End FileToolFacts.

(** ** The path test of the file tools on relative paths *)

Section InsidePaths.
Import PyStr Safety FileSystemOps.

Lemma startswith_refl (s : string) : startswith s s = true.
Proof.
  induction s as [|a s IH]; [reflexivity |]. cbn [startswith].
  rewrite Ascii.eqb_refl. exact IH.
Qed.

Lemma startswith_append_both (a x y : string) :
  startswith (a +:+ x) (a +:+ y) = startswith x y.
Proof.
  induction a as [|c a IH]; [reflexivity |].
  change (String c a +:+ x) with (String c (a +:+ x)).
  change (String c a +:+ y) with (String c (a +:+ y)).
  cbn [startswith]. rewrite Ascii.eqb_refl. exact IH.
Qed.

Lemma startswith_append (a b : string) : startswith (a +:+ b) a = true.
Proof.
  induction a as [|c a IH]; [apply startswith_nil |].
  change (String c a +:+ b) with (String c (a +:+ b)).
  cbn [startswith]. rewrite Ascii.eqb_refl. exact IH.
Qed.

Lemma startswith_join_app (rc zs : list string) :
  startswith (PyStr.join "/" (rc ++ zs)) (PyStr.join "/" rc) = true.
Proof.
  induction rc as [|c l IH]; [apply startswith_nil |].
  destruct l as [|d l].
  - destruct zs as [|z zs]; [apply startswith_refl |].
    change ([c] ++ z :: zs) with (c :: z :: zs).
    rewrite join_cons by discriminate. apply startswith_append.
  - change ((c :: d :: l) ++ zs) with (c :: (d :: l) ++ zs).
    rewrite (join_cons c ((d :: l) ++ zs)) by discriminate.
    rewrite (join_cons c (d :: l)) by discriminate.
    rewrite startswith_append_both. cbn [startswith].
    rewrite Ascii.eqb_refl. exact IH.
Qed.

Lemma startswith_root_app (rc zs : list string) :
  startswith (root_of (rc ++ zs)) (root_of rc) = true.
Proof.
  unfold root_of.
  change ("/" +:+ ?x) with (String "/" x). cbn [startswith].
  rewrite Ascii.eqb_refl. apply startswith_join_app.
Qed.

Lemma Forall_removelast {A} (P : A -> Prop) (l : list A) :
  Forall P l -> Forall P (removelast l).
Proof.
  induction 1 as [|x l Hx Hl IH]; [constructor |].
  destruct l as [|y l]; [constructor |].
  change (removelast (x :: y :: l)) with (x :: removelast (y :: l)).
  constructor; assumption.
Qed.

(** What the loop of [normpath] leaves below a root: names, never [..]. *)
Lemma fold_normpath_names (cs acc : list string) :
  Forall slash_free cs ->
  Forall (fun c => nonempty_slash_free c /\ c <> "..") acc ->
  Forall (fun c => nonempty_slash_free c /\ c <> "..")
    (fold_left (PosixPath.normpath_step 1) cs acc).
Proof.
  revert acc. induction cs as [|c cs IH]; intros acc Hcs Hacc; [exact Hacc |].
  inversion Hcs as [|? ? Hc Hrest]; subst. cbn [fold_left]. apply IH;
    [assumption |].
  unfold PosixPath.normpath_step.
  destruct (String.eqb_spec c ""); [exact Hacc |].
  destruct (String.eqb_spec c "."); [exact Hacc |]. cbn [orb].
  destruct (String.eqb_spec c "..") as [-> | Hdd]; cbn [negb orb Nat.eqb andb].
  - rewrite bool_decide_eq_false_2.
    + apply Forall_removelast. exact Hacc.
    + intros Hlast. apply last_Some_elem_of in Hlast.
      rewrite Forall_forall in Hacc. destruct (Hacc _ Hlast) as [_ H].
      apply H. reflexivity.
  - apply Forall_app. split; [exact Hacc |].
    apply Forall_cons_2; [| apply Forall_nil_2]. repeat split; assumption.
Qed.

(** X15: the path test of the file tools accepts every relative path that
    resolves to a place inside the project root, also one that goes through
    [..] on the way. *)
Theorem relative_path_inside_is_safe (rc : list string) (wd p : string) :
  Forall plain_component rc ->
  PosixPath.isabs p = false ->
  resolves_outside {| project_root := root_of rc; cwd := wd |} p = false ->
  _is_path_safe (root_of rc) wd p = true.
Proof.
  intros Hrc Hrel Hin. unfold _is_path_safe.
  unfold resolves_outside in Hin. cbn [project_root cwd] in Hin.
  rewrite (abspath_root_relative rc wd p Hrc Hrel) in Hin |- *.
  pose proof (plain_nonempty_slash_free rc Hrc) as Hrc'.
  assert (Hnames : Forall nonempty_slash_free
                     (fold_left (PosixPath.normpath_step 1) (split "/" p) rc)).
  { eapply Forall_impl;
      [apply fold_normpath_names; [apply split_components_slash_free |]
      | intros c [H _]; exact H].
    eapply Forall_impl; [exact Hrc |].
    intros c (H1 & _ & H3 & H4). repeat split; assumption. }
  rewrite (components_root_of rc Hrc'), (components_root_of _ Hnames) in Hin.
  apply negb_false_iff, bool_decide_eq_true in Hin as [zs ->].
  apply startswith_root_app.
Qed.

Lemma relative_path_inside_is_safe_witness :
  _is_path_safe (root_of ["srv"; "app"]) "/" "src/../lib/./util.py" = true.
Proof.
  apply relative_path_inside_is_safe.
  - repeat (apply Forall_cons_2; [repeat split; discriminate |]).
    apply Forall_nil_2.
  - reflexivity.
  - vm_compute. reflexivity.
Defined.

End InsidePaths.

(** ** Building the index and judging its freshness *)

Section IndexingFacts.
Import PyStr Indexing IndexingOps.

Lemma index_step_count (now : Z) (indexer : outcome IndexResult)
    (st : IndexToolState) :
  full_index_count (index_codebase_tool now indexer st).2
  = (full_index_count st + if succeeded (now, indexer) then 1 else 0)%Z.
Proof.
  unfold full_index_count, succeeded, index_codebase_tool.
  destruct indexer as [result|e]; cbn.
  - rewrite lookup_insert_eq. reflexivity.
  - lia.
Qed.

Lemma last_n_idem_app {A} (n : nat) (l l' : list A) :
  last_n n (last_n n l ++ l') = last_n n (l ++ l').
Proof.
  unfold last_n. rewrite !length_app, length_drop.
  destruct (Nat.le_gt_cases (length l) n) as [Hle|Hgt].
  - replace (length l - n) with 0 by lia. cbn. rewrite Nat.sub_0_r.
    reflexivity.
  - replace (length l - (length l - n) + length l' - n) with (length l')
      by lia.
    replace (length l + length l' - n)
      with ((length l - n) + length l') by lia.
    rewrite <- drop_drop. rewrite (drop_app_le l) by lia. reflexivity.
Qed.

Lemma index_step_entry (now : Z) (indexer : outcome IndexResult)
    (st : IndexToolState) :
  log_entries (index_codebase_tool now indexer st).2
  = last_n 10 (log_entries st ++ [run_entry (now, indexer)]).
Proof. destruct indexer; reflexivity. Qed.

Lemma run_indexing_log (runs : list (Z * outcome IndexResult))
    (st : IndexToolState) :
  runs <> [] ->
  log_entries (run_indexing runs st)
  = last_n 10 (log_entries st ++ (run_entry <$> runs)).
Proof.
  revert st. induction runs as [|[now indexer] runs IH]; intros st Hne;
    [congruence |].
  unfold run_indexing in *. cbn [fold_left fst snd].
  destruct runs as [|run runs].
  - cbn [fold_left]. apply index_step_entry.
  - rewrite IH by discriminate. rewrite index_step_entry.
    rewrite last_n_idem_app, <- app_assoc. reflexivity.
Qed.

(** X16: over a session of indexing runs, the [full_index] counter grows
    by the number of runs that succeeded, and the indexing log is the
    last ten entries of the earlier log followed by one entry per run, in
    order, failed runs included. *)
Theorem indexing_session_accounting
    (runs : list (Z * outcome IndexResult)) (st : IndexToolState) :
  length (log_entries st) <= 10 ->
  full_index_count (run_indexing runs st)
  = (full_index_count st + Z.of_nat (length (List.filter succeeded runs)))%Z /\
  log_entries (run_indexing runs st)
  = last_n 10 (log_entries st ++ (run_entry <$> runs)) /\
  length (log_entries (run_indexing runs st))
  = Nat.min 10 (length (log_entries st) + length runs).
Proof.
  intros Hlen.
  assert (Hlog : log_entries (run_indexing runs st)
                 = last_n 10 (log_entries st ++ (run_entry <$> runs))).
  { destruct runs as [|run runs]; [| apply run_indexing_log; discriminate].
    cbn. rewrite app_nil_r. symmetry. apply last_n_all. exact Hlen. }
  split; [| split; [exact Hlog |]].
  - clear Hlen Hlog. revert st.
    induction runs as [|[now indexer] runs IH]; intros st.
    + unfold run_indexing. cbn [fold_left List.filter length]. lia.
    + unfold run_indexing in *. cbn [fold_left fst snd]. rewrite IH.
      rewrite index_step_count. cbn [List.filter].
      destruct (succeeded (now, indexer)); cbn [length]; lia.
  - rewrite Hlog, last_n_length, length_app, length_fmap. reflexivity.
Qed.

Lemma indexing_session_accounting_witness :
  full_index_count
    (run_indexing
       (repeat (0%Z, Returned one_file) 7 ++
        repeat (1%Z, Raised "disk full") 5) no_index)
  = (full_index_count no_index
     + Z.of_nat (length (List.filter succeeded
                           (repeat (0%Z, Returned one_file) 7 ++
                            repeat (1%Z, Raised "disk full") 5))))%Z /\
  log_entries
    (run_indexing
       (repeat (0%Z, Returned one_file) 7 ++
        repeat (1%Z, Raised "disk full") 5) no_index)
  = last_n 10
      (log_entries no_index ++
       (run_entry <$> repeat (0%Z, Returned one_file) 7 ++
                      repeat (1%Z, Raised "disk full") 5)) /\
  length (log_entries
            (run_indexing
               (repeat (0%Z, Returned one_file) 7 ++
                repeat (1%Z, Raised "disk full") 5) no_index))
  = Nat.min 10 (length (log_entries no_index)
                + length (repeat (0%Z, Returned one_file) 7 ++
                          repeat (1%Z, Raised "disk full") 5)).
Proof. apply indexing_session_accounting. cbn. lia. Defined.

Lemma last_last_n {A} (n : nat) (l : list A) :
  0 < n -> last (last_n n l) = last l.
Proof.
  intros Hn. destruct l as [|x l] using rev_ind; [reflexivity |].
  rewrite last_n_snoc_last by assumption. rewrite last_snoc. reflexivity.
Qed.

(** X17: the status report agrees with the run that built the index: after a
    successful [index_codebase_tool] the report says the index exists, dated
    at the run, with the file count equal to the number of indexed files,
    the element count of the run, the error flag set exactly when the run
    reported errors, and the run as the last recent operation. *)
Theorem status_after_indexing (now : Z) (result : IndexResult)
    (st : IndexToolState) :
  let report :=
    get_index_status_tool (index_codebase_tool now (Returned result) st).2 in
  st_index_exists report = true /\
  st_last_indexed report = Some (IsoInstant now) /\
  st_files_count report = Z.of_nat (st_total_indexed_files report) /\
  st_total_indexed_files report = length (result_indexed_files result) /\
  st_indexed_files_sample report = take 10 (result_indexed_files result) /\
  st_elements_count report = result_total_elements result /\
  st_has_errors report = negb (bool_decide (errors_of result = [])) /\
  ie_status <$> last (st_recent_operations report) = Some "completed".
Proof.
  cbn -[last_n]. repeat split.
  - destruct (errors_of result); reflexivity.
  - rewrite last_last_n by lia. rewrite last_n_snoc_last by lia. reflexivity.
Qed.

(** The files the freshness check counts. *)
Lemma elem_of_current_files_set (root_parts : list string) (tree : Tree)
    (x : string) :
  x ∈ current_files_set root_parts tree <->
  exists rel, rel ∈ tree /\ qualifies root_parts rel /\ x = PyStr.join "/" rel.
Proof.
  unfold current_files_set, qualifies, rglob.
  rewrite elem_of_list_to_set, list_elem_of_fmap.
  split.
  - intros (rel & -> & Hin). exists rel.
    rewrite list_elem_of_In in Hin. apply filter_In in Hin as [Hin Hkeep].
    apply in_flat_map in Hin as (ext & Hext & Hin).
    apply filter_In in Hin as [Hin Hends].
    rewrite <- list_elem_of_In in Hin. rewrite <- list_elem_of_In in Hext.
    split; [assumption |]. split; [| reflexivity]. split.
    + exists ext. split; assumption.
    + intros d Hd Hpart. apply negb_true_iff in Hkeep.
      assert (Hex : existsb (fun ignore_dir : string =>
                     bool_decide (ignore_dir ∈ root_parts ++ rel))
                     ignore_dirs = true).
      { apply existsb_exists. exists d. rewrite <- list_elem_of_In.
        split; [assumption | apply bool_decide_eq_true; assumption]. }
      congruence.
  - intros (rel & Hin & [(ext & Hext & Hends) Hign] & ->). exists rel.
    split; [reflexivity |]. rewrite list_elem_of_In. apply filter_In. split.
    + apply in_flat_map. exists ext. rewrite <- list_elem_of_In.
      split; [assumption |]. apply filter_In.
      rewrite <- list_elem_of_In. split; assumption.
    + apply negb_true_iff.
      destruct (existsb _ ignore_dirs) eqn:Hex; [exfalso | reflexivity].
      apply existsb_exists in Hex as (d & Hd & Hpart).
      rewrite <- list_elem_of_In in Hd. apply bool_decide_eq_true in Hpart.
      exact (Hign d Hd Hpart).
Qed.

(** X18: after a successful indexing run, the freshness check answers fresh
    exactly when the run is at most 24 hours old and the indexed files are
    exactly the qualifying files of the tree. *)
Theorem freshly_indexed_iff (indexed_at now : Z) (root_parts : list string)
    (tree : Tree) (result : IndexResult) (st : IndexToolState) :
  fresh (check_index_freshness_tool now root_parts tree
           (snapshot (index_codebase_tool indexed_at (Returned result) st).2))
  = true
  <->
  (now - indexed_at <= day)%Z /\
  forall x, x ∈ result_indexed_files result <->
            exists rel, rel ∈ tree /\ qualifies root_parts rel /\
                        x = PyStr.join "/" rel.
Proof.
  rewrite fresh_iff.
  unfold indexed_set, index_codebase_tool, state_after_indexing.
  cbn [snapshot index_status last_indexed indexed_files snd default
       from_option id].
  split.
  - intros (status & t & [= <-] & [= <-] & Hage & Heq). split; [exact Hage |].
    intros x. rewrite <- elem_of_current_files_set, Heq.
    rewrite elem_of_list_to_set. reflexivity.
  - intros [Hage Hsame]. eexists. exists indexed_at.
    split; [reflexivity |]. split; [reflexivity |]. split; [exact Hage |].
    apply set_eq. intros x. rewrite elem_of_current_files_set, <- Hsame.
    rewrite elem_of_list_to_set. reflexivity.
Qed.




(** X20: the ignore test reads the absolute parts of each file, the project
    root's included: when a directory on the way to the project root bears
    an ignored name, no file of the project counts, and an index that
    recorded any file is never fresh. *)
Theorem ignored_root_hides_project (now : Z) (root_parts : list string)
    (tree : Tree) (st : IndexState) (d : string) :
  d ∈ ignore_dirs ->
  d ∈ root_parts ->
  current_files_set root_parts tree = ∅ /\
  (indexed_set st <> ∅ ->
   fresh (check_index_freshness_tool now root_parts tree st) = false).
Proof.
  intros Hd Hroot.
  assert (Hempty : current_files_set root_parts tree = ∅).
  { apply set_eq. intros x. rewrite elem_of_current_files_set. split.
    - intros (rel & _ & [_ Hign] & _). exfalso.
      apply (Hign d Hd). apply elem_of_app. left. exact Hroot.
    - intros Hx. exfalso. exact (not_elem_of_empty (C := gset string) x Hx). }
  split; [exact Hempty |]. intros Hne.
  destruct (fresh _) eqn:Hf; [exfalso | reflexivity].
  apply fresh_iff in Hf as (s & t & _ & _ & _ & Heq).
  apply Hne. rewrite <- Heq. exact Hempty.
Qed.

Lemma ignored_root_hides_project_witness :
  current_files_set ["/"; "home"; "dev"; "venv"; "app"] sample_tree = ∅ /\
  (indexed_set (state_after_indexing 0 ["src/auth.py"] 4 []) <> ∅ ->
   fresh (check_index_freshness_tool 60 ["/"; "home"; "dev"; "venv"; "app"]
            sample_tree (state_after_indexing 0 ["src/auth.py"] 4 []))
   = false).
Proof.
  apply (ignored_root_hides_project 60 ["/"; "home"; "dev"; "venv"; "app"]
           sample_tree (state_after_indexing 0 ["src/auth.py"] 4 []) "venv").
  - do 4 apply list_elem_of_further. apply list_elem_of_here.
  - do 3 apply list_elem_of_further. apply list_elem_of_here.
Defined.

End IndexingFacts.

(** ** The structure of a file *)

Section StructureFacts.
Import PyStr VectorSearch FileStructure.

Lemma insert_by_line_perm (x : Element) (l : list Element) :
  insert_by_line x l ≡ₚ x :: l.
Proof.
  induction l as [|y r IH]; cbn; [reflexivity |].
  destruct (el_start_line x <=? el_start_line y)%Z; [reflexivity |].
  rewrite IH. apply Permutation_swap.
Qed.

Lemma sort_by_line_perm (l : list Element) : sort_by_line l ≡ₚ l.
Proof.
  induction l as [|x l IH]; cbn; [reflexivity |].
  rewrite insert_by_line_perm, IH. reflexivity.
Qed.

Lemma insert_by_line_sorted (x : Element) (l : list Element) :
  StronglySorted by_line l -> StronglySorted by_line (insert_by_line x l).
Proof.
  induction 1 as [|y r Hr IH Hy]; cbn.
  - constructor; constructor.
  - destruct (Z.leb_spec (el_start_line x) (el_start_line y)) as [Hle|Hgt].
    + constructor; [constructor; assumption |].
      constructor; [exact Hle |].
      eapply Forall_impl; [exact Hy |]. unfold by_line. intros z Hz. lia.
    + constructor; [exact IH |].
      rewrite insert_by_line_perm. constructor; [unfold by_line; lia |].
      exact Hy.
Qed.

Lemma sort_by_line_sorted (l : list Element) :
  StronglySorted by_line (sort_by_line l).
Proof.
  induction l as [|x l IH]; cbn; [constructor |].
  apply insert_by_line_sorted. exact IH.
Qed.

Lemma insert_by_line_stable (n : Z) (x : Element) (l : list Element) :
  filter (fun e => el_start_line e = n) (insert_by_line x l)
  = filter (fun e => el_start_line e = n) (x :: l).
Proof.
  induction l as [|y r IH]; cbn [insert_by_line]; [reflexivity |].
  destruct (Z.leb_spec (el_start_line x) (el_start_line y)) as [Hle|Hgt];
    [reflexivity |].
  rewrite (filter_cons _ y (insert_by_line x r)), IH.
  rewrite (filter_cons _ x (y :: r)), (filter_cons _ x r),
    (filter_cons _ y r).
  destruct (decide (el_start_line x = n)) as [Hx|Hx];
    destruct (decide (el_start_line y = n)) as [Hy|Hy];
    try reflexivity.
  lia.
Qed.

Lemma sort_by_line_stable (n : Z) (l : list Element) :
  filter (fun e => el_start_line e = n) (sort_by_line l)
  = filter (fun e => el_start_line e = n) l.
Proof.
  induction l as [|x l IH]; [reflexivity |].
  cbn [sort_by_line foldr]. rewrite insert_by_line_stable.
  rewrite !(filter_cons _ x). fold (sort_by_line l). rewrite IH. reflexivity.
Qed.

(** X21: the elements [get_file_structure] returns are the stored elements
    of the file in ascending order of start line, elements of the same line
    in their stored order; the context stored in the session holds the same
    list. *)
Theorem file_structure_in_line_order {Dist Embedding : Type}
    (collection_get :
       @Collection Dist Embedding -> string -> outcome (option (list Meta)))
    (self : @VectorSearchTool Dist Embedding) (now : Z) (file_path : string)
    (ctx : option ContextState) (collection : @Collection Dist Embedding)
    (found : list Meta) :
  code_collection self = Some collection ->
  collection_get collection file_path = Returned (Some found) ->
  let r := get_file_structure collection_get self now file_path ctx in
  sr_status r.1 = "success" /\
  StronglySorted by_line (sr_elements r.1) /\
  sr_elements r.1 ≡ₚ element_of <$> found /\
  (forall n : Z,
     filter (fun e => el_start_line e = n) (sr_elements r.1)
     = filter (fun e => el_start_line e = n) (element_of <$> found)) /\
  (found <> [] ->
   fc_elements <$> ((r.2 ≫= file_contexts) ≫= (.!! file_path))
   = (fun _ => sr_elements r.1) <$> ctx).
Proof.
  intros Hcode Hget r. subst r. unfold get_file_structure.
  rewrite Hcode, Hget. destruct found as [|m found].
  - cbn. split; [reflexivity |]. split; [apply SSorted_nil |].
    split; [reflexivity |]. split; [reflexivity | congruence].
  - set (metas := m :: found). cbn [fst snd sr_status sr_elements].
    split; [reflexivity |].
    split; [apply sort_by_line_sorted |].
    split; [apply sort_by_line_perm |].
    split; [intros n; apply sort_by_line_stable |].
    intros _. destruct ctx as [st|]; [| reflexivity].
    cbn. rewrite lookup_insert_eq. reflexivity.
Qed.

Lemma file_structure_in_line_order_witness :
  let r :=
    get_file_structure get_auth auth_tool 0 "src/auth.py" (Some no_contexts) in
  sr_status r.1 = "success" /\
  StronglySorted by_line (sr_elements r.1) /\
  sr_elements r.1 ≡ₚ
    element_of <$> [meta_at "logout" 40; meta_at "login" 12;
                    meta_at "helper" 40] /\
  (forall n : Z,
     filter (fun e => el_start_line e = n) (sr_elements r.1)
     = filter (fun e => el_start_line e = n)
         (element_of <$> [meta_at "logout" 40; meta_at "login" 12;
                          meta_at "helper" 40])) /\
  ([meta_at "logout" 40; meta_at "login" 12; meta_at "helper" 40] <> [] ->
   fc_elements <$> ((r.2 ≫= file_contexts) ≫= (.!! "src/auth.py"))
   = (fun _ => sr_elements r.1) <$> Some no_contexts).
Proof.
  apply (file_structure_in_line_order get_auth auth_tool 0 "src/auth.py"
           (Some no_contexts) stored); reflexivity.
Defined.

End StructureFacts.

(** ** What a search leaves in the session *)

Section SearchSessions.
Import PyStr VectorSearch FileStructure.
Context {Dist Embedding : Type}.
Variable one_minus : Dist -> Dist.
Variable default_distance : Dist.
Variable encode : string -> outcome Embedding.

Lemma log_search_entry (now : Z) (q search_type : string) (count : nat)
    (successful : bool) (st : @SearchState Dist) :
  let st' := _log_search now q search_type count successful st in
  last (history st')
  = Some {| sl_timestamp := now; sl_query := q;
            sl_search_type := search_type; sl_results_count := count;
            sl_successful := successful |} /\
  length (history st') <= 50 /\
  searches st' search_type = (searches st search_type + 1)%Z /\
  known_files st' = known_files st /\
  history st'
  = last_n 50
      (history st ++
       [ {| sl_timestamp := now; sl_query := q;
            sl_search_type := search_type; sl_results_count := count;
            sl_successful := successful |} ]).
Proof.
  unfold _log_search, history, searches, known_files. cbn.
  rewrite last_n_snoc_last by lia. rewrite lookup_insert_eq.
  repeat split. apply last_n_bound.
Qed.

(** X22: every call of [semantic_search] made with a session state
    appends exactly one entry to the search history: the history after
    the call is the last 50 entries of the history before it followed by
    one entry, which records the query, the number of results returned
    and whether the answer was a success; the [semantic_code] counter
    grows by one. *)
Theorem search_logged_as_answered (self : @VectorSearchTool Dist Embedding)
    (now : Z) (q : string) (max_results : Z)
    (file_type_filter : option string) (st : @SearchState Dist) :
  let r :=
    semantic_search one_minus default_distance encode self now q max_results
      file_type_filter (Some st) in
  let entry :=
    {| sl_timestamp := now; sl_query := q;
       sl_search_type := "semantic_code";
       sl_results_count := length (results r.1);
       sl_successful := String.eqb (status r.1) "success" |} in
  exists st',
    r.2 = Some st' /\
    history st' = last_n 50 (history st ++ [entry]) /\
    last (history st') = Some entry /\
    length (history st') <= 50 /\
    searches st' "semantic_code" = (searches st "semantic_code" + 1)%Z.
Proof.
  unfold semantic_search.
  repeat (match goal with
          | |- context [match ?x with _ => _ end] => destruct x
          end; cbn [fst snd option_fmap option_map fmap log_if_context]);
    eexists; (split; [reflexivity |]);
    match goal with
    | |- context [_log_search ?n ?a ?b ?c ?d ?s] =>
        destruct (log_search_entry n a b c d s) as (H1 & H2 & H3 & _ & H0)
    end;
    (split; [exact H0 |]); (split; [exact H1 |]);
    (split; [exact H2 | exact H3]).
Qed.

Lemma imap_numbered {A B} (g : B -> nat) (l : list A) :
  forall (f : nat -> A -> B) (k : nat),
    (forall i x, g (f i x) = k + i) ->
    g <$> imap f l = seq k (length l).
Proof.
  induction l as [|x l IH]; intros f k Hf; [reflexivity |].
  cbn. rewrite Hf, Nat.add_0_r. f_equal.
  apply IH. intros i y. unfold compose. rewrite Hf. lia.
Qed.

Lemma preview_length (doc : string) : String.length (preview doc) <= 203.
Proof.
  unfold preview. destruct (Nat.ltb_spec 200 (String.length doc)); [| lia].
  rewrite length_append. pose proof (slice_to_length 200 doc). cbn. lia.
Qed.

Lemma format_results_ranked (doc_list : list string) (meta_list : list Meta)
    (dist_list : list Dist) :
  let formatted :=
    format_results one_minus default_distance doc_list meta_list dist_list in
  rank <$> formatted = seq 1 (length formatted) /\
  Forall (fun x => String.length (content_preview x) <= 203) formatted.
Proof.
  unfold format_results. rewrite length_imap. split.
  - apply imap_numbered. intros i x. cbn. lia.
  - apply Forall_lookup. intros i x Hx. rewrite list_lookup_imap in Hx.
    destruct (doc_list !! i) as [doc|]; cbn in Hx; [| discriminate].
    injection Hx as <-. cbn. apply preview_length.
Qed.

(** X23: the results of a search are ranked 1, 2, ... in order, each preview
    is at most 203 characters long, the count returned is the number of
    results, and a non-empty result list comes only with the success status
    and the query. *)
Theorem search_results_ranked (self : @VectorSearchTool Dist Embedding)
    (now : Z) (q : string) (max_results : Z)
    (file_type_filter : option string) (ctx : option (@SearchState Dist)) :
  let r :=
    (semantic_search one_minus default_distance encode self now q max_results
       file_type_filter ctx).1 in
  rank <$> results r = seq 1 (length (results r)) /\
  Forall (fun x => String.length (content_preview x) <= 203) (results r) /\
  (results_count r = None \/ results_count r = Some (length (results r))) /\
  (results r <> [] -> status r = "success" /\ response_query r = Some q).
Proof.
  unfold semantic_search.
  repeat (match goal with
          | |- context [match ?x with _ => _ end] => destruct x
          end; cbn [fst snd results status results_count response_query
                    error_response]);
    try (split; [reflexivity |]; split; [apply Forall_nil_2 |];
         split; [left; reflexivity | intros H; congruence]).
  match goal with
  | |- context [format_results _ _ ?d ?m ?x] =>
      destruct (format_results_ranked d m x) as [Hrank Hprev]
  end.
  split; [exact Hrank |]. split; [exact Hprev |].
  split; [right; reflexivity | intros _; split; reflexivity].
Qed.

(** X24: a search only adds to the discovered files of the session: every
    file known before is known after, every file of a result is known after,
    nothing else is added; and a search with results is remembered as the
    last search. *)
Theorem search_knowledge_grows (self : @VectorSearchTool Dist Embedding)
    (now : Z) (q : string) (max_results : Z)
    (file_type_filter : option string) (st : @SearchState Dist) :
  let r :=
    semantic_search one_minus default_distance encode self now q max_results
      file_type_filter (Some st) in
  exists st',
    r.2 = Some st' /\
    known_files st ⊆ known_files st' /\
    (forall x, x ∈ results r.1 -> file_path x ∈ known_files st') /\
    (forall f, f ∈ known_files st' ->
               f ∈ known_files st \/ exists x, x ∈ results r.1 /\ file_path x = f) /\
    (results r.1 <> [] ->
     last_search_results st' = Some (results r.1) /\
     last_search_query st' = Some q).
Proof.
  unfold semantic_search.
  repeat (match goal with
          | |- context [match ?x with _ => _ end] => destruct x
          end; cbn [fst snd option_fmap option_map fmap log_if_context
                    results error_response]);
    eexists; (split; [reflexivity |]);
    try (split; [reflexivity |];
         split; [intros x Hx; inversion Hx |];
         split; [intros f Hf; left; exact Hf |];
         intros Hne; congruence).
  unfold known_files. cbn [discovered_files _log_search default from_option id
                           last_search_results last_search_query].
  split; [apply union_subseteq_l |].
  split.
  - intros x Hx. apply elem_of_union. right.
    apply elem_of_list_to_set, list_elem_of_fmap. exists x. auto.
  - split; [| intros _; split; reflexivity].
    intros f Hf. apply elem_of_union in Hf as [Hf | Hf]; [left; exact Hf |].
    right. apply elem_of_list_to_set, list_elem_of_fmap in Hf as (x & -> & Hx).
    exists x. auto.
Qed.

End SearchSessions.

(** ** Diagnostics and validation in the session *)

Section LspSessions.
Import PyStr Lsp LspTools.
Context {Server : Type}.
Variable create : string -> list string -> outcome Server.

Lemma log_lsp_operation_effect (now : Z) (operation file_path : string)
    (success : bool) (details : string) (st : LspState) :
  let st' := _log_lsp_operation now operation file_path success details st in
  last (operations_logged (Some st'))
  = Some {| lo_timestamp := now; lo_operation := operation;
            lo_file_path := file_path; lo_success := success;
            lo_details := details |} /\
  length (operations_logged (Some st')) <= 50 /\
  code_validations st' = code_validations st /\
  forall other,
    counter (Some st') other
    = (counter (Some st) other
       + if success && bool_decide (other = operation) then 1 else 0)%Z.
Proof.
  unfold _log_lsp_operation, operations_logged, counter. cbn.
  rewrite last_n_snoc_last by lia.
  split; [reflexivity |]. split; [apply last_n_bound |].
  split; [reflexivity |]. intros other.
  destruct success; cbn; [| lia].
  case_bool_decide as Heq.
  - subst other. rewrite lookup_insert_eq. reflexivity.
  - rewrite lookup_insert_ne by congruence. lia.
Qed.

(** What [get_diagnostics] does to a session state: it leaves a state,
    the stored validations and the count of validations as they were. *)
Lemma get_diagnostics_state (reported : list RawDiagnostic) (self : LSPTool)
    (now : Z) (file_path : string) (content : option string) (st : LspState)
    (fs : FS) :
  exists st1,
    (get_diagnostics create reported self now file_path content (Some st)
       fs).2 = Some st1 /\
    code_validations st1 = code_validations st /\
    counter (Some st1) "validations" = counter (Some st) "validations".
Proof.
  unfold get_diagnostics.
  repeat (match goal with
          | |- context [match ?x with _ => _ end] => destruct x
          | |- context [if ?b then _ else _] => destruct b
          end; cbn [fst snd fmap option_fmap option_map log_if]);
    eexists; (split; [reflexivity |]);
    match goal with
    | |- context [_log_lsp_operation ?n ?o ?f ?s ?d ?x] =>
        destruct (log_lsp_operation_effect n o f s d x)
          as (_ & _ & Hv & Hc)
    end;
    (split; [exact Hv |]); rewrite Hc;
    rewrite bool_decide_eq_false_2 by discriminate;
    rewrite andb_false_r; unfold counter; cbn; lia.
Qed.

(** X25: every shadow validation made with a session state is logged as a
    [validations] operation for the file, successful exactly when the answer
    has the success status; the log keeps at most 50 entries, the
    [validations] counter counts the successful ones, and a successful
    answer is stored as the last of at most 20 validations with the same
    verdict and counts. *)
Theorem validation_logged_as_answered (reported : list RawDiagnostic)
    (self : LSPTool) (now : Z) (temp_dir : list string)
    (file_path new_content : string) (st : LspState) (fs : FS) :
  let r :=
    validate_code_in_shadow_workspace create reported self now temp_dir
      file_path new_content (Some st) fs in
  let answered := String.eqb (response_status r.1.1) "success" in
  (exists e,
     last (operations_logged r.1.2) = Some e /\
     lo_operation e = "validations" /\
     lo_file_path e = file_path /\
     lo_success e = answered) /\
  length (operations_logged r.1.2) <= 50 /\
  counter r.1.2 "validations"
  = (counter (Some st) "validations" + if answered then 1 else 0)%Z /\
  (forall valid ec wc ds tw,
     r.1.1 = ValidationSuccess valid ec wc ds tw ->
     length (validations_stored r.1.2) <= 20 /\
     last (validations_stored r.1.2)
     = Some {| cv_timestamp := now; cv_file_path := file_path;
               cv_valid := valid; cv_error_count := ec;
               cv_warning_count := wc |}).
Proof.
  unfold validate_code_in_shadow_workspace, with_temporary_directory, bind.
  assert (Hfail : forall (e : string) (fs' : FS),
    let r := (ValidationFailure ("Error validating code: " +:+ e),
              log_if now "validations" file_path false
                ("Error validating code: " +:+ e) (Some st), fs') in
    let answered := String.eqb (response_status r.1.1) "success" in
    (exists e,
       last (operations_logged r.1.2) = Some e /\
       lo_operation e = "validations" /\
       lo_file_path e = file_path /\
       lo_success e = answered) /\
    length (operations_logged r.1.2) <= 50 /\
    counter r.1.2 "validations"
    = (counter (Some st) "validations" + if answered then 1 else 0)%Z /\
    (forall valid ec wc ds tw,
       r.1.1 = ValidationSuccess valid ec wc ds tw ->
       length (validations_stored r.1.2) <= 20 /\
       last (validations_stored r.1.2)
       = Some {| cv_timestamp := now; cv_file_path := file_path;
                 cv_valid := valid; cv_error_count := ec;
                 cv_warning_count := wc |})).
  { intros e fs'. cbn [fst snd log_if fmap option_fmap option_map
                        response_status].
    destruct (log_lsp_operation_effect now "validations" file_path false
                ("Error validating code: " +:+ e) st) as (Hl & Hb & _ & Hc).
    cbn zeta in Hl, Hb, Hc.
    split; [eexists; split; [exact Hl | repeat split] |].
    split; [exact Hb |].
    split; [rewrite Hc; reflexivity | discriminate]. }
  destruct (mkdtemp temp_dir fs) as [fs1 [[]|e1]]; [| apply Hfail].
  destruct (_copy_workspace_context self temp_dir file_path fs1)
    as [fs2 [[]|e2]]; [| apply Hfail].
  destruct (mkdir_parents _ fs2) as [fs3 [[]|e3]]; [| apply Hfail].
  destruct (write_text _ new_content fs3) as [fs4 [[]|e4]]; [| apply Hfail].
  clear Hfail.
  destruct (get_diagnostics_state reported (new_tool temp_dir) now file_path
              (Some new_content) st fs4) as (st1 & Hst1 & Hv1 & Hc1).
  unfold shadow_verdict. rewrite Hst1.
  cbn [fst snd fmap option_fmap option_map response_status].
  match goal with
  | |- context [_log_lsp_operation ?n ?o ?f ?s ?d ?x] =>
      destruct (log_lsp_operation_effect n o f s d x) as (Hl & Hb & Hv & Hc);
      cbn zeta in Hl, Hb, Hv, Hc
  end.
  split; [eexists; split; [exact Hl | repeat split] |].
  split; [exact Hb |].
  split.
  - rewrite Hc, <- Hc1. cbn. unfold counter. cbn. reflexivity.
  - intros valid ec wc ds tw [= <- <- <- _ _].
    unfold validations_stored. cbn [mbind option_bind]. rewrite Hv.
    cbn [code_validations default from_option id].
    split; [apply last_n_bound | apply last_n_snoc_last; lia].
Qed.

Lemma get_diagnostics_placeholder (self : LSPTool) (now : Z)
    (file_path : string) (content : option string) (ctx : option LspState)
    (fs : FS) :
  dr_diagnostics (get_diagnostics create [] self now file_path content ctx
                    fs).1 = [].
Proof.
  unfold get_diagnostics.
  repeat (match goal with
          | |- context [match ?x with _ => _ end] => destruct x
          | |- context [if ?b then _ else _] => destruct b
          end; cbn [fst snd]); reflexivity.
Qed.

(** X26: with the placeholder list the source binds in place of the language
    server's answer, shadow validation rejects no code: whatever the
    content, the answer is either the success dict with [valid] true and no
    diagnostics, or the error dict of a failed file-system step. *)
Theorem placeholder_validation_never_rejects (self : LSPTool) (now : Z)
    (temp_dir : list string) (file_path new_content : string)
    (ctx : option LspState) (fs : FS) :
  let r :=
    (validate_code_in_shadow_workspace create [] self now temp_dir file_path
       new_content ctx fs).1.1 in
  r = ValidationSuccess true 0 0 [] (path_text temp_dir) \/
  exists e, r = ValidationFailure ("Error validating code: " +:+ e).
Proof.
  unfold validate_code_in_shadow_workspace, with_temporary_directory, bind.
  destruct (mkdtemp temp_dir fs) as [fs1 [[]|e1]];
    [| right; eexists; reflexivity].
  destruct (_copy_workspace_context self temp_dir file_path fs1)
    as [fs2 [[]|e2]]; [| right; eexists; reflexivity].
  destruct (mkdir_parents _ fs2) as [fs3 [[]|e3]];
    [| right; eexists; reflexivity].
  destruct (write_text _ new_content fs3) as [fs4 [[]|e4]];
    [| right; eexists; reflexivity].
  left. unfold shadow_verdict. cbn [fst snd].
  rewrite get_diagnostics_placeholder. reflexivity.
Qed.

(** X27: when the diagnostics tool is given a non-empty content it never
    consults the file system: the answer and the session state are the same
    on any two trees. *)
Theorem given_content_ignores_disk (reported : list RawDiagnostic)
    (root : list string) (now : Z) (file_path content : string)
    (ctx : option LspState) (fs fs' : FS) :
  content <> "" ->
  get_diagnostics_tool create reported root now file_path content ctx fs
  = get_diagnostics_tool create reported root now file_path content ctx fs'.
Proof.
  intros Hne. unfold get_diagnostics_tool.
  apply String.eqb_neq in Hne. rewrite Hne.
  unfold get_diagnostics.
  destruct (_get_or_create_server create (new_tool root) _).1; reflexivity.
Qed.


End LspSessions.

Section LspSessionExamples.
Import PyStr Lsp LspTools.

Lemma given_content_ignores_disk_witness :
  get_diagnostics_tool working mixed_report ["srv"; "app"] 0 "main.py"
    "import os" (Some no_operations) project_fs
  = get_diagnostics_tool working mixed_report ["srv"; "app"] 0 "main.py"
      "import os" (Some no_operations) ∅.
Proof. apply given_content_ignores_disk. discriminate. Defined.


Lemma absolute_target_ancestors :
  ancestors_are_dirs (PosixPath.parts "/srv/app/main.py") project_fs.
Proof.
  intros q [xs Hq] Hne Hnil.
  change (PosixPath.parts "/srv/app/main.py")
    with ["srv"; "app"; "main.py"] in *.
  destruct q as [|a [|b [|c q]]]; cbn in Hq; try congruence.
  - injection Hq as <- _. reflexivity.
  - injection Hq as <- <- _. reflexivity.
  - injection Hq as <- <- <- Hq. destruct q; [| discriminate].
    congruence.
Qed.

Lemma absolute_target_overwritten_witness :
  (validate_code_in_shadow_workspace working mixed_report app_tool 0
     ["tmp"; "tmpab12"] "/srv/app/main.py" "new" None project_fs).2
  !! PosixPath.parts "/srv/app/main.py" = Some (File "new").
Proof.
  apply (absolute_target_overwritten working mixed_report ["tmp"; "tmpab12"])
    with (old := "old").
  - apply (bool_decide_unpack _). vm_compute. exact I.
  - reflexivity.
  - apply (bool_decide_unpack _). vm_compute. exact I.
  - vm_compute. discriminate.
  - reflexivity.
  - exact absolute_target_ancestors.
  - apply (bool_decide_unpack _). vm_compute. exact I.
  - reflexivity.
  - discriminate.
  - reflexivity.
Defined.

End LspSessionExamples.
